(** * Identity and access control of the Express enterprise server

    A shallow embedding of the user service ([services/sysUserService.js]),
    the two user models ([models/user.js], [models/sysUser.js]), the Redis
    wrapper ([utils/redis.js]), the JWT middleware
    ([middleware/auth/jwtAuth.js]) and the logout route ([routes/api/auth.js]),
    followed by the properties of the specification that concern them.

    The code is asynchronous JavaScript.  One request is modelled as a
    computation over a [World] (the database tables, the Redis keyspace, the
    clock and the schedule of collaborator failures) that either returns a
    value or throws, and keeps the world it reached in both cases. *)

From Stdlib Require Import ZArith Ascii String List Bool Lia.
From stdpp Require Import base option list gmap strings.
Import ListNotations.
Local Open Scope string_scope.
Local Open Scope Z_scope.
Set Warnings "-register-all".

(** ** JavaScript values *)

(** [VJson v] is the string produced by [JSON.stringify v]; [VDate] is a
    [Date] holding milliseconds since the epoch.  Objects keep their keys in
    insertion order. *)
Inductive JsVal : Type :=
  | VUndef
  | VNull
  | VBool (b : bool)
  | VNum (n : Z)
  | VStr (s : string)
  | VNaN
  | VDate (ms : Z)
  | VJson (v : JsVal)
  | VArr (l : list JsVal)
  | VObj (o : list (string * JsVal)).

Abbreviation obj := (list (string * JsVal)).

(** Truthiness, as used by [if (x)], [!x], [a || b] and [a && b]. *)
Definition truthy (v : JsVal) : bool :=
  match v with
  | VUndef | VNull | VNaN => false
  | VBool b => b
  | VNum n => negb (n =? 0)
  | VStr s => negb (String.eqb s "")
  | VDate _ | VJson _ | VArr _ | VObj _ => true
  end.

(** [a || b] *)
Definition js_or (a b : JsVal) : JsVal := if truthy a then a else b.

(** [a === b] on primitives.  Two object or array values met here are always
    distinct references, so they compare unequal. *)
Definition js_strict_eq (a b : JsVal) : bool :=
  match a, b with
  | VUndef, VUndef => true
  | VNull, VNull => true
  | VBool x, VBool y => Bool.eqb x y
  | VNum x, VNum y => x =? y
  | VStr x, VStr y => String.eqb x y
  | VJson x, VJson y => false
  | _, _ => false
  end.

(** [arr.includes(x)] *)
Definition js_includes (arr : list JsVal) (x : JsVal) : bool :=
  existsb (fun y => js_strict_eq y x) arr.

(** *** Property access on objects *)

Fixpoint obj_get (k : string) (o : obj) : JsVal :=
  match o with
  | [] => VUndef
  | (k', v) :: r => if String.eqb k k' then v else obj_get k r
  end.

Fixpoint obj_has (k : string) (o : obj) : bool :=
  match o with
  | [] => false
  | (k', _) :: r => String.eqb k k' || obj_has k r
  end.

(** [o[k] = v]: overwrite in place, or append a new key. *)
Fixpoint obj_set (k : string) (v : JsVal) (o : obj) : obj :=
  match o with
  | [] => [(k, v)]
  | (k', v') :: r =>
      if String.eqb k k' then (k', v) :: r else (k', v') :: obj_set k v r
  end.

(** [delete o[k]] *)
Fixpoint obj_del (k : string) (o : obj) : obj :=
  match o with
  | [] => []
  | (k', v') :: r =>
      if String.eqb k k' then obj_del k r else (k', v') :: obj_del k r
  end.

(** [{...a, ...b}] *)
Definition obj_spread (a b : obj) : obj :=
  fold_left (fun acc kv => obj_set (fst kv) (snd kv) acc) b a.

Definition obj_keys (o : obj) : list string := map fst o.

(** *** JSON round trip

    [json_rt toISO v] is [JSON.parse (JSON.stringify v)] for a value nested
    in an array or an object: dates become ISO strings, [NaN] becomes
    [null], [undefined] members of an object are dropped, [undefined]
    elements of an array become [null].  The formatting of dates belongs to
    the runtime. *)
Section Json.
Variable toISOString : Z -> string.

Fixpoint json_rt (v : JsVal) : JsVal :=
  match v with
  | VNaN => VNull
  | VDate ms => VStr (toISOString ms)
  | VArr l =>
      VArr (map (fun x => match x with VUndef => VNull | _ => json_rt x end) l)
  | VObj o =>
      VObj ((fix fields (o : obj) : obj :=
               match o with
               | [] => []
               | (k, x) :: r =>
                   match x with
                   | VUndef => fields r
                   | _ => (k, json_rt x) :: fields r
                   end
               end) o)
  | _ => v
  end.

Definition json_fields : obj -> obj :=
  fix fields (o : obj) : obj :=
    match o with
    | [] => []
    | (k, x) :: r =>
        match x with
        | VUndef => fields r
        | _ => (k, json_rt x) :: fields r
        end
    end.
End Json.

(** ** Errors

    [ApiError] is the class of [middleware/generic/errorHandler.js]; the other
    exceptions are the ones the collaborators raise.  [EJwt] carries the
    [name] that [authenticate] inspects. *)
Record ApiError : Type := mkApiError
  { statusCode : Z; message : string; code : string }.

Inductive Exn : Type :=
  | EApi (e : ApiError)
  | EJwt (name : string)
  | ERedis
  | EDb
  | EBcrypt
  | ETypeError (msg : string).

(** [error instanceof ApiError] *)
Definition instanceof_ApiError (e : Exn) : bool :=
  match e with EApi _ => true | _ => false end.

(** [constants/statusCodes.js] *)
Module statusCodes.
Definition CREATED : Z := 201.
Definition BAD_REQUEST : Z := 400.
Definition UNAUTHORIZED : Z := 401.
Definition FORBIDDEN : Z := 403.
Definition NOT_FOUND : Z := 404.
Definition CONFLICT : Z := 409.
Definition INTERNAL_SERVER_ERROR : Z := 500.
End statusCodes.

(** [constants/business.js] *)
Module CACHE_PREFIXES.
Definition USER : string := "user:".
Definition TOKEN : string := "token:".
Definition LOCK : string := "lock:".
End CACHE_PREFIXES.

Module CACHE_TTL.
Definition SHORT : Z := 60.
Definition MEDIUM : Z := 300.
Definition LONG : Z := 3600.
Definition DAY : Z := 86400.
Definition WEEK : Z := 604800.
End CACHE_TTL.

Module USER_ROLES.
Definition ADMIN : string := "admin".
Definition MANAGER : string := "manager".
Definition USER : string := "user".
Definition GUEST : string := "guest".
End USER_ROLES.

Module USER_STATUS.
Definition ACTIVE : JsVal := VNum 1.
Definition INACTIVE : JsVal := VNum 2.
End USER_STATUS.

(** ** The world a request runs in *)

(** A Redis key holds a text and an optional expiry instant in
    milliseconds.  The text is represented by the value it parses to;
    [VUndef] stands for the empty text. *)
Record CacheEntry : Type := mkEntry { ce_val : JsVal; ce_exp : option Z }.

(** Rows of [sys_role] and [sys_permission], with the columns the service
    reads. *)
Record Role : Type := mkRole
  { r_id : string; r_role_name : option string; r_role_code : string }.

Record Permission : Type := mkPermission
  { p_id : string;
    p_name : option string;
    p_perms : option string;
    p_status : option string;
    p_del_flag : option Z }.

(** The tables.  User rows are kept as objects because the service and the
    two model files address them by column name.  The two join tables hold
    [(user_id, role_id)] and [(role_id, permission_id)]. *)
Record Db : Type := mkDb
  { users : list obj;
    roles : list Role;
    permissions : list Permission;
    user_roles : list (string * string);
    role_permissions : list (string * string) }.

(** [db_faults] and [redis_faults] script the collaborators: each call to
    Sequelize (resp. to the ioredis client) consumes one entry and is
    rejected when the entry is [true]; an exhausted schedule means no more
    failures. *)
Record World : Type := mkWorld
  { now : Z;
    db : Db;
    db_faults : list bool;
    redis : gmap string CacheEntry;
    redis_faults : list bool }.

Definition set_db (d : Db) (w : World) : World :=
  mkWorld (now w) d (db_faults w) (redis w) (redis_faults w).
Definition set_db_faults (f : list bool) (w : World) : World :=
  mkWorld (now w) (db w) f (redis w) (redis_faults w).
Definition set_redis (r : gmap string CacheEntry) (w : World) : World :=
  mkWorld (now w) (db w) (db_faults w) r (redis_faults w).
Definition set_redis_faults (f : list bool) (w : World) : World :=
  mkWorld (now w) (db w) (db_faults w) (redis w) f.
Definition set_now (t : Z) (w : World) : World :=
  mkWorld t (db w) (db_faults w) (redis w) (redis_faults w).
Definition set_users (us : list obj) (d : Db) : Db :=
  mkDb us (roles d) (permissions d) (user_roles d) (role_permissions d).

(** ** Computations that may throw *)

Inductive Res (A : Type) : Type :=
  | Ok (a : A)
  | Throw (e : Exn).
Arguments Ok {A} a.
Arguments Throw {A} e.

Definition M (A : Type) : Type := World -> Res A * World.

Definition ret {A} (a : A) : M A := fun w => (Ok a, w).
Definition throw {A} (e : Exn) : M A := fun w => (Throw e, w).
Definition bind {A B} (c : M A) (k : A -> M B) : M B :=
  fun w => match c w with
           | (Ok a, w') => k a w'
           | (Throw e, w') => (Throw e, w')
           end.
(** [try { c } catch (error) { h error }] *)
Definition try_catch {A} (c : M A) (h : Exn -> M A) : M A :=
  fun w => match c w with
           | (Ok a, w') => (Ok a, w')
           | (Throw e, w') => h e w'
           end.

Notation "'let*' x ':=' c 'in' k" := (bind c (fun x => k))
  (at level 10, x pattern, c at level 100, k at level 200).
Notation "c ';;' k" := (bind c (fun _ => k))
  (at level 100, k at level 200, right associativity).

(** [Date.now()] *)
Definition Date_now : M Z := fun w => (Ok (now w), w).

(** ** The ioredis client *)

Definition next_fault (fs : list bool) : bool * list bool :=
  match fs with
  | [] => (false, [])
  | b :: r => (b, r)
  end.

(** One round trip to Redis. *)
Definition redis_command : M unit :=
  fun w =>
    let (b, r) := next_fault (redis_faults w) in
    if b then (Throw ERedis, set_redis_faults r w)
    else (Ok tt, set_redis_faults r w).

(** A key is visible until its expiry instant. *)
Definition live (t : Z) (e : CacheEntry) : bool :=
  match ce_exp e with
  | None => true
  | Some x => t <? x
  end.

Definition visible (w : World) (key : string) : option JsVal :=
  match redis w !! key with
  | Some e => if live (now w) e then Some (ce_val e) else None
  | None => None
  end.

(** [client.get(key)] *)
Definition client_get (key : string) : M (option JsVal) :=
  redis_command ;; fun w => (Ok (visible w key), w).

(** [client.set(key, text)]: no expiry. *)
Definition client_set (key : string) (text : JsVal) : M unit :=
  redis_command ;;
  fun w => (Ok tt, set_redis (<[key := mkEntry text None]> (redis w)) w).

(** [client.setex(key, seconds, text)]; Redis rejects a non-positive
    expire time. *)
Definition client_setex (key : string) (seconds : Z) (text : JsVal) : M unit :=
  redis_command ;;
  if seconds <=? 0 then throw ERedis
  else fun w =>
    (Ok tt,
     set_redis (<[key := mkEntry text (Some (now w + seconds * 1000))]> (redis w)) w).

(** [client.del(key)] *)
Definition client_del (key : string) : M unit :=
  redis_command ;; fun w => (Ok tt, set_redis (delete key (redis w)) w).

(** Truthiness of what [client.get] resolved to: [null] and the empty text
    are falsy. *)
Definition text_truthy (raw : option JsVal) : bool :=
  match raw with
  | None | Some VUndef => false
  | Some _ => true
  end.

(** ** [utils/redis.js]: class [RedisClient] *)
Section RedisClient.
Variable toISOString : Z -> string.

(** [ensureConnection()], which connects when there is no live client. *)
Definition ensureConnection : M unit := redis_command.

(** [get(key)] *)
Definition RedisClient_get (key : string) : M JsVal :=
  try_catch
    (ensureConnection ;;
     let* value := client_get key in
     ret (match value with
          | Some t => if text_truthy value then t else VNull
          | None => VNull
          end))
    (fun _ => ret VNull).

(** [set(key, value, ttl)] *)
Definition RedisClient_set (key : string) (value : JsVal) (ttl : Z) : M bool :=
  try_catch
    (ensureConnection ;;
     let serialized := json_rt toISOString value in
     (if negb (ttl =? 0) then client_setex key ttl serialized
      else client_set key serialized) ;;
     ret true)
    (fun _ => ret false).

(** [del(key)] *)
Definition RedisClient_del (key : string) : M bool :=
  try_catch
    (ensureConnection ;; client_del key ;; ret true)
    (fun _ => ret false).

(** [redisClient.delete(key)]: the class declares [get], [set], [del],
    [setWithExpiry], [hgetall], [hset], [hget], [acquireLock],
    [releaseLock] and [ensureConnection], and no [delete]; calling the
    missing property throws a [TypeError]. *)
Definition RedisClient_delete (key : string) : M bool :=
  throw (ETypeError "redisClient.delete is not a function").
End RedisClient.

(** ** Libraries and configuration

    bcryptjs, jsonwebtoken, the SQL engine and the runtime's formatting are
    collaborators; the development is parametric in them. *)

(** The claim set of a token: the payload built by [generateToken] plus the
    [iat] and [exp] (seconds) that [jwt.sign] adds. *)
Record Claims : Type := mkClaims
  { c_id : string;
    c_username : JsVal;
    c_email : JsVal;
    c_roles : list JsVal;
    c_tenantId : JsVal;
    c_iat : Z;
    c_exp : option Z }.

Record Env : Type := mkEnv
  { (** [bcrypt.compare(candidate, hash)] on two strings *)
    bcrypt_compare : string -> string -> bool;
    (** [bcrypt.hash(password, salt)] *)
    bcrypt_hash : string -> string -> string;
    (** [bcrypt.genSalt(rounds)] *)
    bcrypt_genSalt : Z -> string;
    (** the compact serialisation signed with [config.jwt.secret] *)
    jwt_sign : Claims -> string;
    (** [jwt.decode(token)]: the payload, whatever the signature *)
    jwt_decode : string -> option Claims;
    (** whether the signature verifies under [config.jwt.secret] *)
    jwt_signed : string -> bool;
    (** [config.jwt.expiresIn], in seconds *)
    jwt_expiresIn : Z;
    (** [Date.prototype.toISOString] *)
    toISOString : Z -> string;
    (** [DataTypes.UUIDV4], drawn for the n-th row *)
    uuidv4 : nat -> string;
    (** [column = value] in a [WHERE] clause *)
    sql_eq : JsVal -> JsVal -> bool;
    (** [column LIKE '%search%'] *)
    sql_like : JsVal -> string -> bool;
    (** [JSON_CONTAINS(column, '"role"')] *)
    sql_json_contains : JsVal -> string -> bool;
    (** [ORDER BY sortBy sortOrder] *)
    sql_order : JsVal -> JsVal -> list obj -> list obj }.

(** ** The two user models *)

(** What [sequelize.define] and the prototype assignments of a model file
    give the service.  [m_beforeSave changed user] is the hook, told whether
    [user.changed('password')] holds; it yields [None] when bcryptjs
    rejects its arguments.  [m_updateLoginTime] is the assignments of
    [updateLoginTime] before its [save()].  [m_associations] are the aliases
    that [associate] declares among the models of [utils/database.js]. *)
Record UserModel : Type := mkUserModel
  { m_columns : list string;
    m_associations : list string;
    m_defaults : obj;
    m_uuid_pk : bool;
    m_timestamps : bool;
    m_paranoid : bool;
    m_beforeSave : bool -> obj -> option obj;
    m_updateLoginTime : Z -> obj -> obj;
    m_isLocked : Z -> obj -> bool }.

(** *** [models/user.js] *)
Module UserJs.
Definition columns : list string :=
  ["id"; "username"; "email"; "password"; "firstName"; "lastName"; "roles";
   "status"; "lastLogin"; "phoneNumber"; "avatar"; "tenantId";
   "passwordResetToken"; "passwordResetExpires"; "emailVerified";
   "failedLoginAttempts"; "lockUntil"; "createdAt"; "updatedAt"; "deletedAt"].

Definition defaults : obj :=
  [("roles", VArr [VStr USER_ROLES.USER]);
   ("status", USER_STATUS.ACTIVE);
   ("emailVerified", VBool false);
   ("failedLoginAttempts", VNum 0)].

(** [hooks.beforeSave] *)
Definition beforeSave (env : Env) (changed : bool) (user : obj) : option obj :=
  if changed then
    let salt := bcrypt_genSalt env 10 in
    match obj_get "password" user with
    | VStr pw => Some (obj_set "password" (VStr (bcrypt_hash env pw salt)) user)
    | _ => None
    end
  else Some user.

(** [User.prototype.updateLoginTime], before [this.save()] *)
Definition updateLoginTime (t : Z) (this : obj) : obj :=
  obj_set "lockUntil" VNull
    (obj_set "failedLoginAttempts" (VNum 0)
       (obj_set "lastLogin" (VDate t) this)).

(** [x += 1] *)
Definition plus_one (v : JsVal) : JsVal :=
  match v with
  | VNum n => VNum (n + 1)
  | VNull => VNum 1
  | VBool b => VNum (if b then 2 else 1)
  | _ => VNaN
  end.

(** [x >= 5] *)
Definition at_least_5 (v : JsVal) : bool :=
  match v with
  | VNum n => 5 <=? n
  | _ => false
  end.

(** [User.prototype.incrementFailedLogins], before [this.save()] *)
Definition incrementFailedLogins (t : Z) (this : obj) : obj :=
  let this1 :=
    obj_set "failedLoginAttempts"
      (plus_one (obj_get "failedLoginAttempts" this)) this in
  if at_least_5 (obj_get "failedLoginAttempts" this1) then
    let lockTime := t + 30 * 60 * 1000 in
    obj_set "lockUntil" (VDate lockTime) this1
  else this1.

(** [User.prototype.isLocked]: [this.lockUntil && new Date() < this.lockUntil] *)
Definition isLocked (t : Z) (this : obj) : bool :=
  match obj_get "lockUntil" this with
  | VDate u => t <? u
  | VNum u => negb (u =? 0) && (t <? u)
  | _ => false
  end.

Definition model (env : Env) : UserModel :=
  {| m_columns := columns;
     m_associations := [];
     m_defaults := defaults;
     m_uuid_pk := true;
     m_timestamps := true;
     m_paranoid := true;
     m_beforeSave := beforeSave env;
     m_updateLoginTime := updateLoginTime;
     m_isLocked := isLocked |}.
End UserJs.

(** *** [models/sysUser.js], the model [utils/database.js] registers as
    [sequelize.models.User] *)
Module SysUser.
Definition columns : list string :=
  ["id"; "username"; "realname"; "password"; "salt"; "avatar"; "birthday";
   "sex"; "email"; "phone"; "org_code"; "status"; "del_flag"; "third_id";
   "third_type"; "activiti_sync"; "work_no"; "telephone"; "create_by";
   "create_time"; "update_by"; "update_time"; "user_identity"; "depart_ids";
   "client_id"; "login_tenant_id"; "bpm_status"].

Definition defaults : obj := [("status", VNum 1); ("del_flag", VNum 0)].

(** [hooks.beforeSave] *)
Definition beforeSave (env : Env) (changed : bool) (user : obj) : option obj :=
  if changed && truthy (obj_get "password" user) then
    let user1 :=
      if negb (truthy (obj_get "salt" user))
      then obj_set "salt" (VStr (bcrypt_genSalt env 10)) user
      else user in
    match obj_get "password" user1, obj_get "salt" user1 with
    | VStr pw, VStr salt =>
        Some (obj_set "password" (VStr (bcrypt_hash env pw salt)) user1)
    | _, _ => None
    end
  else Some user.

(** [User.prototype.updateLoginTime], before [this.save()] *)
Definition updateLoginTime (t : Z) (this : obj) : obj :=
  obj_set "update_time" (VDate t) this.

(** [User.prototype.isLocked]: [this.status === 2] *)
Definition isLocked (t : Z) (this : obj) : bool :=
  js_strict_eq (obj_get "status" this) (VNum 2).

Definition model (env : Env) : UserModel :=
  {| m_columns := columns;
     m_associations := ["roles"; "departs"];
     m_defaults := defaults;
     m_uuid_pk := false;
     m_timestamps := false;
     m_paranoid := false;
     m_beforeSave := beforeSave env;
     m_updateLoginTime := updateLoginTime;
     m_isLocked := isLocked |}.
End SysUser.

(** ** Sequelize *)

(** One round trip to the database ([getConnection], a query, [commit],
    [rollback]). *)
Definition db_call : M unit :=
  fun w =>
    let (b, r) := next_fault (db_faults w) in
    if b then (Throw EDb, set_db_faults r w)
    else (Ok tt, set_db_faults r w).

Definition get_db : M Db := fun w => (Ok (db w), w).
Definition put_db (d : Db) : M unit := fun w => (Ok tt, set_db d w).
Definition put_users (us : list obj) : M unit :=
  fun w => (Ok tt, set_db (set_users us (db w)) w).

(** A role as eager loading attaches it to a user, with its permissions. *)
Record LoadedRole : Type := mkLoadedRole
  { lr_role : Role; lr_permissions : list Permission }.

(** A model instance: its [dataValues] and, when the query had the [roles]
    include, the loaded association. *)
Record Instance : Type := mkInstance
  { i_row : obj; i_roles : option (list LoadedRole) }.

Definition opt_str (o : option string) : JsVal :=
  match o with Some s => VStr s | None => VNull end.
Definition opt_num (o : option Z) : JsVal :=
  match o with Some n => VNum n | None => VNull end.

Definition permission_json (p : Permission) : JsVal :=
  VObj [("id", VStr (p_id p)); ("name", opt_str (p_name p));
        ("perms", opt_str (p_perms p)); ("status", opt_str (p_status p));
        ("del_flag", opt_num (p_del_flag p))].

Definition role_json (r : LoadedRole) : JsVal :=
  VObj [("id", VStr (r_id (lr_role r)));
        ("role_name", opt_str (r_role_name (lr_role r)));
        ("role_code", VStr (r_role_code (lr_role r)));
        ("permissions", VArr (map permission_json (lr_permissions r)))].

(** [user.roles] *)
Definition instance_roles (u : Instance) : JsVal :=
  match i_roles u with
  | Some l => VArr (map role_json l)
  | None => obj_get "roles" (i_row u)
  end.

(** [user.toJSON()] *)
Definition toJSON (u : Instance) : obj :=
  match i_roles u with
  | Some l => obj_set "roles" (VArr (map role_json l)) (i_row u)
  | None => i_row u
  end.

(** The [Permission] include of [login]:
    [where: { del_flag: 0, status: '1' }, required: false]. *)
Definition permission_valid (p : Permission) : bool :=
  match p_del_flag p, p_status p with
  | Some d, Some s => (d =? 0) && String.eqb s "1"
  | _, _ => false
  end.

Definition permissions_of (d : Db) (role_id : string) : list Permission :=
  List.filter
    (fun p =>
       existsb (fun rp => String.eqb (fst rp) role_id && String.eqb (snd rp) (p_id p))
         (role_permissions d)
       && permission_valid p)
    (permissions d).

(** The [Role] include of [login], through [sys_user_role]. *)
Definition roles_of (d : Db) (user_id : string) : list LoadedRole :=
  map (fun r => mkLoadedRole r (permissions_of d (r_id r)))
    (List.filter
       (fun r =>
          existsb (fun ur => String.eqb (fst ur) user_id && String.eqb (snd ur) (r_id r))
            (user_roles d))
       (roles d)).

(** Primary keys are string columns in both models. *)
Definition row_id (row : obj) : string :=
  match obj_get "id" row with
  | VStr s => s
  | _ => ""
  end.

Definition exclude_attributes (excl : list string) (row : obj) : obj :=
  fold_left (fun acc k => obj_del k acc) excl row.

(** [instance.set(values)]: keys that are not attributes are ignored. *)
Definition instance_set (cols : list string) (values row : obj) : obj :=
  fold_left
    (fun acc kv =>
       if existsb (String.eqb (fst kv)) cols then obj_set (fst kv) (snd kv) acc
       else acc)
    values row.

Definition replace_row (row : obj) (us : list obj) : list obj :=
  map (fun r => if String.eqb (row_id r) (row_id row) then row else r) us.

Definition remove_row (id : string) (us : list obj) : list obj :=
  List.filter (fun r => negb (String.eqb (row_id r) id)) us.

Section Sequelize.
Context (env : Env) (m : UserModel).

(** [getUserModel(dbType)], that is [database.getConnection]. *)
Definition getUserModel : M unit := db_call.

(** The default scope of a paranoid model: [deletedAt IS NULL]. *)
Definition in_scope (row : obj) : bool :=
  if m_paranoid m then negb (truthy (obj_get "deletedAt" row)) else true.

(** [User.findOne({ where })] *)
Definition Model_findOne (where_ : obj -> bool) : M (option Instance) :=
  db_call ;;
  let* d := get_db in
  ret (option_map (fun r => mkInstance r None)
         (List.find (fun r => in_scope r && where_ r) (users d))).

(** Whether the table has the named columns. *)
Definition has_columns (cols : list string) : bool :=
  forallb (fun k => existsb (String.eqb k) (m_columns m)) cols.

(** [User.findOne({ where, include: [roles -> permissions] })] for a
    [where] over the named columns.  Sequelize refuses to load an
    association that the model does not declare, and a column that the
    table lacks is an SQL error. *)
Definition Model_findOne_roles (cols : list string) (where_ : obj -> bool)
    : M (option Instance) :=
  if negb (existsb (String.eqb "roles") (m_associations m)) then throw EDb
  else
    db_call ;;
    if negb (has_columns cols) then throw EDb
    else
      let* d := get_db in
      ret (option_map (fun r => mkInstance r (Some (roles_of d (row_id r))))
             (List.find (fun r => in_scope r && where_ r) (users d))).

(** [User.findByPk(id)] and [User.findByPk(id, { attributes: { exclude } })] *)
Definition Model_findByPk (id : string) (excl : list string) : M (option Instance) :=
  db_call ;;
  let* d := get_db in
  ret (option_map (fun r => mkInstance (exclude_attributes excl r) None)
         (List.find (fun r => in_scope r && String.eqb (row_id r) id) (users d))).

(** [instance.save()] of a loaded instance whose password did not change:
    the hook, then [UPDATE ... WHERE id = this.id]. *)
Definition instance_save (u : Instance) : M Instance :=
  match m_beforeSave m false (i_row u) with
  | None => throw EBcrypt
  | Some row1 =>
      let* t := Date_now in
      let row2 := if m_timestamps m then obj_set "updatedAt" (VDate t) row1 else row1 in
      db_call ;;
      let* d := get_db in
      put_users (replace_row row2 (users d)) ;;
      ret (mkInstance row2 (i_roles u))
  end.

(** [instance.update(values)] *)
Definition instance_update (values : obj) (u : Instance) : M Instance :=
  instance_save (mkInstance (instance_set (m_columns m) values (i_row u)) (i_roles u)).

(** [instance.destroy()]: a paranoid model stamps [deletedAt], the other
    deletes the row. *)
Definition instance_destroy (u : Instance) : M unit :=
  let* t := Date_now in
  db_call ;;
  let* d := get_db in
  if m_paranoid m
  then put_users (replace_row (obj_set "deletedAt" (VDate t) (i_row u)) (users d))
  else put_users (remove_row (row_id (i_row u)) (users d)).

(** Column defaults for the attributes [values] leaves out. *)
Definition with_defaults (n : nat) (row : obj) : obj :=
  let row1 :=
    fold_left
      (fun acc kv => if obj_has (fst kv) acc then acc else obj_set (fst kv) (snd kv) acc)
      (m_defaults m) row in
  if m_uuid_pk m && negb (obj_has "id" row1)
  then obj_set "id" (VStr (uuidv4 env n)) row1
  else row1.

(** [User.create(values)]: build, hook, [INSERT].  The primary key must be
    a string by then. *)
Definition Model_create (values : obj) : M Instance :=
  let* d := get_db in
  let* t := Date_now in
  let row0 := with_defaults (length (users d)) (instance_set (m_columns m) values []) in
  let row1 :=
    if m_timestamps m
    then obj_set "updatedAt" (VDate t) (obj_set "createdAt" (VDate t) row0)
    else row0 in
  match m_beforeSave m (obj_has "password" row1) row1 with
  | None => throw EBcrypt
  | Some row2 =>
      db_call ;;
      match obj_get "id" row2 with
      | VStr _ =>
          let* d' := get_db in
          put_users (users d' ++ [row2]) ;;
          ret (mkInstance row2 None)
      | _ => throw EDb
      end
  end.

(** [database.transaction(callback)] of [utils/database.js]. *)
Definition transaction {A} (callback : M A) : M A :=
  db_call ;;
  let* snapshot := get_db in
  let* began := try_catch (db_call ;; ret true) (fun _ => ret false) in
  if began : bool then
    try_catch
      (let* result := callback in
       db_call ;;
       ret result)
      (fun error =>
         put_db snapshot ;;
         db_call ;;
         throw error)
  else throw EDb.
End Sequelize.

(** [User.sequelize.Op.member].  The operator symbols are the static
    [Sequelize.Op]; an instance of Sequelize 6, the version the repository
    depends on, has no [Op] property, and nothing in the repository gives it
    one.  Reading a member of [undefined] throws a [TypeError]. *)
Definition sequelize_Op (member : string) : M unit :=
  throw (ETypeError
           (String.append "Cannot read properties of undefined (reading '"
              (String.append member "')"))).

(** ** [services/sysUserService.js]: class [SysUserService] *)

Record LoginResult : Type := mkLoginResult
  { res_user : obj; res_token : string }.

(** The query options [getUsers] destructures; [page] and [limit] arrive
    already numeric. *)
Record ListOptions : Type := mkListOptions
  { o_page : option Z;
    o_limit : option Z;
    o_status : JsVal;
    o_role : option string;
    o_tenantId : JsVal;
    o_search : option string;
    o_sortBy : JsVal;
    o_sortOrder : JsVal }.

Record UsersPage : Type := mkUsersPage
  { up_users : list obj;
    up_total : Z;
    up_page : Z;
    up_limit : Z;
    up_totalPages : option Z }.

Definition truthy_str (o : option string) : bool :=
  match o with
  | Some s => negb (String.eqb s "")
  | None => false
  end.

(** The loops of [login] that collect [perm.perms] into [perms]. *)
Definition push_perm (perms : list string) (perm : Permission) : list string :=
  match p_perms perm with
  | Some c =>
      if negb (String.eqb c "") && negb (existsb (String.eqb c) perms)
      then perms ++ [c]
      else perms
  | None => perms
  end.

Definition push_role (perms : list string) (role : LoadedRole) : list string :=
  fold_left push_perm (lr_permissions role) perms.

Definition extract_perms (roles : option (list LoadedRole)) : list string :=
  match roles with
  | Some l => fold_left push_role l []
  | None => []
  end.

(** [sanitizeUser(user)] *)
Definition sanitizeUser (user : obj) : obj :=
  obj_del "passwordResetExpires" (obj_del "passwordResetToken" (obj_del "password" user)).

Definition array_items (v : JsVal) : list JsVal :=
  match v with
  | VArr l => l
  | _ => []
  end.

Definition api_error (status : Z) (msg code_ : string) : Exn :=
  EApi (mkApiError status msg code_).

(** The cache keys [`${CACHE_PREFIXES.USER}${id}`] and [`blacklist:${token}`]. *)
Definition user_key (id : string) : string := String.append CACHE_PREFIXES.USER id.
Definition blacklist_key (token : string) : string := String.append "blacklist:" token.

(** [`${token}`] for a token that may be [undefined]. *)
Definition token_text (token : option string) : string :=
  match token with
  | Some t => t
  | None => "undefined"
  end.

Section SysUserService.
Context (env : Env) (m : UserModel).

(** [User.prototype.validatePassword], the same in both models; bcryptjs
    rejects arguments that are not strings. *)
Definition validatePassword (this : obj) (candidatePassword : JsVal) : M bool :=
  match candidatePassword, obj_get "password" this with
  | VStr c, VStr h => ret (bcrypt_compare env c h)
  | _, _ => throw EBcrypt
  end.

(** [User.prototype.updateLoginTime] *)
Definition updateLoginTime (user : Instance) : M Instance :=
  let* t := Date_now in
  instance_save m (mkInstance (m_updateLoginTime m t (i_row user)) (i_roles user)).

(** [generateToken(user)]; [login] is its only caller and always has the
    [roles] association loaded. *)
Definition generateToken (user : Instance) : M string :=
  let* t := Date_now in
  let iat := t / 1000 in
  ret (jwt_sign env
         {| c_id := row_id (i_row user);
            c_username := obj_get "username" (i_row user);
            c_email := obj_get "email" (i_row user);
            c_roles := array_items (json_rt (toISOString env) (instance_roles user));
            c_tenantId := obj_get "tenantId" (i_row user);
            c_iat := iat;
            c_exp := Some (iat + jwt_expiresIn env) |}).

(** [getTokenExpiry(token)]; [jwt.decode] of a value that is not a
    string is [null]. *)
Definition getTokenExpiry (token : option string) : option Z :=
  match from_option (jwt_decode env) None token with
  | Some decoded =>
      match c_exp decoded with
      | Some e => if e =? 0 then None else Some (e * 1000)
      | None => None
      end
  | None => None
  end.

(** The [where] of [login]:
    [{ [Op.or]: [{ username }, { email: username }], del_flag: 0 }]. *)
Definition login_where (username : JsVal) (row : obj) : bool :=
  (sql_eq env (obj_get "username" row) username
   || sql_eq env (obj_get "email" row) username)
  && sql_eq env (obj_get "del_flag" row) (VNum 0).

Definition rethrow_or (status : Z) (msg code_ : string) {A} (error : Exn) : M A :=
  if instanceof_ApiError error then throw error
  else throw (api_error status msg code_).

(** [login(username, password, dbType)] *)
Definition login (username password : JsVal) : M LoginResult :=
  getUserModel ;;
  try_catch
    (sequelize_Op "or" ;;
     let* found :=
       Model_findOne_roles m ["username"; "email"; "del_flag"] (login_where username) in
     match found with
     | None =>
         throw (api_error statusCodes.UNAUTHORIZED "用户名或密码不正确" "AUTH_INVALID_CREDENTIALS")
     | Some user =>
         if negb (js_strict_eq (obj_get "status" (i_row user)) (VNum 1))
         then throw (api_error statusCodes.FORBIDDEN "账户未激活或已被禁用" "AUTH_ACCOUNT_INACTIVE")
         else
           let* t := Date_now in
           if m_isLocked m t (i_row user)
           then throw (api_error statusCodes.FORBIDDEN "账户已被锁定，请联系管理员" "AUTH_ACCOUNT_LOCKED")
           else
             let* isPasswordValid := validatePassword (i_row user) password in
             if negb isPasswordValid
             then throw (api_error statusCodes.UNAUTHORIZED "用户名或密码不正确" "AUTH_INVALID_CREDENTIALS")
             else
               let* user1 := updateLoginTime user in
               let* token := generateToken user1 in
               let perms := extract_perms (i_roles user1) in
               let userCache :=
                 sanitizeUser
                   (obj_spread (toJSON user1)
                      [("permissions", VArr (map VStr perms))]) in
               RedisClient_set (toISOString env) (user_key (row_id (i_row user1)))
                 (VJson (json_rt (toISOString env) (VObj userCache))) CACHE_TTL.LONG ;;
               ret (mkLoginResult userCache token)
     end)
    (rethrow_or statusCodes.INTERNAL_SERVER_ERROR "登录过程中发生错误" "AUTH_LOGIN_FAILED").

(** [logout(token, user)] *)
Definition logout (token : option string) (user : option Claims) : M bool :=
  try_catch
    (let tokenExpiry := getTokenExpiry token in
     let* t := Date_now in
     let expiryTime :=
       match tokenExpiry with
       | Some x => (x - t) / 1000
       | None => CACHE_TTL.DAY
       end in
     RedisClient_set (toISOString env) (blacklist_key (token_text token))
       (VStr "true") expiryTime ;;
     match user with
     | Some u =>
         if negb (String.eqb (c_id u) "") then
           getUserModel ;;
           let* userModel := Model_findByPk m (c_id u) [] in
           match userModel with
           | Some um =>
               let* t' := Date_now in
               instance_save m
                 (mkInstance
                    (instance_set (m_columns m) [("update_time", VDate t')] (i_row um))
                    (i_roles um)) ;;
               ret tt
           | None => ret tt
           end ;;
           RedisClient_delete (user_key (c_id u)) ;;
           ret true
         else ret true
     | None => ret true
     end)
    (fun _ => ret false).

Definition secret_attributes : list string :=
  ["password"; "passwordResetToken"; "passwordResetExpires"].

(** [getUserById(id, dbType)] *)
Definition getUserById (id : string) : M JsVal :=
  try_catch
    (let* cachedUser := RedisClient_get (user_key id) in
     if truthy cachedUser then ret cachedUser
     else
       getUserModel ;;
       let* user := Model_findByPk m id secret_attributes in
       match user with
       | None => throw (api_error statusCodes.NOT_FOUND "用户不存在" "USER_NOT_FOUND")
       | Some u =>
           let userJson := VObj (toJSON u) in
           RedisClient_set (toISOString env) (user_key id) userJson CACHE_TTL.MEDIUM ;;
           ret userJson
       end)
    (rethrow_or statusCodes.INTERNAL_SERVER_ERROR "获取用户详情失败" "USER_DETAILS_FAILED").

Definition protectedFields : list string :=
  ["id"; "password"; "passwordResetToken"; "passwordResetExpires"].

(** [updateUser(id, userData, dbType)] *)
Definition updateUser (id : string) (userData : obj) : M obj :=
  getUserModel ;;
  try_catch
    (transaction
       (let* user := Model_findByPk m id [] in
        match user with
        | None => throw (api_error statusCodes.NOT_FOUND "用户不存在" "USER_NOT_FOUND")
        | Some u =>
            let userData' := exclude_attributes protectedFields userData in
            let* u' := instance_update m userData' u in
            RedisClient_del (user_key id) ;;
            ret (sanitizeUser (toJSON u'))
        end))
    (rethrow_or statusCodes.INTERNAL_SERVER_ERROR "更新用户信息失败" "USER_UPDATE_FAILED").

(** [deleteUser(id, dbType)] *)
Definition deleteUser (id : string) : M bool :=
  getUserModel ;;
  try_catch
    (transaction
       (let* user := Model_findByPk m id [] in
        match user with
        | None => throw (api_error statusCodes.NOT_FOUND "用户不存在" "USER_NOT_FOUND")
        | Some u =>
            instance_destroy m u ;;
            RedisClient_del (user_key id) ;;
            ret true
        end))
    (rethrow_or statusCodes.INTERNAL_SERVER_ERROR "删除用户失败" "USER_DELETE_FAILED").

(** [register(userData, dbType)] *)
Definition register (userData : obj) : M obj :=
  getUserModel ;;
  try_catch
    (sequelize_Op "or" ;;
     let* existingUser :=
       Model_findOne m
         (fun row =>
            sql_eq env (obj_get "username" row) (obj_get "username" userData)
            || sql_eq env (obj_get "email" row) (obj_get "email" userData)) in
     match existingUser with
     | Some ex =>
         if js_strict_eq (obj_get "username" (i_row ex)) (obj_get "username" userData)
         then throw (api_error statusCodes.CONFLICT "用户名已存在" "USER_USERNAME_EXISTS")
         else throw (api_error statusCodes.CONFLICT "邮箱已存在" "USER_EMAIL_EXISTS")
     | None =>
         let* user :=
           transaction
             (Model_create env m
                (obj_spread userData
                   [("roles", js_or (obj_get "roles" userData) (VArr [VStr USER_ROLES.USER]));
                    ("status", js_or (obj_get "status" userData) USER_STATUS.ACTIVE)])) in
         ret (sanitizeUser (toJSON user))
     end)
    (rethrow_or statusCodes.INTERNAL_SERVER_ERROR "用户注册失败" "USER_REGISTRATION_FAILED").

(** The [where] that [getUsers] builds from its options. *)
Definition list_where (o : ListOptions) (row : obj) : bool :=
  (if truthy (o_status o) then sql_eq env (obj_get "status" row) (o_status o) else true)
  && (if truthy (o_tenantId o) then sql_eq env (obj_get "tenantId" row) (o_tenantId o) else true)
  && (if truthy_str (o_search o) then
        match o_search o with
        | Some q =>
            sql_like env (obj_get "username" row) q
            || sql_like env (obj_get "email" row) q
            || sql_like env (obj_get "firstName" row) q
            || sql_like env (obj_get "lastName" row) q
        | None => true
        end
      else true)
  && (if truthy_str (o_role o) then
        match o_role o with
        | Some r => sql_json_contains env (obj_get "roles" row) r
        | None => true
        end
      else true).

(** The columns that the query of [getUsers] names, in its [where] and as
    its sort key. *)
Definition list_columns (o : ListOptions) (sortBy : JsVal) : option (list string) :=
  match sortBy with
  | VStr column =>
      Some (List.app (if truthy (o_status o) then ["status"] else [])
              (List.app (if truthy (o_tenantId o) then ["tenantId"] else [])
                 [column]))
  | _ => None
  end.

(** [getUsers(options, dbType)].  The [search] and [role] filters are built
    with [User.sequelize.Op]; a negative [LIMIT] or [OFFSET], a column that
    the table lacks and a sort key that names no column are SQL errors. *)
Definition getUsers (o : ListOptions) : M UsersPage :=
  getUserModel ;;
  try_catch
    (let page := default 1 (o_page o) in
     let limit := default 10 (o_limit o) in
     let sortBy := match o_sortBy o with VUndef => VStr "createdAt" | v => v end in
     let sortOrder := match o_sortOrder o with VUndef => VStr "DESC" | v => v end in
     let offset := (page - 1) * limit in
     (if truthy_str (o_search o) then sequelize_Op "or" else ret tt) ;;
     (if truthy_str (o_role o) then sequelize_Op "and" else ret tt) ;;
     db_call ;;
     if (limit <? 0) || (offset <? 0)
        || negb (from_option (has_columns m) false (list_columns o sortBy))
     then throw EDb
     else
       let* d := get_db in
       let matching := List.filter (fun r => in_scope m r && list_where o r) (users d) in
       let rows :=
         map (exclude_attributes secret_attributes)
           (firstn (Z.to_nat limit)
              (skipn (Z.to_nat offset) (sql_order env sortBy sortOrder matching))) in
       let count := Z.of_nat (length matching) in
       let totalPages :=
         if limit =? 0 then None else Some ((count + limit - 1) / limit) in
       ret (mkUsersPage rows count page limit totalPages))
    (fun _ =>
       throw (api_error statusCodes.INTERNAL_SERVER_ERROR "获取用户列表失败" "USER_LIST_FAILED")).
End SysUserService.

(** ** [middleware/auth/jwtAuth.js] *)

(** What a middleware hands on: [next()] with what it attached to the
    request, or [next(error)]. *)
Inductive Forward (A : Type) : Type :=
  | next (a : A)
  | next_error (e : ApiError).
Arguments next {A} a.
Arguments next_error {A} e.

(** [s.split(' ')] *)
Fixpoint split_space (s : string) : list string :=
  match s with
  | EmptyString => [EmptyString]
  | String c r =>
      if Ascii.eqb c " "%char then EmptyString :: split_space r
      else match split_space r with
           | [] => [String c EmptyString]
           | h :: t => String c h :: t
           end
  end.

(** [error.name] *)
Definition error_name (e : Exn) : string :=
  match e with
  | EApi _ => "ApiError"
  | EJwt n => n
  | ERedis => "Error"
  | EDb => "SequelizeDatabaseError"
  | EBcrypt => "Error"
  | ETypeError _ => "TypeError"
  end.

(** The request fields the middlewares read. *)
Record Request : Type := mkRequest
  { req_authorization : option string;
    req_user : option Claims;
    req_params : obj;
    req_body : obj;
    req_query : obj }.

Section JwtAuth.
Context (env : Env).

(** [jwt.verify(token, config.jwt.secret)] of jsonwebtoken: the token must
    parse, carry a valid signature, and not have reached [exp]. *)
Definition jwt_verify (token : string) : M Claims :=
  match jwt_decode env token with
  | None => throw (EJwt "JsonWebTokenError")
  | Some payload =>
      if negb (jwt_signed env token) then throw (EJwt "JsonWebTokenError")
      else
        let* t := Date_now in
        match c_exp payload with
        | Some e => if e <=? t / 1000 then throw (EJwt "TokenExpiredError") else ret payload
        | None => ret payload
        end
  end.

(** [authenticate(req, res, next)] *)
Definition authenticate (authHeader : option string) : M (Forward Claims) :=
  try_catch
    (if negb (truthy_str authHeader)
        || negb (String.prefix "Bearer " (default "" authHeader))
     then throw (api_error statusCodes.UNAUTHORIZED "未提供认证令牌" "AUTH_TOKEN_MISSING")
     else
       let token := nth_error (split_space (default "" authHeader)) 1 in
       if negb (truthy_str token)
       then throw (api_error statusCodes.UNAUTHORIZED "无效的认证令牌格式" "AUTH_INVALID_TOKEN_FORMAT")
       else
         try_catch
           (let* decoded := jwt_verify (default "" token) in
            let* isBlacklisted := client_get (blacklist_key (default "" token)) in
            if text_truthy isBlacklisted
            then throw (api_error statusCodes.UNAUTHORIZED "令牌已失效，请重新登录" "AUTH_TOKEN_REVOKED")
            else ret (next decoded))
           (fun error =>
              if String.eqb (error_name error) "TokenExpiredError"
              then throw (api_error statusCodes.UNAUTHORIZED "认证令牌已过期" "AUTH_TOKEN_EXPIRED")
              else if String.eqb (error_name error) "JsonWebTokenError"
              then throw (api_error statusCodes.UNAUTHORIZED "无效的认证令牌" "AUTH_INVALID_TOKEN")
              else throw error))
    (fun error =>
       match error with
       | EApi e => ret (next_error e)
       | _ =>
           ret (next_error
                  (mkApiError statusCodes.INTERNAL_SERVER_ERROR "认证过程发生错误" "AUTH_SYSTEM_ERROR"))
       end).
End JwtAuth.

(** [hasRole(roles)(req, res, next)] with [roles] already an array *)
Definition hasRole (requiredRoles : list string) (req : Request) : Forward unit :=
  match req_user req with
  | None => next_error (mkApiError statusCodes.UNAUTHORIZED "需要认证" "AUTH_REQUIRED")
  | Some user =>
      if existsb (fun role => js_includes (c_roles user) (VStr role)) requiredRoles
      then next tt
      else next_error
             (mkApiError statusCodes.FORBIDDEN "权限不足，无法访问此资源" "AUTH_INSUFFICIENT_PERMISSIONS")
  end.

(** [req.params[paramName] || req.body[paramName] || req.query[paramName]] *)
Definition requestedTenantId (paramName : string) (req : Request) : JsVal :=
  js_or (js_or (obj_get paramName (req_params req)) (obj_get paramName (req_body req)))
    (obj_get paramName (req_query req)).

(** [tenantAccess(paramName)(req, res, next)] *)
Definition tenantAccess (paramName : string) (req : Request) : Forward unit :=
  match req_user req with
  | None => next_error (mkApiError statusCodes.UNAUTHORIZED "需要认证" "AUTH_REQUIRED")
  | Some user =>
      let requested := requestedTenantId paramName req in
      if js_includes (c_roles user) (VStr "admin") then next tt
      else if negb (truthy requested) || negb (js_strict_eq requested (c_tenantId user))
      then next_error
             (mkApiError statusCodes.FORBIDDEN "无权访问此租户的数据" "AUTH_TENANT_ACCESS_DENIED")
      else next tt
  end.

(** ** [routes/api/auth.js] and the error handler *)




Section AuthRoutes.
Context (env : Env).

(** The route file requires [../../services/userService], a file that is
    not among the sources: the route is modelled over whatever [logout]
    that module exports. *)
Variable userService_logout : option string -> option Claims -> M bool.

End AuthRoutes.

(** ** [utils/redis.js]: expiring writes and locks *)

(** [client.set(key, text, 'EX', seconds, 'NX')]: binds the key, with an
    expiry, only when it is absent.  It resolves to ['OK'] (here [true])
    when it bound the key and to [null] when the key exists; Redis rejects
    a non-positive expire time. *)
Definition client_set_ex_nx (key : string) (text : JsVal) (seconds : Z) : M bool :=
  redis_command ;;
  if seconds <=? 0 then throw ERedis
  else fun w =>
    match visible w key with
    | Some _ => (Ok false, w)
    | None =>
        (Ok true,
         set_redis (<[key := mkEntry text (Some (now w + seconds * 1000))]> (redis w)) w)
    end.

(** [`${CACHE_PREFIXES.LOCK}${lockName}`] *)
Definition lock_key (lockName : string) : string :=
  String.append CACHE_PREFIXES.LOCK lockName.

(** [setWithExpiry(key, value, ttl)] *)
Definition RedisClient_setWithExpiry (toISO : Z -> string)
    (key : string) (value : JsVal) (ttl : Z) : M bool :=
  RedisClient_set toISO key value ttl.

(** [acquireLock(lockName, ttl)] *)
Definition RedisClient_acquireLock (lockName : string) (ttl : Z) : M bool :=
  try_catch
    (ensureConnection ;;
     let lockKey := lock_key lockName in
     let* t := Date_now in
     let* result := client_set_ex_nx lockKey (VNum t) ttl in
     ret result)
    (fun _ => ret false).

(** [releaseLock(lockName)] *)
Definition RedisClient_releaseLock (lockName : string) : M bool :=
  try_catch
    (ensureConnection ;;
     let lockKey := lock_key lockName in
     client_del lockKey ;;
     ret true)
    (fun _ => ret false).

(** ** The other instance methods of the two models *)

(** [User.prototype.resetPassword] of [models/user.js], before
    [this.save()] *)
Definition UserJs_resetPassword (t : Z) (newPassword : JsVal) (this : obj) : obj :=
  obj_set "lockUntil" VNull
    (obj_set "failedLoginAttempts" (VNum 0)
       (obj_set "passwordResetExpires" VNull
          (obj_set "passwordResetToken" VNull
             (obj_set "password" newPassword this)))).

(** [User.prototype.generatePasswordResetToken] of [models/user.js], before
    [this.save()]; [token] is what [crypto.randomBytes(32).toString('hex')]
    drew, and the expiry is one hour later. *)
Definition UserJs_generatePasswordResetToken (t : Z) (token : string) (this : obj) : obj :=
  let expiry := t + 60 * 60 * 1000 in
  obj_set "passwordResetExpires" (VDate expiry)
    (obj_set "passwordResetToken" (VStr token) this).

(** [User.prototype.activate] and [User.prototype.deactivate] of
    [models/user.js], before [this.save()] *)
Definition UserJs_activate (t : Z) (this : obj) : obj :=
  obj_set "emailVerified" (VBool true) (obj_set "status" USER_STATUS.ACTIVE this).

Definition UserJs_deactivate (t : Z) (this : obj) : obj :=
  obj_set "status" USER_STATUS.INACTIVE this.

(** [User.prototype.resetPassword] and [User.prototype.deactivate] of
    [models/sysUser.js], before [this.save()] *)
Definition SysUser_resetPassword (t : Z) (newPassword : JsVal) (this : obj) : obj :=
  obj_set "update_time" (VDate t) (obj_set "password" newPassword this).

Definition SysUser_deactivate (t : Z) (this : obj) : obj :=
  obj_set "update_time" (VDate t) (obj_set "status" (VNum 2) this).

(** The prototype methods the password functions of the service call.
    [models/sysUser.js] defines no [generatePasswordResetToken]. *)
Record UserMethods : Type := mkUserMethods
  { mm_resetPassword : Z -> JsVal -> obj -> obj;
    mm_generatePasswordResetToken : option (Z -> string -> obj -> obj);
    mm_deactivate : Z -> obj -> obj }.

Definition UserJs_methods : UserMethods :=
  {| mm_resetPassword := UserJs_resetPassword;
     mm_generatePasswordResetToken := Some UserJs_generatePasswordResetToken;
     mm_deactivate := UserJs_deactivate |}.

Definition SysUser_methods : UserMethods :=
  {| mm_resetPassword := SysUser_resetPassword;
     mm_generatePasswordResetToken := None;
     mm_deactivate := SysUser_deactivate |}.

(** [column > value] on a [DATE] column; a [NULL] compares false. *)
Definition sql_date_gt (column : JsVal) (t : Z) : bool :=
  match column with
  | VDate e => t <? e
  | _ => false
  end.

Section PasswordService.
Context (env : Env) (m : UserModel) (mm : UserMethods).

(** [User.findOne({ where })] for a [where] over the named columns; a
    column the table lacks is an SQL error. *)
Definition Model_findOne_on (cols : list string) (where_ : obj -> bool)
    : M (option Instance) :=
  if forallb (fun k => existsb (String.eqb k) (m_columns m)) cols
  then Model_findOne m where_
  else db_call ;; throw EDb.

(** [user.changed('password')] after an assignment: the value differs from
    the one the instance was loaded with. *)
Definition password_changed (loaded assigned : obj) : bool :=
  negb (js_strict_eq (obj_get "password" assigned) (obj_get "password" loaded)).

(** [instance.save()], told whether [changed('password')] holds: the hook,
    then [UPDATE ... WHERE id = this.id]. *)
Definition instance_save_as (changed : bool) (u : Instance) : M Instance :=
  match m_beforeSave m changed (i_row u) with
  | None => throw EBcrypt
  | Some row1 =>
      let* t := Date_now in
      let row2 := if m_timestamps m then obj_set "updatedAt" (VDate t) row1 else row1 in
      db_call ;;
      let* d := get_db in
      put_users (replace_row row2 (users d)) ;;
      ret (mkInstance row2 (i_roles u))
  end.

(** [user.resetPassword(newPassword)] *)
Definition prototype_resetPassword (newPassword : JsVal) (user : Instance) : M Instance :=
  let* t := Date_now in
  let this := mm_resetPassword mm t newPassword (i_row user) in
  instance_save_as (password_changed (i_row user) this) (mkInstance this (i_roles user)).

(** [user.generatePasswordResetToken()]; calling the method a model lacks
    throws a [TypeError]. *)
Definition prototype_generatePasswordResetToken (drawn : string) (user : Instance) : M string :=
  match mm_generatePasswordResetToken mm with
  | None => throw (ETypeError "user.generatePasswordResetToken is not a function")
  | Some generate =>
      let* t := Date_now in
      instance_save_as false (mkInstance (generate t drawn (i_row user)) (i_roles user)) ;;
      ret drawn
  end.

(** [user.deactivate()] *)
Definition prototype_deactivate (user : Instance) : M Instance :=
  let* t := Date_now in
  instance_save_as false (mkInstance (mm_deactivate mm t (i_row user)) (i_roles user)).

(** [database.transaction(callback)] for a callback that hands its
    transaction to queries that read and calls [save()] without it: such a
    write is committed on its own, and [rollback] has nothing to undo. *)
Definition transaction_of_reads {A} (callback : M A) : M A :=
  db_call ;;
  let* began := try_catch (db_call ;; ret true) (fun _ => ret false) in
  if began : bool then
    try_catch
      (let* result := callback in
       db_call ;;
       ret result)
      (fun error =>
         db_call ;;
         throw error)
  else throw EDb.

(** [changePassword(id, currentPassword, newPassword, dbType)] *)
Definition changePassword (id : string) (currentPassword newPassword : JsVal) : M bool :=
  getUserModel ;;
  try_catch
    (transaction_of_reads
       (let* user := Model_findByPk m id [] in
        match user with
        | None => throw (api_error statusCodes.NOT_FOUND "用户不存在" "USER_NOT_FOUND")
        | Some u =>
            let* isPasswordValid := validatePassword env (i_row u) currentPassword in
            if negb isPasswordValid
            then throw (api_error statusCodes.UNAUTHORIZED "当前密码不正确"
                          "AUTH_INVALID_CURRENT_PASSWORD")
            else if js_strict_eq currentPassword newPassword
            then throw (api_error statusCodes.BAD_REQUEST "新密码不能与当前密码相同"
                          "AUTH_SAME_PASSWORD")
            else
              prototype_resetPassword newPassword u ;;
              ret true
        end))
    (rethrow_or statusCodes.INTERNAL_SERVER_ERROR "更改密码失败" "USER_PASSWORD_CHANGE_FAILED").

(** [requestPasswordReset(email, dbType)]; [drawn] is the random token. *)
Definition requestPasswordReset (drawn : string) (email : JsVal) : M string :=
  getUserModel ;;
  try_catch
    (let* found := Model_findOne m (fun row => sql_eq env (obj_get "email" row) email) in
     match found with
     | None => throw (api_error statusCodes.NOT_FOUND "该邮箱未注册" "USER_EMAIL_NOT_FOUND")
     | Some user =>
         let* resetToken := prototype_generatePasswordResetToken drawn user in
         ret resetToken
     end)
    (rethrow_or statusCodes.INTERNAL_SERVER_ERROR "请求重置密码失败"
       "USER_PASSWORD_RESET_REQUEST_FAILED").

(** The [where] of [resetPassword]:
    [{ passwordResetToken: token, passwordResetExpires: { [Op.gt]: new Date() } }]. *)
Definition reset_where (token : JsVal) (t : Z) (row : obj) : bool :=
  sql_eq env (obj_get "passwordResetToken" row) token
  && sql_date_gt (obj_get "passwordResetExpires" row) t.

(** [resetPassword(token, newPassword, dbType)] *)
Definition resetPassword (token newPassword : JsVal) : M bool :=
  getUserModel ;;
  try_catch
    (transaction_of_reads
       (sequelize_Op "gt" ;;
        let* t := Date_now in
        let* found :=
          Model_findOne_on ["passwordResetToken"; "passwordResetExpires"]
            (reset_where token t) in
        match found with
        | None => throw (api_error statusCodes.BAD_REQUEST "重置令牌无效或已过期"
                           "AUTH_INVALID_RESET_TOKEN")
        | Some user =>
            prototype_resetPassword newPassword user ;;
            ret true
        end))
    (rethrow_or statusCodes.INTERNAL_SERVER_ERROR "重置密码失败" "USER_PASSWORD_RESET_FAILED").
End PasswordService.

(** * Vocabulary of the properties *)

(** A returned value exposes no credential material when, as an object or
    as the JSON text of one, it has none of the three attributes. *)
Definition secret_free_obj (o : obj) : bool :=
  forallb (fun k => negb (obj_has k o)) secret_attributes.

Fixpoint secret_free (v : JsVal) : bool :=
  match v with
  | VObj o => secret_free_obj o
  | VJson v' => secret_free v'
  | _ => true
  end.

(** Every text in the keyspace is free of credential material. *)
Definition cache_clean (w : World) : Prop :=
  forall key e, redis w !! key = Some e -> secret_free (ce_val e) = true.

(** The row of [users] that a lookup by primary key sees. *)
Definition stored (d : Db) (id : string) : option obj :=
  List.find (fun r => String.eqb (row_id r) id) (users d).

(** The first [n] collaborator calls are not rejected. *)
Definition no_fault (n : nat) (faults : list bool) : bool :=
  forallb negb (firstn n faults).

(** How a call ended: ["ok"], the [code] of the [ApiError] it threw, or
    ["exception"]. *)
Definition outcome {A} (r : Res A) : string :=
  match r with
  | Ok _ => "ok"
  | Throw (EApi e) => code e
  | Throw _ => "exception"
  end.

(** Successive [login] attempts of one identifier, each starting in the
    world the previous one left. *)
Fixpoint attempts (env : Env) (m : UserModel) (username : JsVal)
    (passwords : list JsVal) (w : World) : list string * World :=
  match passwords with
  | [] => ([], w)
  | p :: rest =>
      let (r, w1) := login env m username p w in
      let (rs, w2) := attempts env m username rest w1 in
      (outcome r :: rs, w2)
  end.


(** The calls the boundary layer makes, and [Elsewhere]: time passing, other
    writers of the tables, the collaborators failing or recovering.  The
    keyspace is written by this service only. *)
Inductive Call : Type :=
  | CallRegister (userData : obj)
  | CallLogin (username password : JsVal)
  | CallLogout (token : option string) (user : option Claims)
  | CallGetUsers (o : ListOptions)
  | CallGetUserById (id : string)
  | CallUpdateUser (id : string) (userData : obj)
  | CallDeleteUser (id : string)
  | Elsewhere (t : Z) (d : Db) (db_f redis_f : list bool).

(** The user objects a finished call hands back, and the world it leaves. *)
Definition returned {A} (f : A -> list JsVal) (r : Res A * World) : list JsVal * World :=
  (match fst r with
   | Ok a => f a
   | Throw _ => []
   end, snd r).

Definition serve (env : Env) (m : UserModel) (c : Call) (w : World) : list JsVal * World :=
  match c with
  | CallRegister d => returned (fun o => [VObj o]) (register env m d w)
  | CallLogin u p => returned (fun r => [VObj (res_user r)]) (login env m u p w)
  | CallLogout t u => returned (fun _ => []) (logout env m t u w)
  | CallGetUsers o => returned (fun p => map VObj (up_users p)) (getUsers env m o w)
  | CallGetUserById id => returned (fun v => [v]) (getUserById env m id w)
  | CallUpdateUser id d => returned (fun o => [VObj o]) (updateUser m id d w)
  | CallDeleteUser id => returned (fun _ => []) (deleteUser m id w)
  | Elsewhere t d db_f redis_f => ([], mkWorld t d db_f (redis w) redis_f)
  end.

Fixpoint serve_all (env : Env) (m : UserModel) (cs : list Call) (w : World) : list JsVal :=
  match cs with
  | [] => []
  | c :: rest =>
      let (vs, w') := serve env m c w in
      vs ++ serve_all env m rest w'
  end.

(** A Hoare triple for computations that may throw: from a world
    satisfying [I], [c] ends in a world satisfying [I], and a returned
    value satisfies [P]. *)
Definition keeps {A} (I : World -> Prop) (P : A -> Prop) (c : M A) : Prop :=
  forall w, I w ->
    match c w with
    | (Ok a, w') => P a /\ I w'
    | (Throw _, w') => I w'
    end.

(** ** Footprints of a computation *)

(** A step that leaves the tables, the clock and the database schedule
    alone. *)
Definition redis_only {A} (c : M A) : Prop :=
  forall w, db (snd (c w)) = db w /\ now (snd (c w)) = now w
            /\ db_faults (snd (c w)) = db_faults w.

(** [quiet c]: [c] changes neither the tables nor the keyspace, however it
    ends. *)
Definition quiet {A} (c : M A) : Prop :=
  forall w, db (snd (c w)) = db w /\ redis (snd (c w)) = redis w.

(** [keeps_keys c]: [c] leaves the keyspace as it found it, however it
    ends. *)
Definition keeps_keys {A} (c : M A) : Prop :=
  forall w, redis (snd (c w)) = redis w.

(** [binds_key key c]: [c] leaves the keyspace alone or binds [key]. *)
Definition binds_key {A} (key : string) (c : M A) : Prop :=
  forall w, redis (snd (c w)) = redis w
            \/ exists e, redis (snd (c w)) = <[key := e]> (redis w).

(** ** A concrete setting for the examples *)
Module Demo.

(** Toy libraries: a hash is the password behind a prefix; two tokens are
    known to the decoder, both carrying [exp = 1000] seconds. *)
Definition alice_claims : Claims :=
  {| c_id := "u1"; c_username := VStr "alice"; c_email := VStr "alice@example.com";
     c_roles := []; c_tenantId := VStr "t1"; c_iat := 900; c_exp := Some 1000 |}.

Definition env : Env :=
  {| bcrypt_compare := fun c h => String.eqb (String.append "hash:" c) h;
     bcrypt_hash := fun pw _ => String.append "hash:" pw;
     bcrypt_genSalt := fun _ => "salt";
     jwt_sign := fun c => String.append "jwt." (c_id c);
     jwt_decode := fun t => if String.eqb t "tokA" then Some alice_claims else None;
     jwt_signed := fun t => String.eqb t "tokA";
     jwt_expiresIn := 86400;
     toISOString := fun _ => "1970-01-01T00:00:00.000Z";
     uuidv4 := fun _ => "00000000-0000-4000-8000-000000000000";
     sql_eq := js_strict_eq;
     sql_like := fun _ _ => true;
     sql_json_contains := fun _ _ => true;
     sql_order := fun _ _ l => l |}.

(** A row with the columns of [sys_user]... *)
Definition alice : obj :=
  [("id", VStr "u1"); ("username", VStr "alice"); ("email", VStr "alice@example.com");
   ("password", VStr "hash:Correct1!"); ("salt", VStr "salt");
   ("status", VNum 1); ("del_flag", VNum 0); ("update_time", VNull)].

(** ... a frozen account ... *)
Definition bob : obj :=
  [("id", VStr "u2"); ("username", VStr "bob"); ("email", VStr "bob@example.com");
   ("password", VStr "hash:Secret2!"); ("salt", VStr "salt");
   ("status", VNum 2); ("del_flag", VNum 0); ("update_time", VNull)].

(** ... and one that also has the lockout columns of [models/user.js]. *)
Definition carol : obj :=
  [("id", VStr "u3"); ("username", VStr "carol"); ("email", VStr "carol@example.com");
   ("password", VStr "hash:Correct1!"); ("status", VNum 1); ("del_flag", VNum 0);
   ("lastLogin", VNull); ("failedLoginAttempts", VNum 3); ("lockUntil", VNull);
   ("passwordResetToken", VNull); ("passwordResetExpires", VNull)].

(** ... and one with those columns and no failure recorded. *)
Definition dave : obj :=
  [("id", VStr "u4"); ("username", VStr "dave"); ("email", VStr "dave@example.com");
   ("password", VStr "hash:Correct1!"); ("status", VNum 1); ("del_flag", VNum 0);
   ("lastLogin", VNull); ("failedLoginAttempts", VNum 0); ("lockUntil", VNull)].

Definition perm (id code_ : string) : Permission :=
  mkPermission id None (Some code_) (Some "1") (Some 0).

(** Roles [R1 = {A, B}] and [R2 = {B, C}], both assigned to alice. *)
Definition tables : Db :=
  {| users := [alice; bob; carol; dave];
     roles := [mkRole "r1" None "R1"; mkRole "r2" None "R2"];
     permissions := [perm "pA" "A"; perm "pB" "B"; perm "pC" "C"];
     user_roles := [("u1", "r1"); ("u1", "r2")];
     role_permissions := [("r1", "pA"); ("r1", "pB"); ("r2", "pB"); ("r2", "pC")] |}.

Definition world (t : Z) : World :=
  {| now := t; db := tables; db_faults := []; redis := ∅; redis_faults := [] |}.

Definition wrong : JsVal := VStr "Wr0ng!".
Definition correct : JsVal := VStr "Correct1!".

(** alice's profile is read at 5000, which caches her snapshot for five
    minutes. *)
Definition alice_read : Res JsVal * World :=
  getUserById env (SysUser.model env) "u1" (world 5000).

(** The token ["tokA"] expires at second 1000.  alice revokes it half a
    second before that ... *)
Definition revoked_late : Res bool * World :=
  logout env (SysUser.model env) (Some "tokA") (Some alice_claims) (world 999500).

(** ... or a second and a half before that. *)
Definition revoked_early : Res bool * World :=
  logout env (SysUser.model env) (Some "tokA") (Some alice_claims) (world 998500).

(** She signs out at 6000. *)
Definition alice_logout : Res bool * World :=
  logout env (SysUser.model env) (Some "tokA") (Some alice_claims)
    (set_now 6000 (snd alice_read)).

(** Instead of signing out, her profile is updated, or her account deleted. *)
Definition alice_update : Res obj * World :=
  updateUser (SysUser.model env) "u1" [("email", VStr "alice@example.org")]
    (set_now 6000 (snd alice_read)).

Definition alice_delete : Res bool * World :=
  deleteUser (SysUser.model env) "u1" (set_now 6000 (snd alice_read)).

(** An administrator and alice (tenant [t1]), both asking for tenant [t2]. *)
Definition root_claims : Claims :=
  {| c_id := "u9"; c_username := VStr "root"; c_email := VNull;
     c_roles := [VStr "admin"]; c_tenantId := VStr "t1"; c_iat := 0; c_exp := None |}.

Definition request_of (user : Claims) : Request :=
  {| req_authorization := None; req_user := Some user;
     req_params := [("tenantId", VStr "t2")]; req_body := []; req_query := [] |}.

End Demo.

(** ** Rows, models and password writes *)

(** The row [findByPk] sees. *)
Definition visible_row (m : UserModel) (d : Db) (id : string) : option obj :=
  List.find (fun r => in_scope m r && String.eqb (row_id r) id) (users d).

(** One of the two model files, with its prototype methods. *)
Definition known_model (env : Env) (m : UserModel) (mm : UserMethods) : Prop :=
  (m = UserJs.model env /\ mm = UserJs_methods)
  \/ (m = SysUser.model env /\ mm = SysUser_methods).

(** The row [save()] writes and the tables it leaves. *)
Definition saved_row (m : UserModel) (t : Z) (row1 : obj) : obj :=
  if m_timestamps m then obj_set "updatedAt" (VDate t) row1 else row1.

Definition saved (m : UserModel) (t : Z) (row1 : obj) (d : Db) : Db :=
  set_users (replace_row (saved_row m t row1) (users d)) d.

(** The condition under which [changePassword] reaches its [save()]. *)
Definition current_password_proved (env : Env) (m : UserModel) (id : string)
    (currentPassword newPassword : JsVal) (d : Db) : Prop :=
  exists row c h,
    visible_row m d id = Some row
    /\ currentPassword = VStr c
    /\ obj_get "password" row = VStr h
    /\ bcrypt_compare env c h = true
    /\ js_strict_eq currentPassword newPassword = false.

(** What [user.resetPassword(newPassword)] makes of the tables [d] when its
    [UPDATE] is accepted. *)
Definition password_replaced (m : UserModel) (mm : UserMethods)
    (newPassword : JsVal) (row : obj) (d d' : Db) : Prop :=
  exists t row1,
    let this := mm_resetPassword mm t newPassword row in
    m_beforeSave m (password_changed row this) this = Some row1
    /\ d' = saved m t row1 d.

(** ** More settings for the examples *)

(** The sixth database call, the commit of [changePassword], is rejected. *)
Definition commit_rejected : World :=
  set_db_faults [false; false; false; false; false; true] (Demo.world 5000).

(** What [login], [register] and [resetPassword] make of an exception that
    is not an [ApiError]. *)
Definition LOGIN_FAILED : ApiError :=
  mkApiError statusCodes.INTERNAL_SERVER_ERROR "登录过程中发生错误" "AUTH_LOGIN_FAILED".
Definition REGISTRATION_FAILED : ApiError :=
  mkApiError statusCodes.INTERNAL_SERVER_ERROR "用户注册失败" "USER_REGISTRATION_FAILED".
Definition PASSWORD_RESET_FAILED : ApiError :=
  mkApiError statusCodes.INTERNAL_SERVER_ERROR "重置密码失败" "USER_PASSWORD_RESET_FAILED".

(** The errors [authenticate] hands on. *)
Definition TOKEN_EXPIRED : ApiError :=
  mkApiError statusCodes.UNAUTHORIZED "认证令牌已过期" "AUTH_TOKEN_EXPIRED".
Definition TOKEN_INVALID : ApiError :=
  mkApiError statusCodes.UNAUTHORIZED "无效的认证令牌" "AUTH_INVALID_TOKEN".
Definition TOKEN_REVOKED : ApiError :=
  mkApiError statusCodes.UNAUTHORIZED "令牌已失效，请重新登录" "AUTH_TOKEN_REVOKED".
Definition INSUFFICIENT_PERMISSIONS : ApiError :=
  mkApiError statusCodes.FORBIDDEN "权限不足，无法访问此资源" "AUTH_INSUFFICIENT_PERMISSIONS".

(** A header [authenticate] extracts the token [t] from. *)
Definition bearer (h t : string) : Prop :=
  String.prefix "Bearer " h = true /\ nth_error (split_space h) 1 = Some t /\ t <> "".

(** A request that carries the identity [user]. *)
Definition request_by (user : Claims) : Request :=
  {| req_authorization := None; req_user := Some user;
     req_params := []; req_body := []; req_query := [] |}.

(** alice as [login]'s query would load her, with her roles. *)
Definition alice_loaded : Instance :=
  mkInstance Demo.alice (Some (roles_of Demo.tables "u1")).

(** One of the two model files. *)
Definition model_file (env : Env) (m : UserModel) : Prop :=
  m = UserJs.model env \/ m = SysUser.model env.

Definition USER_NOT_FOUND : Exn :=
  api_error statusCodes.NOT_FOUND "用户不存在" "USER_NOT_FOUND".

Definition LIST_FAILED : ApiError :=
  mkApiError statusCodes.INTERNAL_SERVER_ERROR "获取用户列表失败" "USER_LIST_FAILED".

(** What [getUserById] answers from the store. *)
Definition store_answer (m : UserModel) (d : Db) (id : string) : Res JsVal :=
  match visible_row m d id with
  | Some row => Ok (VObj (exclude_attributes secret_attributes row))
  | None => Throw USER_NOT_FOUND
  end.

(** The rows a listing counts. *)
Definition listed (env : Env) (m : UserModel) (o : ListOptions) (d : Db) : list obj :=
  List.filter (fun r => in_scope m r && list_where env o r) (users d).

(** A listing sorted by a column of either table. *)
Definition by_username (limit : Z) : ListOptions :=
  mkListOptions None (Some limit) VUndef None VUndef None (VStr "username") VUndef.

Module Demo_reads.
(** alice's profile was read at 5000; her account is deleted at 6000 while
    Redis is down, so that her snapshot stays cached. *)
Definition alice_delete_quietly : Res bool * World :=
  deleteUser (SysUser.model Demo.env) "u1"
    (set_redis_faults [true] (set_now 6000 (snd Demo.alice_read))).
End Demo_reads.

(** * Properties *)

Lemma json_rt_obj toISO o : json_rt toISO (VObj o) = VObj (json_fields toISO o).
Proof. reflexivity. Qed.

(** ** Objects *)

Lemma obj_has_del k k' o :
  obj_has k (obj_del k' o) = negb (String.eqb k k') && obj_has k o.
Proof.
  induction o as [|[k0 v0] r IH]; simpl.
  - now rewrite andb_false_r.
  - destruct (String.eqb_spec k' k0) as [->|Hne]; simpl.
    + rewrite IH. destruct (String.eqb k k0); simpl; reflexivity.
    + rewrite IH. destruct (String.eqb_spec k k0) as [->|Hk]; simpl.
      * destruct (String.eqb_spec k0 k'); [congruence | reflexivity].
      * reflexivity.
Qed.

Lemma obj_has_set k k' v o :
  obj_has k (obj_set k' v o) = String.eqb k k' || obj_has k o.
Proof.
  induction o as [|[k0 v0] r IH]; simpl.
  - reflexivity.
  - destruct (String.eqb_spec k' k0) as [->|Hne]; simpl.
    + destruct (String.eqb k k0); reflexivity.
    + rewrite IH. destruct (String.eqb k k'), (String.eqb k k0); reflexivity.
Qed.

Lemma obj_get_set_eq k v o : obj_get k (obj_set k v o) = v.
Proof.
  induction o as [|[k0 v0] r IH]; simpl.
  - now rewrite String.eqb_refl.
  - destruct (String.eqb_spec k k0) as [->|Hne]; simpl.
    + now rewrite String.eqb_refl.
    + destruct (String.eqb_spec k k0); [congruence | exact IH].
Qed.

Lemma obj_get_set_ne k k' v o :
  k <> k' -> obj_get k (obj_set k' v o) = obj_get k o.
Proof.
  intros Hne. induction o as [|[k0 v0] r IH]; simpl.
  - destruct (String.eqb_spec k k'); [congruence | reflexivity].
  - destruct (String.eqb_spec k' k0) as [->|Hk]; simpl.
    + destruct (String.eqb_spec k k0); [congruence | reflexivity].
    + now rewrite IH.
Qed.

Lemma obj_get_del_ne k k' o :
  k <> k' -> obj_get k (obj_del k' o) = obj_get k o.
Proof.
  intros Hne. induction o as [|[k0 v0] r IH]; simpl.
  - reflexivity.
  - destruct (String.eqb_spec k' k0) as [->|Hk]; simpl.
    + rewrite IH. destruct (String.eqb_spec k k0); [congruence | reflexivity].
    + now rewrite IH.
Qed.

Lemma obj_has_exclude k excl o :
  obj_has k (exclude_attributes excl o)
  = negb (existsb (String.eqb k) excl) && obj_has k o.
Proof.
  unfold exclude_attributes. revert o.
  induction excl as [|a excl IH]; intros o; simpl.
  - reflexivity.
  - rewrite IH, obj_has_del.
    destruct (String.eqb k a), (existsb (String.eqb k) excl); reflexivity.
Qed.

Lemma obj_get_exclude k excl o :
  existsb (String.eqb k) excl = false ->
  obj_get k (exclude_attributes excl o) = obj_get k o.
Proof.
  unfold exclude_attributes. revert o.
  induction excl as [|a excl IH]; intros o; simpl.
  - reflexivity.
  - intros H. apply orb_false_elim in H as [Ha Hx].
    rewrite IH by exact Hx. apply obj_get_del_ne.
    intros ->. now rewrite String.eqb_refl in Ha.
Qed.

Lemma obj_has_json_fields toISO k o :
  obj_has k (json_fields toISO o) = true -> obj_has k o = true.
Proof.
  induction o as [|[k0 v0] r IH]; simpl.
  - discriminate.
  - destruct v0; simpl; intros H;
      try (apply orb_true_iff in H as [H|H];
           [now rewrite H | rewrite (IH H); apply orb_true_r]).
    rewrite (IH H). apply orb_true_r.
Qed.

(** ** Credential material and the keyspace *)

Lemma secret_free_obj_spec o :
  secret_free_obj o = true <->
  obj_has "password" o = false /\ obj_has "passwordResetToken" o = false
  /\ obj_has "passwordResetExpires" o = false.
Proof.
  unfold secret_free_obj, secret_attributes. simpl.
  rewrite andb_true_r, !andb_true_iff, !negb_true_iff. tauto.
Qed.

Lemma sanitizeUser_secret_free o : secret_free_obj (sanitizeUser o) = true.
Proof.
  apply secret_free_obj_spec. unfold sanitizeUser.
  repeat split; rewrite !obj_has_del; simpl;
    repeat (rewrite ?andb_false_r; simpl); reflexivity.
Qed.

Lemma exclude_secret_free o :
  secret_free_obj (exclude_attributes secret_attributes o) = true.
Proof.
  apply secret_free_obj_spec.
  repeat split; rewrite obj_has_exclude; reflexivity.
Qed.

Lemma secret_free_json_rt toISO v :
  secret_free v = true -> secret_free (json_rt toISO v) = true.
Proof.
  destruct v; simpl; try reflexivity; try (intros H; exact H).
  change ((fix fields (o : obj) : obj :=
             match o with
             | [] => []
             | (k, x) :: r =>
                 match x with
                 | VUndef => fields r
                 | _ => (k, json_rt toISO x) :: fields r
                 end
             end) o) with (json_fields toISO o).
  rewrite !secret_free_obj_spec. intros (H1 & H2 & H3).
  repeat split;
    match goal with
    | |- obj_has ?k ?o' = false =>
        destruct (obj_has k o') eqn:E; [|reflexivity];
        apply obj_has_json_fields in E; congruence
    end.
Qed.

Lemma cache_clean_frame w w' :
  redis w' = redis w -> cache_clean w -> cache_clean w'.
Proof. unfold cache_clean. intros ->. auto. Qed.

Lemma cache_clean_insert w key e :
  secret_free (ce_val e) = true -> cache_clean w ->
  cache_clean (set_redis (<[key := e]> (redis w)) w).
Proof.
  unfold cache_clean. simpl. intros He Hw k e' Hk.
  destruct (decide (key = k)) as [->|Hne].
  - rewrite lookup_insert_eq in Hk. congruence.
  - rewrite lookup_insert_ne in Hk by exact Hne. eauto.
Qed.

Lemma cache_clean_delete w key :
  cache_clean w -> cache_clean (set_redis (delete key (redis w)) w).
Proof.
  unfold cache_clean. simpl. intros Hw k e' Hk.
  destruct (decide (key = k)) as [->|Hne].
  - rewrite lookup_delete_eq in Hk. discriminate.
  - rewrite lookup_delete_ne in Hk by exact Hne. eauto.
Qed.

(** ** Rules of the triple *)

Lemma keeps_ret {A} (I : World -> Prop) (P : A -> Prop) a :
  P a -> keeps I P (ret a).
Proof. intros Ha w Hw. simpl. auto. Qed.

Lemma keeps_throw {A} (I : World -> Prop) (P : A -> Prop) e :
  keeps I P (throw e).
Proof. intros w Hw. exact Hw. Qed.

Lemma keeps_bind {A B} (I : World -> Prop) (P : A -> Prop) (Q : B -> Prop) c k :
  keeps I P c -> (forall a, P a -> keeps I Q (k a)) -> keeps I Q (bind c k).
Proof.
  intros Hc Hk w Hw. unfold bind. specialize (Hc w Hw).
  destruct (c w) as [[a|e] w1].
  - destruct Hc as [Ha Hw1]. exact (Hk a Ha w1 Hw1).
  - exact Hc.
Qed.

Lemma keeps_try {A} (I : World -> Prop) (P Q : A -> Prop) c h :
  keeps I P c -> (forall a, P a -> Q a) -> (forall e, keeps I Q (h e)) ->
  keeps I Q (try_catch c h).
Proof.
  intros Hc HPQ Hh w Hw. unfold try_catch. specialize (Hc w Hw).
  destruct (c w) as [[a|e] w1].
  - destruct Hc as [Ha Hw1]. auto.
  - exact (Hh e w1 Hc).
Qed.

Lemma keeps_weaken {A} (I : World -> Prop) (P Q : A -> Prop) c :
  keeps I P c -> (forall a, P a -> Q a) -> keeps I Q c.
Proof.
  intros Hc HPQ w Hw. specialize (Hc w Hw).
  destruct (c w) as [[a|e] w1]; [destruct Hc; auto | exact Hc].
Qed.

(** A step that leaves the keyspace alone keeps [cache_clean]. *)
Lemma keeps_framed {A} (c : M A) :
  (forall w, redis (snd (c w)) = redis w) ->
  keeps cache_clean (fun _ => True) c.
Proof.
  intros Hc w Hw. specialize (Hc w).
  destruct (c w) as [[a|e] w1]; simpl in Hc;
    [split; [exact I|] |]; exact (cache_clean_frame _ _ Hc Hw).
Qed.

Lemma keeps_db_call : keeps cache_clean (fun _ => True) db_call.
Proof.
  apply keeps_framed. intros w. unfold db_call.
  destruct (next_fault (db_faults w)) as [[] r]; reflexivity.
Qed.

Lemma keeps_redis_command : keeps cache_clean (fun _ => True) redis_command.
Proof.
  apply keeps_framed. intros w. unfold redis_command.
  destruct (next_fault (redis_faults w)) as [[] r]; reflexivity.
Qed.

Lemma keeps_get_db : keeps cache_clean (fun _ => True) get_db.
Proof. apply keeps_framed. reflexivity. Qed.

Lemma keeps_put_db d : keeps cache_clean (fun _ => True) (put_db d).
Proof. apply keeps_framed. reflexivity. Qed.

Lemma keeps_put_users us : keeps cache_clean (fun _ => True) (put_users us).
Proof. apply keeps_framed. reflexivity. Qed.

Lemma keeps_Date_now : keeps cache_clean (fun _ => True) Date_now.
Proof. apply keeps_framed. reflexivity. Qed.

Create HintDb keeps.
#[local] Hint Resolve keeps_db_call keeps_redis_command keeps_get_db keeps_put_db
  keeps_put_users keeps_Date_now : keeps.

(** Chaining steps whose results carry no obligation. *)
Ltac keeps_seq :=
  repeat first
    [ apply keeps_throw
    | apply keeps_ret; try exact I
    | eapply keeps_bind; [solve [eauto with keeps] | intros ? _] ].

(** ** The Redis wrapper keeps the keyspace clean *)

Lemma keeps_client_get key :
  keeps cache_clean
    (fun raw => forall t, raw = Some t -> secret_free t = true)
    (client_get key).
Proof.
  unfold client_get. eapply keeps_bind; [apply keeps_redis_command|].
  intros _ _ w Hw. simpl. split; [|exact Hw].
  intros t. unfold visible.
  destruct (redis w !! key) as [e|] eqn:E; [|discriminate].
  destruct (live (now w) e); [|discriminate].
  intros [= <-]. exact (Hw key e E).
Qed.

Lemma keeps_client_set key text :
  secret_free text = true ->
  keeps cache_clean (fun _ => True) (client_set key text).
Proof.
  intros Ht. unfold client_set.
  eapply keeps_bind; [apply keeps_redis_command|].
  intros _ _ w Hw. simpl. split; [exact I|].
  now apply cache_clean_insert.
Qed.

Lemma keeps_client_setex key seconds text :
  secret_free text = true ->
  keeps cache_clean (fun _ => True) (client_setex key seconds text).
Proof.
  intros Ht. unfold client_setex.
  eapply keeps_bind; [apply keeps_redis_command|].
  intros _ _. destruct (seconds <=? 0); [apply keeps_throw|].
  intros w Hw. simpl. split; [exact I|].
  now apply cache_clean_insert.
Qed.

Lemma keeps_client_del key :
  keeps cache_clean (fun _ => True) (client_del key).
Proof.
  unfold client_del. eapply keeps_bind; [apply keeps_redis_command|].
  intros _ _ w Hw. simpl. split; [exact I|].
  now apply cache_clean_delete.
Qed.

Lemma keeps_RedisClient_get key :
  keeps cache_clean (fun v => secret_free v = true) (RedisClient_get key).
Proof.
  unfold RedisClient_get, ensureConnection.
  eapply keeps_try with (P := fun v => secret_free v = true).
  - eapply keeps_bind; [apply keeps_redis_command|]. intros _ _.
    eapply keeps_bind; [apply keeps_client_get|]. intros raw Hraw.
    apply keeps_ret. destruct raw as [t|]; [|reflexivity].
    destruct (text_truthy (Some t)); [now apply Hraw | reflexivity].
  - auto.
  - intros e. now apply keeps_ret.
Qed.

Lemma keeps_RedisClient_set toISO key value ttl :
  secret_free value = true ->
  keeps cache_clean (fun _ => True) (RedisClient_set toISO key value ttl).
Proof.
  intros Hv. unfold RedisClient_set, ensureConnection.
  eapply keeps_try with (P := fun _ => True); [|auto|intros e; now apply keeps_ret].
  eapply keeps_bind; [apply keeps_redis_command|]. intros _ _.
  eapply keeps_bind with (P := fun _ => True); [|intros _ _; now apply keeps_ret].
  destruct (negb (ttl =? 0)).
  - apply keeps_client_setex. now apply secret_free_json_rt.
  - apply keeps_client_set. now apply secret_free_json_rt.
Qed.

Lemma keeps_RedisClient_del key :
  keeps cache_clean (fun _ => True) (RedisClient_del key).
Proof.
  unfold RedisClient_del, ensureConnection.
  eapply keeps_try with (P := fun _ => True); [|auto|intros e; now apply keeps_ret].
  eapply keeps_bind; [apply keeps_redis_command|]. intros _ _.
  eapply keeps_bind; [apply keeps_client_del|]. intros _ _.
  now apply keeps_ret.
Qed.

Lemma keeps_RedisClient_delete key :
  keeps cache_clean (fun _ => True) (RedisClient_delete key).
Proof. apply keeps_throw. Qed.

#[local] Hint Resolve keeps_RedisClient_del keeps_RedisClient_delete : keeps.

(** ** Sequelize leaves the keyspace alone *)

Section KeepsSequelize.
Context (env : Env) (m : UserModel).

Lemma keeps_getUserModel : keeps cache_clean (fun _ => True) getUserModel.
Proof. apply keeps_db_call. Qed.

Lemma keeps_Model_findOne where_ :
  keeps cache_clean (fun _ => True) (Model_findOne m where_).
Proof. unfold Model_findOne. keeps_seq. Qed.

Lemma keeps_Model_findOne_roles cols where_ :
  keeps cache_clean (fun _ => True) (Model_findOne_roles m cols where_).
Proof.
  unfold Model_findOne_roles. destruct (negb (existsb _ _)); [apply keeps_throw|].
  eapply keeps_bind; [apply keeps_db_call|]. intros _ _.
  destruct (negb (has_columns m cols)); keeps_seq.
Qed.

(** A row read without the secret attributes has none of them. *)
Lemma keeps_Model_findByPk_secret id :
  keeps cache_clean
    (fun u => forall x, u = Some x -> secret_free_obj (toJSON x) = true)
    (Model_findByPk m id secret_attributes).
Proof.
  unfold Model_findByPk.
  eapply keeps_bind; [apply keeps_db_call|]. intros _ _.
  eapply keeps_bind; [apply keeps_get_db|]. intros d _.
  apply keeps_ret. intros x.
  destruct (List.find _ (users d)); simpl; [|discriminate].
  intros [= <-]. apply exclude_secret_free.
Qed.

Lemma keeps_Model_findByPk id excl :
  keeps cache_clean (fun _ => True) (Model_findByPk m id excl).
Proof. unfold Model_findByPk. keeps_seq. Qed.

Lemma keeps_instance_save u :
  keeps cache_clean (fun _ => True) (instance_save m u).
Proof.
  unfold instance_save. destruct (m_beforeSave m false (i_row u)); keeps_seq.
Qed.

Lemma keeps_instance_update values u :
  keeps cache_clean (fun _ => True) (instance_update m values u).
Proof. apply keeps_instance_save. Qed.

Lemma keeps_instance_destroy u :
  keeps cache_clean (fun _ => True) (instance_destroy m u).
Proof.
  unfold instance_destroy. keeps_seq. destruct (m_paranoid m); keeps_seq.
Qed.

Lemma keeps_Model_create values :
  keeps cache_clean (fun _ => True) (Model_create env m values).
Proof.
  unfold Model_create.
  eapply keeps_bind; [apply keeps_get_db|]. intros d _.
  eapply keeps_bind; [apply keeps_Date_now|]. intros t _.
  cbv zeta.
  destruct (m_beforeSave m _ _) as [row2|]; [|apply keeps_throw].
  eapply keeps_bind; [apply keeps_db_call|]. intros _ _.
  destruct (obj_get "id" row2); keeps_seq.
Qed.

Lemma keeps_transaction {A} (P : A -> Prop) (callback : M A) :
  keeps cache_clean P callback ->
  keeps cache_clean P (transaction callback).
Proof.
  intros Hc. unfold transaction.
  eapply keeps_bind; [apply keeps_db_call|]. intros _ _.
  eapply keeps_bind; [apply keeps_get_db|]. intros snapshot _.
  eapply keeps_bind with (P := fun _ => True).
  { eapply keeps_try with (P := fun _ => True); [keeps_seq|auto|intros e; keeps_seq]. }
  intros [] _; [|apply keeps_throw].
  eapply keeps_try with (P := P); [|auto|intros e; keeps_seq].
  eapply keeps_bind; [exact Hc|]. intros a Ha.
  eapply keeps_bind; [apply keeps_db_call|]. intros _ _.
  now apply keeps_ret.
Qed.
End KeepsSequelize.

#[local] Hint Resolve keeps_getUserModel keeps_Model_findOne keeps_Model_findOne_roles
  keeps_Model_findByPk keeps_instance_save keeps_instance_update keeps_instance_destroy
  keeps_Model_create : keeps.

(** ** What the service returns and caches *)

(** Nothing runs after a read of [User.sequelize.Op]. *)
Lemma keeps_sequelize_Op {A} (Q : A -> Prop) member (k : unit -> M A) :
  keeps cache_clean Q (bind (sequelize_Op member) k).
Proof. intros w Hw. exact Hw. Qed.

Section KeepsService.
Context (env : Env) (m : UserModel).

Lemma keeps_rethrow_or {A} (Q : A -> Prop) status msg code_ error :
  keeps cache_clean Q (rethrow_or status msg code_ error).
Proof. unfold rethrow_or. destruct (instanceof_ApiError error); apply keeps_throw. Qed.

Lemma keeps_login username password :
  keeps cache_clean (fun r => secret_free_obj (res_user r) = true)
    (login env m username password).
Proof.
  unfold login.
  eapply keeps_bind; [apply keeps_getUserModel|]. intros _ _.
  eapply keeps_try; [|intros a Ha; exact Ha|intros e; apply keeps_rethrow_or].
  apply keeps_sequelize_Op.
Qed.

Lemma keeps_logout token user :
  keeps cache_clean (fun _ => True) (logout env m token user).
Proof.
  unfold logout.
  eapply keeps_try with (P := fun _ => True); [|auto|intros e; now apply keeps_ret].
  cbv zeta.
  eapply keeps_bind; [apply keeps_Date_now|]. intros t _.
  eapply keeps_bind; [now apply keeps_RedisClient_set|]. intros _ _.
  destruct user as [u|]; [|now apply keeps_ret].
  destruct (negb _); [|now apply keeps_ret].
  eapply keeps_bind; [apply keeps_getUserModel|]. intros _ _.
  eapply keeps_bind; [apply keeps_Model_findByPk|]. intros userModel _.
  eapply keeps_bind with (P := fun _ => True).
  { destruct userModel as [um|]; keeps_seq. }
  intros _ _. keeps_seq.
Qed.

Lemma keeps_getUserById id :
  keeps cache_clean (fun v => secret_free v = true) (getUserById env m id).
Proof.
  unfold getUserById.
  eapply keeps_try; [|intros a Ha; exact Ha|intros e; apply keeps_rethrow_or].
  eapply keeps_bind; [apply keeps_RedisClient_get|]. intros cachedUser Hc.
  destruct (truthy cachedUser); [now apply keeps_ret|].
  eapply keeps_bind; [apply keeps_getUserModel|]. intros _ _.
  eapply keeps_bind; [apply keeps_Model_findByPk_secret|]. intros [u|] Hu;
    [|apply keeps_throw].
  cbv zeta.
  eapply keeps_bind.
  - apply keeps_RedisClient_set. simpl. now apply Hu.
  - intros _ _. apply keeps_ret. simpl. now apply Hu.
Qed.

Lemma keeps_updateUser id userData :
  keeps cache_clean (fun o => secret_free_obj o = true) (updateUser m id userData).
Proof.
  unfold updateUser.
  eapply keeps_bind; [apply keeps_getUserModel|]. intros _ _.
  eapply keeps_try; [|intros a Ha; exact Ha|intros e; apply keeps_rethrow_or].
  apply keeps_transaction.
  eapply keeps_bind; [apply keeps_Model_findByPk|]. intros [u|] _;
    [|apply keeps_throw].
  cbv zeta.
  eapply keeps_bind; [apply keeps_instance_update|]. intros u' _.
  eapply keeps_bind; [apply keeps_RedisClient_del|]. intros _ _.
  apply keeps_ret. apply sanitizeUser_secret_free.
Qed.

Lemma keeps_deleteUser id :
  keeps cache_clean (fun _ => True) (deleteUser m id).
Proof.
  unfold deleteUser.
  eapply keeps_bind; [apply keeps_getUserModel|]. intros _ _.
  eapply keeps_try; [|intros a Ha; exact Ha|intros e; apply keeps_rethrow_or].
  apply keeps_transaction.
  eapply keeps_bind; [apply keeps_Model_findByPk|]. intros [u|] _;
    [|apply keeps_throw].
  eapply keeps_bind; [apply keeps_instance_destroy|]. intros _ _.
  keeps_seq.
Qed.

Lemma keeps_register userData :
  keeps cache_clean (fun o => secret_free_obj o = true) (register env m userData).
Proof.
  unfold register.
  eapply keeps_bind; [apply keeps_getUserModel|]. intros _ _.
  eapply keeps_try; [|intros a Ha; exact Ha|intros e; apply keeps_rethrow_or].
  apply keeps_sequelize_Op.
Qed.

Lemma keeps_getUsers o :
  keeps cache_clean
    (fun p => Forall (fun u => secret_free_obj u = true) (up_users p))
    (getUsers env m o).
Proof.
  unfold getUsers.
  eapply keeps_bind; [apply keeps_getUserModel|]. intros _ _.
  eapply keeps_try; [|intros a Ha; exact Ha|intros e; apply keeps_throw].
  cbv zeta.
  eapply keeps_bind with (P := fun _ => True).
  { destruct (truthy_str (o_search o)); [apply keeps_throw | now apply keeps_ret]. }
  intros _ _.
  eapply keeps_bind with (P := fun _ => True).
  { destruct (truthy_str (o_role o)); [apply keeps_throw | now apply keeps_ret]. }
  intros _ _.
  eapply keeps_bind; [apply keeps_db_call|]. intros _ _.
  destruct (_ || _); [apply keeps_throw|].
  eapply keeps_bind; [apply keeps_get_db|]. intros d _.
  apply keeps_ret. simpl.
  apply List.Forall_forall. intros u Hu. apply in_map_iff in Hu as (r & <- & _).
  apply exclude_secret_free.
Qed.
End KeepsService.

Lemma serve_clean env m c w :
  cache_clean w ->
  Forall (fun v => secret_free v = true) (fst (serve env m c w))
  /\ cache_clean (snd (serve env m c w)).
Proof.
  intros Hw. destruct c; simpl; unfold returned; simpl.
  - pose proof (keeps_register env m userData w Hw) as H.
    destruct (register env m userData w) as [[o|e] w1]; simpl;
      [destruct H; split; [repeat constructor|]; assumption | split; [constructor|assumption]].
  - pose proof (keeps_login env m username password w Hw) as H.
    destruct (login env m username password w) as [[o|e] w1]; simpl;
      [destruct H; split; [repeat constructor|]; assumption | split; [constructor|assumption]].
  - pose proof (keeps_logout env m token user w Hw) as H.
    destruct (logout env m token user w) as [[o|e] w1]; simpl;
      [destruct H; split; [constructor|assumption] | split; [constructor|assumption]].
  - pose proof (keeps_getUsers env m o w Hw) as H.
    destruct (getUsers env m o w) as [[p|e] w1]; simpl;
      [destruct H as [H1 H2]; split; [|assumption] | split; [constructor|assumption]].
    apply Forall_map. simpl. exact H1.
  - pose proof (keeps_getUserById env m id w Hw) as H.
    destruct (getUserById env m id w) as [[o|e] w1]; simpl;
      [destruct H; split; [repeat constructor|]; assumption | split; [constructor|assumption]].
  - pose proof (keeps_updateUser m id userData w Hw) as H.
    destruct (updateUser m id userData w) as [[o|e] w1]; simpl;
      [destruct H; split; [repeat constructor|]; assumption | split; [constructor|assumption]].
  - pose proof (keeps_deleteUser m id w Hw) as H.
    destruct (deleteUser m id w) as [[o|e] w1]; simpl;
      [destruct H; split; [constructor|assumption] | split; [constructor|assumption]].
  - split; [constructor|]. exact Hw.
Qed.

(** C9.  Starting from a keyspace that holds no credential material (an
    empty one in particular), whatever sequence of [register], [login],
    [logout], [getUsers], [getUserById], [updateUser] and [deleteUser] calls
    is served, under any schedule of collaborator failures and any
    interleaved change of the tables and the clock, every user object
    handed back has none of the attributes [password],
    [passwordResetToken], [passwordResetExpires], whether it was read from
    the store or from the cache. *)
Theorem returned_users_carry_no_credentials env m cs w :
  cache_clean w ->
  Forall (fun v => secret_free v = true) (serve_all env m cs w).
Proof.
  revert w. induction cs as [|c rest IH]; intros w Hw; simpl.
  - constructor.
  - pose proof (serve_clean env m c w Hw) as [Hvs Hw'].
    destruct (serve env m c w) as [vs w']. simpl in *.
    apply Forall_app. split; [exact Hvs | exact (IH w' Hw')].
Qed.

Lemma returned_users_carry_no_credentials_witness :
  cache_clean (Demo.world 5000)
  /\ Forall (fun v => secret_free v = true)
       (serve_all Demo.env (SysUser.model Demo.env)
          [CallLogin (VStr "alice") (VStr "Correct1!");
           CallGetUserById "u1";
           CallUpdateUser "u1" [("email", VStr "a@example.com"); ("password", VStr "x")];
           CallGetUserById "u1";
           CallGetUsers
             (mkListOptions None None VUndef None VUndef None (VStr "username") VUndef)]
          (Demo.world 5000)).
Proof.
  assert (H : cache_clean (Demo.world 5000)).
  { intros key e He. simpl in He. rewrite lookup_empty in He. discriminate He. }
  split; [exact H|].
  apply (returned_users_carry_no_credentials Demo.env (SysUser.model Demo.env) _
           (Demo.world 5000) H).
Defined.

(** ** Tenant isolation *)

(** C8.  For an authenticated request, [tenantAccess] lets an identity whose
    roles include ['admin'] through whatever tenant is requested, and
    answers every other identity with [AUTH_TENANT_ACCESS_DENIED] (403)
    whenever the requested tenant id is not strictly equal to the
    identity's [tenantId].  The middleware reads the request only, so the
    answer cannot depend on the existence of the target resource. *)
Theorem tenantAccess_admin_or_own_tenant paramName req user :
  req_user req = Some user ->
  (js_includes (c_roles user) (VStr "admin") = true ->
   tenantAccess paramName req = next tt)
  /\ (js_includes (c_roles user) (VStr "admin") = false ->
      js_strict_eq (requestedTenantId paramName req) (c_tenantId user) = false ->
      tenantAccess paramName req
      = next_error
          (mkApiError statusCodes.FORBIDDEN "无权访问此租户的数据" "AUTH_TENANT_ACCESS_DENIED")).
Proof.
  intros Hu. unfold tenantAccess. rewrite Hu. split.
  - intros ->. reflexivity.
  - intros -> ->. simpl. now rewrite orb_true_r.
Qed.

Lemma tenantAccess_admin_or_own_tenant_witness :
  tenantAccess "tenantId" (Demo.request_of Demo.root_claims) = next tt
  /\ tenantAccess "tenantId" (Demo.request_of Demo.alice_claims)
     = next_error
         (mkApiError statusCodes.FORBIDDEN "无权访问此租户的数据" "AUTH_TENANT_ACCESS_DENIED").
Proof.
  split.
  - apply (proj1 (tenantAccess_admin_or_own_tenant "tenantId"
                    (Demo.request_of Demo.root_claims) Demo.root_claims eq_refl)).
    reflexivity.
  - apply (proj2 (tenantAccess_admin_or_own_tenant "tenantId"
                    (Demo.request_of Demo.alice_claims) Demo.alice_claims eq_refl));
      reflexivity.
Defined.

(** ** Reading a run backwards *)

Lemma bind_Ok_inv {A B} (c : M A) (k : A -> M B) w b w' :
  bind c k w = (Ok b, w') ->
  exists a w1, c w = (Ok a, w1) /\ k a w1 = (Ok b, w').
Proof.
  unfold bind. destruct (c w) as [[a|e] w1]; [eauto | discriminate].
Qed.

Lemma bind_Throw_inv {A B} (c : M A) (k : A -> M B) w e w' :
  bind c k w = (Throw e, w') ->
  c w = (Throw e, w') \/ exists a w1, c w = (Ok a, w1) /\ k a w1 = (Throw e, w').
Proof.
  unfold bind. destruct (c w) as [[a|e0] w1]; [eauto | intros [= <- <-]; auto].
Qed.

Lemma try_rethrow_Ok_inv {A} (c : M A) status msg code_ w a w' :
  try_catch c (rethrow_or status msg code_) w = (Ok a, w') ->
  c w = (Ok a, w').
Proof.
  unfold try_catch. destruct (c w) as [[a0|e] w1]; [auto|].
  unfold rethrow_or. destruct (instanceof_ApiError e); discriminate.
Qed.

(** A handler that returns makes the whole [try] return. *)
Lemma try_catch_total {A} (c : M A) (h : Exn -> M A) w :
  (forall e w1, exists a w2, h e w1 = (Ok a, w2)) ->
  exists a w', try_catch c h w = (Ok a, w').
Proof.
  intros Hh. unfold try_catch. destruct (c w) as [[a|e] w1]; eauto.
Qed.

Lemma db_call_Ok_inv w a w' :
  db_call w = (Ok a, w') -> exists r, w' = set_db_faults r w.
Proof.
  unfold db_call.
  destruct (next_fault (db_faults w)) as [[] r]; intros [= <- <-]; eauto.
Qed.

Lemma db_call_no_fault w :
  no_fault 1 (db_faults w) = true ->
  db_call w = (Ok tt, set_db_faults (tl (db_faults w)) w).
Proof.
  unfold db_call, no_fault.
  destruct (db_faults w) as [|[] r]; simpl; try discriminate; destruct w; reflexivity.
Qed.

Lemma redis_only_ret {A} (a : A) : redis_only (ret a).
Proof. intros w. auto. Qed.

Lemma redis_only_throw {A} e : redis_only (@throw A e).
Proof. intros w. auto. Qed.

Lemma redis_only_bind {A B} (c : M A) (k : A -> M B) :
  redis_only c -> (forall a, redis_only (k a)) -> redis_only (bind c k).
Proof.
  intros Hc Hk w. unfold bind. specialize (Hc w).
  destruct (c w) as [[a|e] w1]; simpl in Hc.
  - destruct (Hk a w1) as (H1 & H2 & H3), Hc as (G1 & G2 & G3).
    repeat split; congruence.
  - exact Hc.
Qed.

Lemma redis_only_try {A} (c : M A) (h : Exn -> M A) :
  redis_only c -> (forall e, redis_only (h e)) -> redis_only (try_catch c h).
Proof.
  intros Hc Hh w. unfold try_catch. specialize (Hc w).
  destruct (c w) as [[a|e] w1]; simpl in Hc.
  - exact Hc.
  - destruct (Hh e w1) as (H1 & H2 & H3), Hc as (G1 & G2 & G3).
    repeat split; congruence.
Qed.

Lemma redis_only_command : redis_only redis_command.
Proof.
  intros w. unfold redis_command.
  destruct (next_fault (redis_faults w)) as [[] r]; simpl; auto.
Qed.

Lemma redis_only_client_get key : redis_only (client_get key).
Proof.
  apply redis_only_bind; [apply redis_only_command|]. intros _ w. auto.
Qed.

Lemma redis_only_client_set key text : redis_only (client_set key text).
Proof.
  apply redis_only_bind; [apply redis_only_command|]. intros _ w. auto.
Qed.

Lemma redis_only_client_setex key seconds text :
  redis_only (client_setex key seconds text).
Proof.
  apply redis_only_bind; [apply redis_only_command|]. intros _.
  destruct (seconds <=? 0); [apply redis_only_throw|]. intros w. auto.
Qed.

Lemma redis_only_client_del key : redis_only (client_del key).
Proof.
  apply redis_only_bind; [apply redis_only_command|]. intros _ w. auto.
Qed.

Lemma redis_only_RedisClient_get key : redis_only (RedisClient_get key).
Proof.
  apply redis_only_try; [|intros e; apply redis_only_ret].
  apply redis_only_bind; [apply redis_only_command|]. intros _.
  apply redis_only_bind; [apply redis_only_client_get|]. intros raw.
  apply redis_only_ret.
Qed.

Lemma redis_only_RedisClient_set toISO key value ttl :
  redis_only (RedisClient_set toISO key value ttl).
Proof.
  apply redis_only_try; [|intros e; apply redis_only_ret].
  apply redis_only_bind; [apply redis_only_command|]. intros _.
  apply redis_only_bind; [|intros _; apply redis_only_ret].
  destruct (negb (ttl =? 0));
    [apply redis_only_client_setex | apply redis_only_client_set].
Qed.

Lemma redis_only_RedisClient_del key : redis_only (RedisClient_del key).
Proof.
  apply redis_only_try; [|intros e; apply redis_only_ret].
  apply redis_only_bind; [apply redis_only_command|]. intros _.
  apply redis_only_bind; [apply redis_only_client_del|]. intros _.
  apply redis_only_ret.
Qed.

(** The three wrappers of [RedisClient] never throw. *)
Lemma RedisClient_get_total key w :
  exists v w', RedisClient_get key w = (Ok v, w').
Proof. apply try_catch_total. intros e w1. unfold ret. eauto. Qed.

Lemma RedisClient_set_total toISO key value ttl w :
  exists b w', RedisClient_set toISO key value ttl w = (Ok b, w').
Proof. apply try_catch_total. intros e w1. unfold ret. eauto. Qed.

Lemma RedisClient_del_total key w :
  exists b w', RedisClient_del key w = (Ok b, w').
Proof. apply try_catch_total. intros e w1. unfold ret. eauto. Qed.


(** ** Reads of [User.sequelize.Op] *)

(** [login] gets as far as the [where] of its query.  When [getUserModel]
    answered, the [TypeError] is caught and rethrown as
    [AUTH_LOGIN_FAILED]; the world has moved on by that one round trip and
    by nothing else. *)
Lemma login_run env m username password w :
  login env m username password w
  = (Throw (if fst (next_fault (db_faults w)) then EDb else EApi LOGIN_FAILED),
     set_db_faults (snd (next_fault (db_faults w))) w).
Proof.
  unfold login, getUserModel, bind, db_call.
  destruct (next_fault (db_faults w)) as [[] r]; reflexivity.
Qed.

Lemma login_never_returns env m username password w res w' :
  login env m username password w <> (Ok res, w').
Proof. rewrite login_run. discriminate. Qed.

Lemma login_answered env m username password w :
  no_fault 1 (db_faults w) = true ->
  fst (login env m username password w) = Throw (EApi LOGIN_FAILED).
Proof.
  intros Hf. rewrite login_run. unfold no_fault in Hf.
  destruct (db_faults w) as [|[] r]; simpl in *; try discriminate; reflexivity.
Qed.

Lemma login_outcome env m username password w :
  outcome (fst (login env m username password w)) = "AUTH_LOGIN_FAILED"
  \/ outcome (fst (login env m username password w)) = "exception".
Proof.
  rewrite login_run. destruct (fst (next_fault (db_faults w))); auto.
Qed.

Lemma login_writes_nothing env m username password w :
  db (snd (login env m username password w)) = db w
  /\ redis (snd (login env m username password w)) = redis w.
Proof. rewrite login_run. split; reflexivity. Qed.

(** The same for [register]. *)
Lemma register_run env m userData w :
  register env m userData w
  = (Throw (if fst (next_fault (db_faults w)) then EDb else EApi REGISTRATION_FAILED),
     set_db_faults (snd (next_fault (db_faults w))) w).
Proof.
  unfold register, getUserModel, bind, db_call.
  destruct (next_fault (db_faults w)) as [[] r]; reflexivity.
Qed.

(** ** What [updateLoginTime] resets *)

Lemma row_id_set k v o : k <> "id" -> row_id (obj_set k v o) = row_id o.
Proof.
  intros Hk. unfold row_id. rewrite obj_get_set_ne; [reflexivity | congruence].
Qed.

Lemma row_id_del k o : k <> "id" -> row_id (obj_del k o) = row_id o.
Proof.
  intros Hk. unfold row_id. rewrite obj_get_del_ne; [reflexivity | congruence].
Qed.




(** ** Permission resolution *)

Lemma existsb_str_In c l : existsb (String.eqb c) l = true <-> In c l.
Proof.
  rewrite existsb_exists. split.
  - intros (x & Hx & E). apply String.eqb_eq in E. now subst.
  - intros H. exists c. split; [exact H | apply String.eqb_refl].
Qed.

Lemma existsb_pair_In a b (l : list (string * string)) :
  existsb (fun p => String.eqb (fst p) a && String.eqb (snd p) b) l = true
  <-> In (a, b) l.
Proof.
  rewrite existsb_exists. split.
  - intros ([x y] & Hx & E). simpl in E. apply andb_true_iff in E as [E1 E2].
    apply String.eqb_eq in E1, E2. now subst.
  - intros H. exists (a, b). simpl. now rewrite !String.eqb_refl.
Qed.

Lemma push_perm_In c perms perm :
  In c (push_perm perms perm)
  <-> In c perms \/ (c <> "" /\ p_perms perm = Some c).
Proof.
  unfold push_perm. destruct (p_perms perm) as [c0|].
  - destruct (String.eqb_spec c0 "") as [->|Hne]; simpl.
    + split; [auto|]. intros [H|[H1 [= <-]]]; [exact H | congruence].
    + destruct (existsb (String.eqb c0) perms) eqn:Ex; simpl.
      * apply existsb_str_In in Ex. split; [auto|].
        intros [H|[H1 [= <-]]]; [exact H | exact Ex].
      * rewrite in_app_iff. simpl. split.
        -- intros [H|[<-|[]]]; [auto | right; split; [exact Hne | reflexivity]].
        -- intros [H|[H1 [= <-]]]; auto.
  - split; [auto|]. intros [H|[_ H]]; [exact H | discriminate].
Qed.

Lemma NoDup_snoc (c : string) l :
  ~ In c l -> List.NoDup l -> List.NoDup (l ++ [c]).
Proof.
  induction l as [|x l IH]; simpl; intros Hc Hnd.
  - constructor; [intros [] | constructor].
  - inversion Hnd as [|y l' Hx Hl]; subst. constructor.
    + rewrite in_app_iff. simpl. intros [H|[<-|[]]]; [contradiction | auto].
    + apply IH; [auto | exact Hl].
Qed.

Lemma push_perm_NoDup perms perm :
  List.NoDup perms -> List.NoDup (push_perm perms perm).
Proof.
  intros Hnd. unfold push_perm. destruct (p_perms perm) as [c0|]; [|exact Hnd].
  destruct (negb (String.eqb c0 "")); simpl; [|exact Hnd].
  destruct (existsb (String.eqb c0) perms) eqn:Ex; simpl; [exact Hnd|].
  apply NoDup_snoc; [|exact Hnd].
  intros Hin. apply existsb_str_In in Hin. congruence.
Qed.

Lemma push_role_In c ps perms :
  In c (fold_left push_perm ps perms)
  <-> In c perms \/ (c <> "" /\ exists p, In p ps /\ p_perms p = Some c).
Proof.
  revert perms. induction ps as [|p ps IH]; intros perms; simpl.
  - split; [auto|]. intros [H|(_ & p & [] & _)]. exact H.
  - rewrite IH, push_perm_In. split.
    + intros [[H|[H1 H2]]|(H1 & q & Hq & H2)]; eauto 8.
    + intros [H|(H1 & q & [<-|Hq] & H2)]; eauto 8.
Qed.

Lemma push_role_NoDup ps perms :
  List.NoDup perms -> List.NoDup (fold_left push_perm ps perms).
Proof.
  revert perms. induction ps as [|p ps IH]; intros perms H; simpl; [exact H|].
  apply IH. now apply push_perm_NoDup.
Qed.

Lemma extract_perms_In c loaded :
  In c (extract_perms (Some loaded))
  <-> c <> "" /\ exists r p, In r loaded /\ In p (lr_permissions r) /\ p_perms p = Some c.
Proof.
  unfold extract_perms.
  assert (G : forall acc,
             In c (fold_left push_role loaded acc)
             <-> In c acc
                 \/ (c <> "" /\ exists r p, In r loaded /\ In p (lr_permissions r)
                                            /\ p_perms p = Some c)).
  { induction loaded as [|r rs IH]; intros acc; simpl.
    - split; [auto|]. intros [H|(_ & r & p & [] & _)]. exact H.
    - rewrite IH. unfold push_role at 1. rewrite push_role_In. split.
      + intros [[H|(H1 & p & Hp & H2)]|(H1 & r' & p & Hr & Hp & H2)]; eauto 10.
      + intros [H|(H1 & r' & p & [<-|Hr] & Hp & H2)]; eauto 10. }
  rewrite G. simpl. tauto.
Qed.

Lemma extract_perms_NoDup loaded : List.NoDup (extract_perms loaded).
Proof.
  destruct loaded as [l|]; simpl; [|constructor].
  assert (G : forall acc, List.NoDup acc -> List.NoDup (fold_left push_role l acc)).
  { induction l as [|r rs IH]; intros acc H; simpl; [exact H|].
    apply IH. unfold push_role. now apply push_role_NoDup. }
  apply G. constructor.
Qed.

Lemma permissions_of_In d role_id p :
  In p (permissions_of d role_id)
  <-> In p (permissions d) /\ In (role_id, p_id p) (role_permissions d)
      /\ p_del_flag p = Some 0 /\ p_status p = Some "1".
Proof.
  unfold permissions_of. rewrite filter_In, andb_true_iff, existsb_pair_In.
  unfold permission_valid.
  destruct (p_del_flag p) as [dl|], (p_status p) as [st|];
    try (split; [intros (_ & _ & H) | intros (_ & _ & H & H')]; discriminate).
  rewrite andb_true_iff, Z.eqb_eq, String.eqb_eq. split.
  - intros (H1 & H2 & -> & ->). auto.
  - intros (H1 & H2 & [= ->] & [= ->]). auto.
Qed.

Lemma roles_of_In d user_id lr :
  In lr (roles_of d user_id)
  <-> exists r, In r (roles d) /\ In (user_id, r_id r) (user_roles d)
                /\ lr = mkLoadedRole r (permissions_of d (r_id r)).
Proof.
  unfold roles_of. rewrite in_map_iff. split.
  - intros (r & <- & Hr). apply filter_In in Hr as [Hr Hu].
    apply existsb_pair_In in Hu. eauto.
  - intros (r & Hr & Hu & ->). exists r. split; [reflexivity|].
    apply filter_In. split; [exact Hr | now apply existsb_pair_In].
Qed.

(** The permission codes of a user: [roles_of] followed by the loops of
    [login]. *)
Lemma resolved_permissions d user_id c :
  In c (extract_perms (Some (roles_of d user_id)))
  <-> c <> ""
      /\ exists role perm,
           In role (roles d) /\ In (user_id, r_id role) (user_roles d)
           /\ In perm (permissions d) /\ In (r_id role, p_id perm) (role_permissions d)
           /\ p_del_flag perm = Some 0 /\ p_status perm = Some "1"
           /\ p_perms perm = Some c.
Proof.
  rewrite extract_perms_In. split.
  - intros (Hc & lr & p & Hlr & Hp & Hcode). split; [exact Hc|].
    apply roles_of_In in Hlr as (r & Hr & Hu & ->). simpl in Hp.
    apply permissions_of_In in Hp as (Hp & Hrp & Hd & Hs).
    exists r, p. auto 10.
  - intros (Hc & r & p & Hr & Hu & Hp & Hrp & Hd & Hs & Hcode). split; [exact Hc|].
    exists (mkLoadedRole r (permissions_of d (r_id r))), p. repeat split.
    + apply roles_of_In. eauto.
    + simpl. apply permissions_of_In. auto.
    + exact Hcode.
Qed.

(** C7, on the code.  [login], the only place where permissions are
    resolved, never gets to its query: alice, who holds [R1 = {A, B}] and
    [R2 = {B, C}], is answered [AUTH_LOGIN_FAILED].  The loops themselves
    are right: run on the roles the query would load, they yield each
    permission code (non-empty [perms]) of a permission with [del_flag = 0]
    and [status = '1'] attached to a role of the user exactly once, [A; B;
    C] for alice. *)
Theorem login_resolves_no_permissions :
  (forall env m username password w res w',
     login env m username password w <> (Ok res, w'))
  /\ fst (login Demo.env (SysUser.model Demo.env) (VStr "alice") Demo.correct
            (Demo.world 5000))
     = Throw (EApi LOGIN_FAILED)
  /\ extract_perms (i_roles alice_loaded) = ["A"; "B"; "C"]
  /\ (forall d user_id,
        List.NoDup (extract_perms (Some (roles_of d user_id)))
        /\ forall c,
             In c (extract_perms (Some (roles_of d user_id)))
             <-> c <> ""
                 /\ exists role perm,
                      In role (roles d) /\ In (user_id, r_id role) (user_roles d)
                      /\ In perm (permissions d)
                      /\ In (r_id role, p_id perm) (role_permissions d)
                      /\ p_del_flag perm = Some 0 /\ p_status perm = Some "1"
                      /\ p_perms perm = Some c).
Proof.
  split; [intros; apply login_never_returns|].
  split; [now apply login_answered|].
  split; [reflexivity|].
  intros d user_id. split; [apply extract_perms_NoDup | intros c; apply resolved_permissions].
Qed.

(** ** Running a computation forwards *)

Lemma bind_Ok_run {A B} (c : M A) (k : A -> M B) w a w1 :
  c w = (Ok a, w1) -> bind c k w = k a w1.
Proof. unfold bind. now intros ->. Qed.

Lemma bind_Throw_run {A B} (c : M A) (k : A -> M B) w e w1 :
  c w = (Throw e, w1) -> bind c k w = (Throw e, w1).
Proof. unfold bind. now intros ->. Qed.

Lemma try_Ok_run {A} (c : M A) (h : Exn -> M A) w a w1 :
  c w = (Ok a, w1) -> try_catch c h w = (Ok a, w1).
Proof. unfold try_catch. now intros ->. Qed.

Lemma try_Throw_run {A} (c : M A) (h : Exn -> M A) w e w1 :
  c w = (Throw e, w1) -> try_catch c h w = h e w1.
Proof. unfold try_catch. now intros ->. Qed.

(** ** The error of a failed credential check *)

(** C6, on the code.  Whenever the store answers, any two [login]
    attempts - in particular one whose identifier matches no row and one
    whose identifier matches a row with another hash - are refused with
    one and the same [ApiError]; it is the 500 [AUTH_LOGIN_FAILED] of the
    catch-all handler, not the 401 [AUTH_INVALID_CREDENTIALS]. *)
Theorem login_credential_errors_are_login_failed env m
    username1 password1 w1 username2 password2 w2 :
  no_fault 1 (db_faults w1) = true ->
  no_fault 1 (db_faults w2) = true ->
  exists e,
    fst (login env m username1 password1 w1) = Throw (EApi e)
    /\ fst (login env m username2 password2 w2) = Throw (EApi e)
    /\ statusCode e = statusCodes.INTERNAL_SERVER_ERROR
    /\ code e = "AUTH_LOGIN_FAILED".
Proof.
  intros H1 H2. exists LOGIN_FAILED.
  rewrite !login_answered by assumption. repeat split.
Qed.

Lemma login_credential_errors_are_login_failed_witness :
  exists e,
    fst (login Demo.env (SysUser.model Demo.env) (VStr "nobody") Demo.wrong (Demo.world 5000))
    = Throw (EApi e)
    /\ fst (login Demo.env (SysUser.model Demo.env) (VStr "alice") Demo.wrong
              (Demo.world 5000))
       = Throw (EApi e)
    /\ statusCode e = statusCodes.INTERNAL_SERVER_ERROR
    /\ code e = "AUTH_LOGIN_FAILED".
Proof.
  apply (login_credential_errors_are_login_failed Demo.env (SysUser.model Demo.env)
           (VStr "nobody") Demo.wrong (Demo.world 5000)
           (VStr "alice") Demo.wrong (Demo.world 5000));
    reflexivity.
Defined.

(** ** Logout is best effort *)


(** [authenticate] always hands on, with an identity or with an error. *)
Lemma authenticate_total env authHeader w :
  exists f w', authenticate env authHeader w = (Ok f, w').
Proof.
  apply try_catch_total. intros e w1. destruct e; unfold ret; eauto.
Qed.

(** ** Failed logins and the lockout *)

Lemma quiet_db_call : quiet db_call.
Proof.
  intros w. unfold db_call.
  destruct (next_fault (db_faults w)) as [[] r]; simpl; auto.
Qed.

(** What [models/user.js] provides for the lockout, and [login] does not
    call: the fifth recorded failure sets [lockUntil] thirty minutes
    ahead, and [isLocked] holds until that instant. *)
Lemma incrementFailedLogins_locks t this :
  obj_get "failedLoginAttempts" this = VNum 4 ->
  obj_get "failedLoginAttempts" (UserJs.incrementFailedLogins t this) = VNum 5
  /\ obj_get "lockUntil" (UserJs.incrementFailedLogins t this) = VDate (t + 1800000)
  /\ forall t', UserJs.isLocked t' (UserJs.incrementFailedLogins t this)
                = (t' <? t + 1800000).
Proof.
  intros H. unfold UserJs.incrementFailedLogins.
  rewrite obj_get_set_eq, H. simpl.
  rewrite obj_get_set_ne, obj_get_set_eq by discriminate.
  split; [reflexivity|]. split; [apply obj_get_set_eq|].
  intros t'. unfold UserJs.isLocked. now rewrite obj_get_set_eq.
Qed.

(** With [models/sysUser.js] the lock test comes after the status test and
    can no longer hold. *)
Lemma SysUser_lock_unreachable t this :
  js_strict_eq (obj_get "status" this) (VNum 1) = true ->
  SysUser.isLocked t this = false.
Proof.
  unfold SysUser.isLocked. destruct (obj_get "status" this); simpl; try discriminate.
  intros H. apply Z.eqb_eq in H. now subst.
Qed.

Lemma attempts_trace env m username passwords w :
  Forall (fun o => o = "AUTH_LOGIN_FAILED" \/ o = "exception")
    (fst (attempts env m username passwords w))
  /\ db (snd (attempts env m username passwords w)) = db w.
Proof.
  revert w. induction passwords as [|p rest IH]; intros w; cbn [attempts].
  - split; [constructor | reflexivity].
  - pose proof (login_outcome env m username p w) as Ho.
    pose proof (login_writes_nothing env m username p w) as [Hd _].
    destruct (login env m username p w) as [r w1]. cbn [fst snd] in Ho, Hd.
    specialize (IH w1).
    destruct (attempts env m username rest w1) as [rs w2]. cbn [fst snd] in *.
    destruct IH as [IH1 IH2]. split; [constructor; assumption | congruence].
Qed.

(** C1, on the code.  No sequence of [login] attempts locks an account:
    each attempt is answered [AUTH_LOGIN_FAILED] (or fails with the
    exception of [getUserModel]), whatever the password, and the tables
    stay as they were.  So five attempts with a wrong password and a sixth
    with the right one get the same answer six times and leave the row
    untouched, with the registered model of [models/sysUser.js] and with
    the model of [models/user.js] alike. *)
Theorem five_failed_logins_do_not_lock :
  (forall env m username passwords w,
     Forall (fun o => o = "AUTH_LOGIN_FAILED" \/ o = "exception")
       (fst (attempts env m username passwords w))
     /\ db (snd (attempts env m username passwords w)) = db w)
  /\ fst (attempts Demo.env (SysUser.model Demo.env) (VStr "alice")
            [Demo.wrong; Demo.wrong; Demo.wrong; Demo.wrong; Demo.wrong; Demo.correct]
            (Demo.world 5000))
     = ["AUTH_LOGIN_FAILED"; "AUTH_LOGIN_FAILED"; "AUTH_LOGIN_FAILED";
        "AUTH_LOGIN_FAILED"; "AUTH_LOGIN_FAILED"; "AUTH_LOGIN_FAILED"]
  /\ stored
       (db (snd (attempts Demo.env (SysUser.model Demo.env) (VStr "alice")
                   [Demo.wrong; Demo.wrong; Demo.wrong; Demo.wrong; Demo.wrong; Demo.correct]
                   (Demo.world 5000))))
       "u1"
     = Some Demo.alice
  /\ fst (attempts Demo.env (UserJs.model Demo.env) (VStr "dave")
            [Demo.wrong; Demo.wrong; Demo.wrong; Demo.wrong; Demo.wrong; Demo.correct]
            (Demo.world 5000))
     = ["AUTH_LOGIN_FAILED"; "AUTH_LOGIN_FAILED"; "AUTH_LOGIN_FAILED";
        "AUTH_LOGIN_FAILED"; "AUTH_LOGIN_FAILED"; "AUTH_LOGIN_FAILED"]
  /\ stored
       (db (snd (attempts Demo.env (UserJs.model Demo.env) (VStr "dave")
                   [Demo.wrong; Demo.wrong; Demo.wrong; Demo.wrong; Demo.wrong; Demo.correct]
                   (Demo.world 5000))))
       "u4"
     = Some Demo.dave.
Proof.
  split; [intros; apply attempts_trace|].
  repeat split; vm_compute; reflexivity.
Qed.

(** ** Cache failures during token verification *)

(** When the [GET] of the blacklist key is rejected, [authenticate] hands
    on [AUTH_SYSTEM_ERROR] for a token that verifies. *)
Lemma authenticate_fails_when_cache_fails env h token w claims r :
  String.prefix "Bearer " h = true ->
  nth_error (split_space h) 1 = Some token ->
  token <> "" ->
  jwt_verify env token w = (Ok claims, w) ->
  redis_faults w = true :: r ->
  authenticate env (Some h) w
  = (Ok (next_error
           (mkApiError statusCodes.INTERNAL_SERVER_ERROR "认证过程发生错误" "AUTH_SYSTEM_ERROR")),
     set_redis_faults r w).
Proof.
  intros Hp Hn Ht Hv Hr. unfold authenticate.
  assert (Hh : truthy_str (Some h) = true).
  { destruct h; [discriminate Hp | reflexivity]. }
  change (default "" (Some h)) with h.
  rewrite Hh, Hp, Hn.
  change (default "" (Some token)) with token.
  assert (Htok : truthy_str (Some token) = true).
  { simpl. destruct (String.eqb_spec token ""); [contradiction | reflexivity]. }
  rewrite Htok. simpl negb. cbv iota. simpl orb. cbv iota.
  erewrite try_Throw_run with (e := ERedis) (w1 := set_redis_faults r w);
    [reflexivity|].
  erewrite try_Throw_run with (e := ERedis) (w1 := set_redis_faults r w);
    [reflexivity|].
  rewrite (bind_Ok_run _ _ _ _ _ Hv).
  apply bind_Throw_run. apply bind_Throw_run.
  unfold redis_command. rewrite Hr. reflexivity.
Qed.

(** C2, on the code.  The wrapper [RedisClient.get] turns a rejected
    command into a miss, but [authenticate] queries [Redis.client]
    directly: for the same valid, unrevoked token it passes when Redis
    answers and hands on a 500 [AUTH_SYSTEM_ERROR] when the command is
    rejected. *)
Theorem blacklist_lookup_failure_surfaces :
  fst (authenticate Demo.env (Some "Bearer tokA") (Demo.world 5000))
  = Ok (next Demo.alice_claims)
  /\ fst (authenticate Demo.env (Some "Bearer tokA")
            (set_redis_faults [true] (Demo.world 5000)))
     = Ok (next_error
             (mkApiError statusCodes.INTERNAL_SERVER_ERROR "认证过程发生错误" "AUTH_SYSTEM_ERROR"))
  /\ fst (RedisClient_get (blacklist_key "tokA")
            (set_redis_faults [true] (Demo.world 5000)))
     = Ok VNull.
Proof. repeat split; vm_compute; reflexivity. Qed.

(** ** Revocation *)

(** C4, on the code.  ["tokA"] expires at second 1000.  Revoked at
    999500 ms, its remaining lifetime rounds down to 0 seconds, [set] takes
    the zero for "no TTL", and the blacklist entry is stored without expiry:
    it is still there at every later instant.  Revoked at 998500 ms, the
    entry gets a TTL of 1 second and is gone at 999500 ms; at 999600 ms the
    token, not yet expired, authenticates again. *)
Theorem blacklist_entry_misses_token_expiry :
  c_exp Demo.alice_claims = Some 1000
  /\ redis (snd Demo.revoked_late) !! blacklist_key "tokA"
     = Some (mkEntry (VStr "true") None)
  /\ (forall t, visible (set_now t (snd Demo.revoked_late)) (blacklist_key "tokA")
                = Some (VStr "true"))
  /\ redis (snd Demo.revoked_early) !! blacklist_key "tokA"
     = Some (mkEntry (VStr "true") (Some 999500))
  /\ fst (authenticate Demo.env (Some "Bearer tokA")
            (set_now 999400 (snd Demo.revoked_early)))
     = Ok (next_error
             (mkApiError statusCodes.UNAUTHORIZED "令牌已失效，请重新登录" "AUTH_TOKEN_REVOKED"))
  /\ fst (authenticate Demo.env (Some "Bearer tokA")
            (set_now 999600 (snd Demo.revoked_early)))
     = Ok (next Demo.alice_claims).
Proof.
  assert (E : redis (snd Demo.revoked_late) !! blacklist_key "tokA"
              = Some (mkEntry (VStr "true") None)) by (vm_compute; reflexivity).
  split; [reflexivity|]. split; [exact E|]. split.
  { intros t. unfold visible, set_now. cbn [redis]. rewrite E. reflexivity. }
  repeat split; vm_compute; reflexivity.
Qed.

(** ** What [logout] does to the keyspace *)

Lemma keeps_keys_ret {A} (a : A) : keeps_keys (ret a).
Proof. intros w. reflexivity. Qed.

Lemma keeps_keys_throw {A} e : keeps_keys (@throw A e).
Proof. intros w. reflexivity. Qed.

Lemma keeps_keys_bind {A B} (c : M A) (k : A -> M B) :
  keeps_keys c -> (forall a, keeps_keys (k a)) -> keeps_keys (bind c k).
Proof.
  intros Hc Hk w. unfold bind. specialize (Hc w).
  destruct (c w) as [[a|e] w1]; simpl in Hc; [|exact Hc].
  rewrite (Hk a w1). exact Hc.
Qed.

Lemma keeps_keys_db_call : keeps_keys db_call.
Proof. intros w. apply quiet_db_call. Qed.

Lemma keeps_keys_Model_findByPk m id excl : keeps_keys (Model_findByPk m id excl).
Proof.
  apply keeps_keys_bind; [apply keeps_keys_db_call|]. intros _.
  apply keeps_keys_bind; [intros w; reflexivity|]. intros d. apply keeps_keys_ret.
Qed.

Lemma keeps_keys_instance_save m u : keeps_keys (instance_save m u).
Proof.
  unfold instance_save.
  destruct (m_beforeSave m false (i_row u)); [|apply keeps_keys_throw].
  apply keeps_keys_bind; [intros w; reflexivity|]. intros t.
  apply keeps_keys_bind; [apply keeps_keys_db_call|]. intros _.
  apply keeps_keys_bind; [intros w; reflexivity|]. intros d.
  apply keeps_keys_bind; [intros w; reflexivity|]. intros _. apply keeps_keys_ret.
Qed.

Lemma binds_key_bind_l {A B} key (c : M A) (k : A -> M B) :
  keeps_keys c -> (forall a, binds_key key (k a)) -> binds_key key (bind c k).
Proof.
  intros Hc Hk w. unfold bind. specialize (Hc w).
  destruct (c w) as [[a|e] w1]; cbn [snd] in Hc; [|left; exact Hc].
  rewrite <- Hc. apply Hk.
Qed.

Lemma binds_key_bind_r {A B} key (c : M A) (k : A -> M B) :
  binds_key key c -> (forall a, keeps_keys (k a)) -> binds_key key (bind c k).
Proof.
  intros Hc Hk w. unfold bind. specialize (Hc w).
  destruct (c w) as [[a|e] w1]; cbn [snd] in Hc; [|exact Hc].
  rewrite (Hk a w1). exact Hc.
Qed.

Lemma binds_key_try {A} key (c : M A) (h : Exn -> M A) :
  binds_key key c -> (forall e, keeps_keys (h e)) -> binds_key key (try_catch c h).
Proof.
  intros Hc Hh w. unfold try_catch. specialize (Hc w).
  destruct (c w) as [[a|e] w1]; cbn [snd] in Hc; [exact Hc|].
  rewrite (Hh e w1). exact Hc.
Qed.

Lemma keeps_keys_redis_command : keeps_keys redis_command.
Proof.
  intros w. unfold redis_command.
  destruct (next_fault (redis_faults w)) as [[] r]; reflexivity.
Qed.

(** [set] either leaves the keyspace alone (the command was rejected) or
    binds its key. *)
Lemma RedisClient_set_effect toISO key value ttl :
  binds_key key (RedisClient_set toISO key value ttl).
Proof.
  unfold RedisClient_set, ensureConnection.
  apply binds_key_try; [|intros e; apply keeps_keys_ret].
  apply binds_key_bind_l; [apply keeps_keys_redis_command|]. intros _.
  apply binds_key_bind_r; [|intros _; apply keeps_keys_ret].
  destruct (negb (ttl =? 0)); unfold client_setex, client_set.
  - apply binds_key_bind_l; [apply keeps_keys_redis_command|]. intros _.
    destruct (ttl <=? 0); [intros w; left; reflexivity|].
    intros w. right. eexists. reflexivity.
  - apply binds_key_bind_l; [apply keeps_keys_redis_command|]. intros _.
    intros w. right. eexists. reflexivity.
Qed.

Lemma user_key_not_blacklist_key id token : blacklist_key token <> user_key id.
Proof. unfold blacklist_key, user_key. simpl. discriminate. Qed.

(** The keyspace [logout] leaves is the one its blacklist write left:
    nothing after that write changes a key. *)
Lemma logout_keys env m token user w :
  redis (snd (logout env m token user w))
  = redis (snd (RedisClient_set (toISOString env) (blacklist_key (token_text token))
                  (VStr "true")
                  (match getTokenExpiry env token with
                   | Some x => (x - now w) / 1000
                   | None => CACHE_TTL.DAY
                   end) w)).
Proof.
  unfold logout. cbv zeta. unfold try_catch, bind at 1, Date_now. unfold bind at 1.
  match goal with
  | |- context [RedisClient_set ?a ?k ?v ?ttl w] =>
      destruct (RedisClient_set_total a k v ttl w) as (b & w1 & E); rewrite E
  end.
  cbn [snd].
  match goal with
  | |- redis (snd (match ?c w1 with _ => _ end)) = _ =>
      assert (Hrest : keeps_keys c); [|specialize (Hrest w1); destruct (c w1) as [[b'|e'] w2]]
  end; [|exact Hrest|exact Hrest].
  destruct user as [u|]; [|apply keeps_keys_ret].
  destruct (negb _); [|apply keeps_keys_ret].
  apply keeps_keys_bind; [apply keeps_keys_db_call|]. intros _.
  apply keeps_keys_bind; [apply keeps_keys_Model_findByPk|]. intros um.
  apply keeps_keys_bind.
  - destruct um as [um|]; [|apply keeps_keys_ret].
    apply keeps_keys_bind; [intros w0; reflexivity|]. intros t'.
    apply keeps_keys_bind; [apply keeps_keys_instance_save|]. intros _.
    apply keeps_keys_ret.
  - intros _. apply keeps_keys_bind; [apply keeps_keys_throw|]. intros _.
    apply keeps_keys_ret.
Qed.

(** Whatever the token, the identity, the world and the failures, [logout]
    leaves the key of a user's snapshot exactly as it was. *)
Lemma logout_never_touches_snapshot env m token user id w :
  redis (snd (logout env m token user w)) !! user_key id = redis w !! user_key id.
Proof.
  rewrite logout_keys.
  match goal with
  | |- context [RedisClient_set ?a ?k ?v ?ttl w] =>
      destruct (RedisClient_set_effect a k v ttl w) as [->|[e ->]]
  end.
  - reflexivity.
  - apply lookup_insert_ne, user_key_not_blacklist_key.
Qed.


(** When Redis answers, a token with at least one whole second to live is
    blacklisted until [now + floor((exp*1000 - now) / 1000)] seconds, which
    is at most the token's expiry and less than a second before it. *)
Lemma RedisClient_set_run toISO key value ttl w :
  no_fault 2 (redis_faults w) = true -> 0 < ttl ->
  RedisClient_set toISO key value ttl w
  = (Ok true,
     set_redis (<[key := mkEntry (json_rt toISO value) (Some (now w + ttl * 1000))]> (redis w))
       (set_redis_faults (tl (tl (redis_faults w))) w)).
Proof.
  intros Hf Httl. unfold RedisClient_set, ensureConnection.
  apply try_Ok_run.
  assert (H1 : redis_command w = (Ok tt, set_redis_faults (tl (redis_faults w)) w)).
  { unfold redis_command, no_fault in *.
    destruct (redis_faults w) as [|[] r]; simpl in *; try discriminate;
      destruct w; reflexivity. }
  rewrite (bind_Ok_run _ _ _ _ _ H1).
  assert (E0 : negb (ttl =? 0) = true) by (apply negb_true_iff, Z.eqb_neq; lia).
  rewrite E0. unfold client_setex.
  assert (H2 : redis_command (set_redis_faults (tl (redis_faults w)) w)
               = (Ok tt, set_redis_faults (tl (tl (redis_faults w))) w)).
  { unfold redis_command, no_fault in *. simpl.
    destruct (redis_faults w) as [|[] [|[] r]]; simpl in *; try discriminate; reflexivity. }
  erewrite bind_Ok_run; [reflexivity|].
  rewrite (bind_Ok_run _ _ _ _ _ H2).
  assert (E1 : (ttl <=? 0) = false) by (apply Z.leb_gt; lia).
  rewrite E1. reflexivity.
Qed.

Lemma logout_blacklist_ttl env m token user w d e :
  jwt_decode env token = Some d -> c_exp d = Some e -> e <> 0 ->
  0 < (e * 1000 - now w) / 1000 ->
  no_fault 2 (redis_faults w) = true ->
  exists until_,
    redis (snd (logout env m (Some token) user w)) !! blacklist_key token
    = Some (mkEntry (VStr "true") (Some until_))
    /\ until_ = now w + (e * 1000 - now w) / 1000 * 1000
    /\ e * 1000 - 1000 < until_ <= e * 1000.
Proof.
  intros Hd He Hne Httl Hf. eexists. split; [|split; [reflexivity|]].
  - rewrite logout_keys. unfold getTokenExpiry. simpl from_option. rewrite Hd, He.
    destruct (Z.eqb_spec e 0) as [E|_]; [contradiction|].
    rewrite RedisClient_set_run by assumption.
    cbn [snd redis set_redis token_text]. apply lookup_insert_eq.
  - pose proof (Z.div_mod (e * 1000 - now w) 1000 ltac:(lia)) as Hdm.
    pose proof (Z.mod_pos_bound (e * 1000 - now w) 1000 ltac:(lia)) as Hb.
    lia.
Qed.

(** ** The write paths that do invalidate *)

Lemma RedisClient_del_run key w :
  no_fault 2 (redis_faults w) = true ->
  RedisClient_del key w
  = (Ok true,
     set_redis (delete key (redis w)) (set_redis_faults (tl (tl (redis_faults w))) w)).
Proof.
  intros Hf. unfold RedisClient_del, ensureConnection.
  apply try_Ok_run.
  assert (H1 : redis_command w = (Ok tt, set_redis_faults (tl (redis_faults w)) w)).
  { unfold redis_command, no_fault in *.
    destruct (redis_faults w) as [|[] r]; simpl in *; try discriminate;
      destruct w; reflexivity. }
  rewrite (bind_Ok_run _ _ _ _ _ H1). unfold client_del.
  assert (H2 : redis_command (set_redis_faults (tl (redis_faults w)) w)
               = (Ok tt, set_redis_faults (tl (tl (redis_faults w))) w)).
  { unfold redis_command, no_fault in *. simpl.
    destruct (redis_faults w) as [|[] [|[] r]]; simpl in *; try discriminate; reflexivity. }
  erewrite bind_Ok_run; [reflexivity|].
  rewrite (bind_Ok_run _ _ _ _ _ H2). reflexivity.
Qed.

(** Calls to the database leave the keyspace and the Redis schedule as they
    are. *)
Lemma db_call_same_cache w a w' :
  db_call w = (Ok a, w') ->
  redis w' = redis w /\ redis_faults w' = redis_faults w.
Proof. intros H. apply db_call_Ok_inv in H as [r ->]. auto. Qed.

Lemma Model_findByPk_same_cache m id excl w u w' :
  Model_findByPk m id excl w = (Ok u, w') ->
  redis w' = redis w /\ redis_faults w' = redis_faults w.
Proof.
  unfold Model_findByPk. intros H.
  apply bind_Ok_inv in H as ([] & w1 & H1 & H).
  apply db_call_same_cache in H1 as [E1 E2].
  unfold bind, get_db, ret in H. injection H as _ <-. auto.
Qed.


Lemma instance_destroy_same_cache m u w a w' :
  instance_destroy m u w = (Ok a, w') ->
  redis w' = redis w /\ redis_faults w' = redis_faults w.
Proof.
  unfold instance_destroy. intros H.
  apply bind_Ok_inv in H as (t & w1 & H1 & H). injection H1 as _ <-.
  apply bind_Ok_inv in H as ([] & w1 & H1 & H).
  apply db_call_same_cache in H1 as [E1 E2].
  unfold bind, get_db in H.
  destruct (m_paranoid m); unfold put_users in H; injection H as _ <-; auto.
Qed.

(** A transaction that returns ran its callback to the end and committed. *)
Lemma transaction_Ok_inv {A} (callback : M A) w a w' :
  transaction callback w = (Ok a, w') ->
  exists w1 w2,
    redis w1 = redis w /\ redis_faults w1 = redis_faults w
    /\ callback w1 = (Ok a, w2)
    /\ redis w' = redis w2.
Proof.
  unfold transaction. intros H.
  apply bind_Ok_inv in H as ([] & w1 & H1 & H).
  apply db_call_same_cache in H1 as [E1 F1].
  apply bind_Ok_inv in H as (snapshot & w2 & H2 & H). injection H2 as _ <-.
  apply bind_Ok_inv in H as (began & w3 & H3 & H).
  assert (redis w3 = redis w1 /\ redis_faults w3 = redis_faults w1) as [E3 F3].
  { unfold try_catch, bind, ret in H3.
    destruct (db_call w1) as [[[]|e] w4] eqn:E4.
    - injection H3 as _ <-. now apply db_call_same_cache in E4.
    - injection H3 as _ <-. unfold db_call in E4.
      destruct (next_fault (db_faults w1)) as [[] r]; injection E4 as _ <-; auto. }
  destruct began; [|discriminate].
  unfold try_catch in H.
  destruct (bind callback _ w3) as [[a0|e] w4] eqn:E4.
  - injection H as <- <-.
    apply bind_Ok_inv in E4 as (a1 & w5 & Hcb & E4).
    apply bind_Ok_inv in E4 as ([] & w6 & H6 & E4). injection E4 as <- <-.
    apply db_call_same_cache in H6 as [E6 _].
    exists w3, w5. repeat split; congruence.
  - exfalso. unfold bind, put_db in H.
    destruct (db_call (set_db snapshot w4)) as [[[]|e'] w5]; discriminate.
Qed.


(** The same for [deleteUser]. *)
Lemma deleteUser_unbinds_snapshot m id w b w' :
  deleteUser m id w = (Ok b, w') ->
  no_fault 2 (redis_faults w) = true ->
  redis w' !! user_key id = None.
Proof.
  unfold deleteUser, getUserModel. intros H Hf.
  apply bind_Ok_inv in H as ([] & w1 & H1 & H).
  apply db_call_same_cache in H1 as [E1 F1].
  apply try_rethrow_Ok_inv in H.
  apply transaction_Ok_inv in H as (w2 & w3 & E2 & F2 & H & ->).
  apply bind_Ok_inv in H as (user & w4 & H4 & H).
  apply Model_findByPk_same_cache in H4 as [E4 F4].
  destruct user as [u|]; [|discriminate].
  apply bind_Ok_inv in H as ([] & w5 & H5 & H).
  apply instance_destroy_same_cache in H5 as [E5 F5].
  apply bind_Ok_inv in H as (b' & w6 & H6 & H). injection H as _ <-.
  rewrite RedisClient_del_run in H6 by congruence.
  injection H6 as _ <-. cbn [redis set_redis]. apply lookup_delete_eq.
Qed.

(** ** Invalidation of the cached snapshot *)

(** C5, on the code.  Whatever its arguments, the world and the failures,
    [logout] leaves the key of a user's snapshot as it found it.  alice's
    snapshot is cached by a read of her profile; her [logout] writes her
    row ([update_time]) and then calls [redisClient.delete], which does not
    exist: the [TypeError] is caught, [logout] resolves to [false], the key
    [user:u1] still holds the snapshot, and [getUserById] afterwards
    returns that snapshot, taken before the write.  [updateUser] and
    [deleteUser], which call [redisClient.del], leave the key unbound. *)
Theorem logout_leaves_snapshot_cached :
  (forall env m token user id w,
     redis (snd (logout env m token user w)) !! user_key id = redis w !! user_key id)
  /\ is_Some (redis (snd Demo.alice_read) !! user_key "u1")
  /\ fst Demo.alice_logout = Ok false
  /\ option_map (obj_get "update_time") (stored (db (snd Demo.alice_read)) "u1")
     = Some VNull
  /\ option_map (obj_get "update_time") (stored (db (snd Demo.alice_logout)) "u1")
     = Some (VDate 6000)
  /\ (exists snapshot,
        fst (getUserById Demo.env (SysUser.model Demo.env) "u1" (snd Demo.alice_logout))
        = Ok (VObj snapshot)
        /\ obj_get "update_time" snapshot = VNull)
  /\ outcome (fst Demo.alice_update) = "ok"
  /\ redis (snd Demo.alice_update) !! user_key "u1" = None
  /\ fst Demo.alice_delete = Ok true
  /\ redis (snd Demo.alice_delete) !! user_key "u1" = None.
Proof.
  split; [intros; apply logout_never_touches_snapshot|].
  split; [vm_compute; eauto|].
  do 3 (split; [vm_compute; reflexivity|]).
  split; [eexists; split; vm_compute; reflexivity|].
  repeat split; vm_compute; reflexivity.
Qed.

(** ** Logout is best effort *)






(** * Further properties of the code

    The properties below are read off the code alone. *)

(** ** Locks *)

(** What a successful [acquireLock] did. *)
Lemma acquireLock_true_inv name ttl w w1 :
  RedisClient_acquireLock name ttl w = (Ok true, w1) ->
  0 < ttl
  /\ visible w (lock_key name) = None
  /\ redis w1 = <[lock_key name := mkEntry (VNum (now w)) (Some (now w + ttl * 1000))]> (redis w)
  /\ now w1 = now w /\ db w1 = db w.
Proof.
  unfold RedisClient_acquireLock, ensureConnection, client_set_ex_nx, try_catch, bind,
    redis_command, Date_now, ret, throw.
  destruct (next_fault (redis_faults w)) as [[] r1]; [discriminate|].
  cbn [redis_faults set_redis_faults].
  destruct (next_fault r1) as [[] r2]; [discriminate|].
  destruct (ttl <=? 0) eqn:Ettl; [discriminate|].
  unfold visible. cbn [redis now set_redis_faults].
  destruct (redis w !! lock_key name) as [e|] eqn:E.
  - destruct (live (now w) e) eqn:L; [discriminate|].
    intros [= <-]. cbn. repeat split; try reflexivity. lia.
  - intros [= <-]. cbn. repeat split; try reflexivity. lia.
Qed.

Lemma acquireLock_held name ttl w :
  is_Some (visible w (lock_key name)) ->
  fst (RedisClient_acquireLock name ttl w) = Ok false.
Proof.
  intros [v Hv].
  unfold RedisClient_acquireLock, ensureConnection, client_set_ex_nx, try_catch, bind,
    redis_command, Date_now, ret, throw.
  destruct (next_fault (redis_faults w)) as [[] r1]; [reflexivity|].
  cbn [redis_faults set_redis_faults].
  destruct (next_fault r1) as [[] r2]; [reflexivity|].
  destruct (ttl <=? 0); [reflexivity|].
  unfold visible in *. cbn [redis now set_redis_faults] in *.
  destruct (redis w !! lock_key name) as [e|]; [|discriminate].
  destruct (live (now w) e); [reflexivity|discriminate].
Qed.

Lemma acquireLock_free name ttl w :
  visible w (lock_key name) = None ->
  no_fault 2 (redis_faults w) = true -> 0 < ttl ->
  RedisClient_acquireLock name ttl w
  = (Ok true,
     set_redis
       (<[lock_key name := mkEntry (VNum (now w)) (Some (now w + ttl * 1000))]> (redis w))
       (set_redis_faults (tl (tl (redis_faults w))) w)).
Proof.
  intros Hv Hf Httl.
  unfold RedisClient_acquireLock, ensureConnection, client_set_ex_nx, try_catch, bind,
    redis_command, Date_now, ret, throw.
  unfold no_fault in Hf.
  destruct (redis_faults w) as [|[] [|[] r]] eqn:Ef; simpl in Hf; try discriminate;
    cbn [next_fault redis_faults set_redis_faults];
    (destruct (ttl <=? 0) eqn:E; [lia|]);
    unfold visible in *; cbn [redis now set_redis_faults set_redis] in *;
    (destruct (redis w !! lock_key name) as [e|];
       [destruct (live (now w) e); [discriminate|]|]); reflexivity.
Qed.

(** X1.  A lock that was acquired is refused to every other caller until its
    time to live has passed or somebody releases it. *)
Theorem acquireLock_excludes name ttl w w1 ttl' w2 :
  RedisClient_acquireLock name ttl w = (Ok true, w1) ->
  redis w2 !! lock_key name = redis w1 !! lock_key name ->
  now w2 < now w + ttl * 1000 ->
  fst (RedisClient_acquireLock name ttl' w2) = Ok false.
Proof.
  intros Hacq Hsame Hnow.
  apply acquireLock_true_inv in Hacq as (_ & _ & Hr & _).
  apply acquireLock_held. unfold visible.
  rewrite Hsame, Hr, lookup_insert_eq. unfold live. cbn.
  destruct (now w2 <? now w + ttl * 1000) eqn:E; [eauto|lia].
Qed.

Lemma acquireLock_excludes_witness :
  fst (RedisClient_acquireLock "job" 30
         (set_now 34999 (snd (RedisClient_acquireLock "job" 30 (Demo.world 5000)))))
  = Ok false.
Proof.
  apply (acquireLock_excludes "job" 30 (Demo.world 5000)
           (snd (RedisClient_acquireLock "job" 30 (Demo.world 5000)))).
  - reflexivity.
  - reflexivity.
  - vm_compute. reflexivity.
Defined.

Lemma releaseLock_true_inv name w w1 :
  RedisClient_releaseLock name w = (Ok true, w1) ->
  redis w1 = delete (lock_key name) (redis w).
Proof.
  unfold RedisClient_releaseLock, ensureConnection, client_del, try_catch, bind,
    redis_command, ret.
  destruct (next_fault (redis_faults w)) as [[] r1]; [discriminate|].
  cbn [redis_faults set_redis_faults].
  destruct (next_fault r1) as [[] r2]; [discriminate|].
  intros [= <-]. reflexivity.
Qed.

(** X2.  A lock is free again once its time to live has passed, and as soon
    as anybody - its holder or not - has released it. *)
Theorem acquireLock_after_expiry_or_release name ttl w w1 ttl' w2 :
  RedisClient_acquireLock name ttl w = (Ok true, w1) ->
  no_fault 2 (redis_faults w2) = true -> 0 < ttl' ->
  (redis w2 !! lock_key name = redis w1 !! lock_key name /\ now w + ttl * 1000 <= now w2)
  \/ (exists w1' w1'',
        RedisClient_releaseLock name w1' = (Ok true, w1'')
        /\ redis w2 !! lock_key name = redis w1'' !! lock_key name) ->
  fst (RedisClient_acquireLock name ttl' w2) = Ok true.
Proof.
  intros Hacq Hf Httl Hfree.
  rewrite acquireLock_free; [reflexivity| |exact Hf|exact Httl].
  unfold visible.
  destruct Hfree as [[Hsame Hlate]|(w1' & w1'' & Hrel & Hsame)]; rewrite Hsame.
  - apply acquireLock_true_inv in Hacq as (_ & _ & Hr & _).
    rewrite Hr, lookup_insert_eq. unfold live. cbn.
    destruct (now w2 <? now w + ttl * 1000) eqn:E; [lia|reflexivity].
  - apply releaseLock_true_inv in Hrel. rewrite Hrel, lookup_delete_eq. reflexivity.
Qed.

Lemma acquireLock_after_expiry_or_release_witness :
  fst (RedisClient_acquireLock "job" 30
         (set_now 35000 (snd (RedisClient_acquireLock "job" 30 (Demo.world 5000)))))
  = Ok true.
Proof.
  apply (acquireLock_after_expiry_or_release "job" 30 (Demo.world 5000)
           (snd (RedisClient_acquireLock "job" 30 (Demo.world 5000)))).
  - reflexivity.
  - reflexivity.
  - lia.
  - left. split; [reflexivity | vm_compute; discriminate].
Defined.

(** ** Reading back what was cached *)

Lemma RedisClient_set_true_inv toISO key value ttl w w1 :
  RedisClient_set toISO key value ttl w = (Ok true, w1) ->
  redis w1 = <[key := mkEntry (json_rt toISO value)
                        (if ttl =? 0 then None else Some (now w + ttl * 1000))]> (redis w).
Proof.
  unfold RedisClient_set, ensureConnection, client_setex, client_set, try_catch, bind,
    redis_command, ret, throw.
  destruct (next_fault (redis_faults w)) as [[] r1]; [discriminate|].
  cbn [redis_faults set_redis_faults].
  destruct (ttl =? 0); cbn [negb]; cbv beta iota;
    cbn [redis_faults set_redis_faults];
    (destruct (next_fault r1) as [[] r2]; cbv beta iota; [discriminate|]).
  - intros [= <-]. reflexivity.
  - destruct (ttl <=? 0); cbv beta iota; [discriminate|]. intros [= <-]. reflexivity.
Qed.

Lemma RedisClient_get_run key w :
  no_fault 2 (redis_faults w) = true ->
  RedisClient_get key w
  = (Ok (match visible w key with
         | Some VUndef | None => VNull
         | Some t => t
         end),
     set_redis_faults (tl (tl (redis_faults w))) w).
Proof.
  intros Hf. unfold RedisClient_get, ensureConnection, client_get, try_catch, bind,
    redis_command, ret.
  unfold no_fault in Hf.
  destruct (redis_faults w) as [|[] [|[] r]] eqn:Ef; simpl in Hf; try discriminate;
    cbn [next_fault redis_faults set_redis_faults];
    unfold visible; cbn [redis now set_redis_faults];
    (destruct (redis w !! key) as [e|]; [destruct (live (now w) e)|]);
    try reflexivity; destruct (ce_val e); reflexivity.
Qed.

(** X3.  What [set] stored under a key is what [get] answers, as the value
    that [JSON.parse(JSON.stringify(value))] yields, until [ttl] seconds
    have passed; a [ttl] of zero never expires, and a value without a JSON
    text reads back as [null]. *)
Theorem RedisClient_set_then_get toISO key value ttl w w1 w2 :
  RedisClient_set toISO key value ttl w = (Ok true, w1) ->
  redis w2 !! key = redis w1 !! key ->
  no_fault 2 (redis_faults w2) = true ->
  fst (RedisClient_get key w2)
  = Ok (if (ttl =? 0) || (now w2 <? now w + ttl * 1000)
        then match json_rt toISO value with VUndef => VNull | v => v end
        else VNull).
Proof.
  intros Hset Hsame Hf. apply RedisClient_set_true_inv in Hset.
  rewrite RedisClient_get_run by exact Hf. cbn [fst]. f_equal.
  unfold visible. rewrite Hsame, Hset, lookup_insert_eq. unfold live. cbn [ce_exp ce_val].
  destruct (ttl =? 0); cbn [orb]; [now destruct (json_rt toISO value)|].
  destruct (now w2 <? now w + ttl * 1000); [now destruct (json_rt toISO value)|reflexivity].
Qed.

Lemma RedisClient_set_then_get_witness :
  fst (RedisClient_get "k"
         (set_now 64999
            (snd (RedisClient_set (toISOString Demo.env) "k"
                    (VObj [("at", VDate 0); ("n", VNum 1); ("gone", VUndef); ("ratio", VNaN)]) 60
                    (Demo.world 5000)))))
  = Ok (VObj [("at", VStr "1970-01-01T00:00:00.000Z"); ("n", VNum 1); ("ratio", VNull)]).
Proof.
  apply (RedisClient_set_then_get (toISOString Demo.env) "k"
           (VObj [("at", VDate 0); ("n", VNum 1); ("gone", VUndef); ("ratio", VNaN)]) 60 (Demo.world 5000)
           (snd (RedisClient_set (toISOString Demo.env) "k"
                   (VObj [("at", VDate 0); ("n", VNum 1); ("gone", VUndef); ("ratio", VNaN)]) 60
                   (Demo.world 5000)))).
  - reflexivity.
  - reflexivity.
  - reflexivity.
Defined.

(** ** How a call changes the tables *)

Lemma db_call_cases w :
  exists r, db_call w = (Ok tt, set_db_faults r w) \/ db_call w = (Throw EDb, set_db_faults r w).
Proof.
  unfold db_call. destruct (next_fault (db_faults w)) as [[] r]; exists r; auto.
Qed.

Lemma validatePassword_cases env this candidate w :
  (exists c h, candidate = VStr c /\ obj_get "password" this = VStr h
               /\ validatePassword env this candidate w = (Ok (bcrypt_compare env c h), w))
  \/ validatePassword env this candidate w = (Throw EBcrypt, w).
Proof.
  unfold validatePassword.
  destruct candidate; try (right; reflexivity).
  destruct (obj_get "password" this); try (right; reflexivity).
  left. eauto.
Qed.

(** A transaction that enlists reads only relates the tables as its
    callback does: the other steps leave them alone. *)
Lemma transaction_of_reads_db {A} (R : Db -> Db -> Prop) (callback : M A) :
  (forall w, R (db w) (db (snd (callback w)))) ->
  forall w, R (db w) (db (snd (transaction_of_reads callback w))) \/
            db (snd (transaction_of_reads callback w)) = db w.
Proof.
  intros Hcb w. unfold transaction_of_reads, bind, try_catch, ret, throw.
  destruct (db_call_cases w) as [r1 [E1|E1]]; rewrite E1; [|right; reflexivity].
  set (w1 := set_db_faults r1 w).
  destruct (db_call_cases w1) as [r2 [E2|E2]]; rewrite E2; [|right; reflexivity].
  set (w2 := set_db_faults r2 w1).
  specialize (Hcb w2). change (db w2) with (db w) in Hcb.
  left.
  destruct (callback w2) as [[a|e] w3]; cbn [snd] in Hcb.
  - destruct (db_call_cases w3) as [r3 [E3|E3]]; rewrite E3; cbn [snd].
    + exact Hcb.
    + destruct (db_call_cases (set_db_faults r3 w3)) as [r4 [E4|E4]]; rewrite E4; exact Hcb.
  - destruct (db_call_cases w3) as [r4 [E4|E4]]; rewrite E4; exact Hcb.
Qed.

Lemma try_rethrow_db {A} (c : M A) status msg code_ w :
  db (snd (try_catch c (rethrow_or status msg code_) w)) = db (snd (c w)).
Proof.
  unfold try_catch, rethrow_or.
  destruct (c w) as [[a|e] w1]; [reflexivity|].
  destruct (instanceof_ApiError e); reflexivity.
Qed.

Lemma after_getUserModel_db {A} (R : Db -> Db -> Prop) (c : M A) :
  (forall w, R (db w) (db (snd (c w))) \/ db (snd (c w)) = db w) ->
  forall w, R (db w) (db (snd ((getUserModel ;; c) w))) \/
            db (snd ((getUserModel ;; c) w)) = db w.
Proof.
  intros Hc w. unfold bind, getUserModel.
  destruct (db_call_cases w) as [r [E|E]]; rewrite E; [|right; reflexivity].
  exact (Hc (set_db_faults r w)).
Qed.

Section PasswordEffects.
Context (env : Env) (m : UserModel) (mm : UserMethods).

Lemma instance_save_as_db changed u w :
  db (snd (instance_save_as m changed u w)) = db w
  \/ exists row1,
       m_beforeSave m changed (i_row u) = Some row1
       /\ db (snd (instance_save_as m changed u w)) = saved m (now w) row1 (db w).
Proof.
  unfold instance_save_as.
  destruct (m_beforeSave m changed (i_row u)) as [row1|]; [|left; reflexivity].
  unfold bind, Date_now, get_db, put_users, ret.
  destruct (db_call_cases w) as [r [E|E]]; rewrite E; [|left; reflexivity].
  right. exists row1. split; reflexivity.
Qed.

Lemma prototype_resetPassword_db newPassword u w :
  db (snd (prototype_resetPassword m mm newPassword u w)) = db w
  \/ password_replaced m mm newPassword (i_row u) (db w)
       (db (snd (prototype_resetPassword m mm newPassword u w))).
Proof.
  unfold prototype_resetPassword, bind at 1, Date_now.
  destruct (instance_save_as_db
              (password_changed (i_row u) (mm_resetPassword mm (now w) newPassword (i_row u)))
              (mkInstance (mm_resetPassword mm (now w) newPassword (i_row u)) (i_roles u)) w)
    as [H|(row1 & Hh & H)]; [left; exact H|].
  right. exists (now w), row1. split; [exact Hh | exact H].
Qed.

(** What [changePassword] may do to the tables. *)
Lemma changePassword_effect id currentPassword newPassword w :
  (exists row,
     visible_row m (db w) id = Some row
     /\ current_password_proved env m id currentPassword newPassword (db w)
     /\ password_replaced m mm newPassword row (db w)
          (db (snd (changePassword env m mm id currentPassword newPassword w))))
  \/ db (snd (changePassword env m mm id currentPassword newPassword w)) = db w.
Proof.
  unfold changePassword.
  apply (after_getUserModel_db
           (fun d d' =>
              exists row,
                visible_row m d id = Some row
                /\ current_password_proved env m id currentPassword newPassword d
                /\ password_replaced m mm newPassword row d d')).
  clear w. intros w. rewrite try_rethrow_db.
  match goal with
  | |- ?G \/ db (snd (transaction_of_reads ?cb w)) = db w =>
      destruct (transaction_of_reads_db
                  (fun d d' =>
                     d' = d \/
                     exists row,
                       visible_row m d id = Some row
                       /\ current_password_proved env m id currentPassword newPassword d
                       /\ password_replaced m mm newPassword row d d') cb) with (w := w)
        as [[H|H]|H]; [| right; exact H | left; exact H | right; exact H]
  end.
  clear w. intros w.
  cbv beta.
  match goal with
  | |- context [snd (?c w)] => destruct (c w) as [res w'] eqn:Ecb
  end.
  cbn [snd]. revert Ecb.
  unfold Model_findByPk, bind at 1.
  unfold bind at 1.
  destruct (db_call_cases w) as [r [E|E]]; rewrite E; [|cbv beta iota; intros [= _ <-]; left; reflexivity].
  unfold bind at 1. unfold bind at 1. unfold get_db, ret. cbn [db set_db_faults].
  change (List.find (fun r0 => in_scope m r0 && String.eqb (row_id r0) id) (users (db w)))
    with (visible_row m (db w) id).
  destruct (visible_row m (db w) id) as [row|] eqn:Ef; cbn [option_map];
    [|cbv beta iota; intros [= _ <-]; left; reflexivity].
  unfold bind at 1. cbn [i_row].
  change (exclude_attributes [] row) with row.
  destruct (validatePassword_cases env row currentPassword (set_db_faults r w))
    as [(c & h & Hc & Hh & Hv)|Hv]; rewrite Hv;
    [subst currentPassword|cbv beta iota; intros [= _ <-]; left; reflexivity].
  destruct (bcrypt_compare env c h) eqn:Ec; cbn [negb];
    [|cbv beta iota; intros [= _ <-]; left; reflexivity].
  destruct (js_strict_eq (VStr c) newPassword) eqn:Es;
    [cbv beta iota; intros [= _ <-]; left; reflexivity|].
  pose proof (prototype_resetPassword_db newPassword (mkInstance row None)
                (set_db_faults r w)) as H.
  cbn [i_row db set_db_faults] in H.
  destruct (prototype_resetPassword _ _ _ _ _) as [[u'|e] w1]; cbn [snd] in H;
    cbv beta iota; unfold ret; intros [= _ <-];
    (destruct H as [H|H]; [left; exact H|]);
    right; exists row; (split; [reflexivity|]); (split; [|exact H]);
    exists row, c, h; auto.
Qed.
End PasswordEffects.

(** X4.  [changePassword] writes to the tables only when the caller proved
    the current password of the row and asked for a different one,
    whatever the outcome of the call and whatever the collaborators do. *)
Theorem changePassword_needs_current_password env m mm id currentPassword newPassword w :
  db (snd (changePassword env m mm id currentPassword newPassword w)) <> db w ->
  current_password_proved env m id currentPassword newPassword (db w).
Proof.
  intros Hne.
  destruct (changePassword_effect env m mm id currentPassword newPassword w)
    as [(row & _ & H & _)|H]; [exact H | contradiction].
Qed.

Ltac obj_simpl :=
  repeat first
    [ rewrite obj_get_set_eq
    | rewrite obj_get_set_ne by discriminate
    | rewrite row_id_set by discriminate ].

Lemma visible_row_id m d id row : visible_row m d id = Some row -> row_id row = id.
Proof.
  unfold visible_row. intros H. apply List.find_some in H as [_ H].
  apply andb_true_iff in H as [_ H]. now apply String.eqb_eq in H.
Qed.

Lemma visible_row_in_scope m d id row :
  visible_row m d id = Some row -> in_scope m row = true.
Proof.
  unfold visible_row. intros H. apply List.find_some in H as [_ H].
  now apply andb_true_iff in H as [H _].
Qed.

Lemma visible_row_replaced m d id row row2 :
  visible_row m d id = Some row ->
  row_id row2 = row_id row -> in_scope m row2 = true ->
  visible_row m (set_users (replace_row row2 (users d)) d) id = Some row2.
Proof.
  intros Hf Hid Hs. pose proof (visible_row_id _ _ _ _ Hf) as Hrow.
  unfold visible_row in *. cbn [users set_users].
  induction (users d) as [|r us IH]; [discriminate|].
  cbn [replace_row map List.find] in *.
  destruct (String.eqb_spec (row_id r) (row_id row2)) as [E|E].
  - rewrite Hs. cbn. rewrite Hid, Hrow, String.eqb_refl. reflexivity.
  - destruct (in_scope m r && String.eqb (row_id r) id) eqn:Er.
    + apply andb_true_iff in Er as [_ Er]. apply String.eqb_eq in Er. congruence.
    + exact (IH Hf).
Qed.

Lemma in_scope_set m k v row :
  k <> "deletedAt" -> in_scope m (obj_set k v row) = in_scope m row.
Proof.
  intros Hk. unfold in_scope. destruct (m_paranoid m); [|reflexivity].
  rewrite obj_get_set_ne by congruence. reflexivity.
Qed.

(** The hash that a changed password is stored as validates it. *)
Lemma resetPassword_hashes env m mm new row h row1 t :
  known_model env m mm ->
  (forall p s, bcrypt_compare env p (bcrypt_hash env p s) = true) ->
  new <> "" ->
  obj_get "password" row = VStr h -> h <> new ->
  m_beforeSave m (password_changed row (mm_resetPassword mm t (VStr new) row))
    (mm_resetPassword mm t (VStr new) row) = Some row1 ->
  row_id (saved_row m t row1) = row_id row
  /\ in_scope m (saved_row m t row1) = in_scope m row
  /\ exists h', obj_get "password" (saved_row m t row1) = VStr h'
                /\ bcrypt_compare env new h' = true.
Proof.
  intros [[-> ->]|[-> ->]] Hlaw Hne Hh Hhn; unfold password_changed, saved_row;
    cbn [mm_resetPassword UserJs_methods SysUser_methods m_beforeSave m_timestamps
         UserJs.model SysUser.model].
  - unfold UserJs_resetPassword, UserJs.beforeSave. obj_simpl. rewrite Hh.
    cbn [js_strict_eq]. destruct (String.eqb_spec new h) as [E|E]; [congruence|].
    cbn [negb]. cbv beta iota zeta. obj_simpl. cbv beta iota. intros [= <-].
    rewrite !in_scope_set by discriminate. obj_simpl.
    split; [reflexivity|]. split; [reflexivity|]. eauto.
  - unfold SysUser_resetPassword, SysUser.beforeSave.
    set (this := obj_set "update_time" (VDate t) (obj_set "password" (VStr new) row)).
    assert (Hp : obj_get "password" this = VStr new) by (subst this; now obj_simpl).
    assert (Hi : row_id this = row_id row) by (subst this; now obj_simpl).
    rewrite Hp, Hh.
    cbn [js_strict_eq truthy]. destruct (String.eqb_spec new h) as [E|E]; [congruence|].
    destruct (String.eqb_spec new "") as [E'|E']; [congruence|].
    cbn [negb andb].
    destruct (negb (truthy (obj_get "salt" this))) eqn:Es.
    + obj_simpl. rewrite Hp. cbv beta iota. intros [= <-]. obj_simpl.
      unfold in_scope. cbn [m_paranoid]. split; [exact Hi|]. split; [reflexivity|]. eauto.
    + rewrite Hp. destruct (obj_get "salt" this) eqn:Esalt; try discriminate.
      intros [= <-]. obj_simpl.
      unfold in_scope. cbn [m_paranoid]. split; [exact Hi|]. split; [reflexivity|]. eauto.
Qed.

(** X5.  Whenever [changePassword] has written to the tables - it may then
    still report a failure, because [save()] is not part of the transaction
    and a rejected commit undoes nothing - the stored hash validates the new
    password. *)
Theorem changePassword_write_installs_new_password env m mm id currentPassword new w :
  known_model env m mm ->
  (forall p s, bcrypt_compare env p (bcrypt_hash env p s) = true) ->
  new <> "" ->
  (forall row, visible_row m (db w) id = Some row -> obj_get "password" row <> VStr new) ->
  db (snd (changePassword env m mm id currentPassword (VStr new) w)) <> db w ->
  exists row' h',
    visible_row m (db (snd (changePassword env m mm id currentPassword (VStr new) w))) id
    = Some row'
    /\ obj_get "password" row' = VStr h'
    /\ bcrypt_compare env new h' = true.
Proof.
  intros K Hlaw Hne Hfresh Hch.
  destruct (changePassword_effect env m mm id currentPassword (VStr new) w)
    as [(row & Hrow & Hcur & (t & row1 & Hhook & Hd))|H]; [|contradiction].
  destruct Hcur as (row0 & c & h & Hrow0 & _ & Hh & _).
  rewrite Hrow in Hrow0. injection Hrow0 as <-.
  assert (Hhn : h <> new) by (intros ->; exact (Hfresh row Hrow Hh)).
  destruct (resetPassword_hashes env m mm new row h row1 t K Hlaw Hne Hh Hhn Hhook)
    as (Hid & Hsc & h' & Hp & Hc).
  exists (saved_row m t row1), h'. rewrite Hd. split; [|split; assumption].
  apply (visible_row_replaced m (db w) id row); [exact Hrow | exact Hid |].
  rewrite Hsc. exact (visible_row_in_scope _ _ _ _ Hrow).
Qed.

Lemma Demo_bcrypt_law p s :
  bcrypt_compare Demo.env p (bcrypt_hash Demo.env p s) = true.
Proof. cbn. apply String.eqb_refl. Qed.

Lemma changePassword_needs_current_password_witness :
  current_password_proved Demo.env (SysUser.model Demo.env) "u1"
    (VStr "Correct1!") (VStr "N3w!Passw0rd") (db (Demo.world 5000)).
Proof.
  apply (changePassword_needs_current_password Demo.env (SysUser.model Demo.env)
           SysUser_methods "u1" (VStr "Correct1!") (VStr "N3w!Passw0rd") (Demo.world 5000)).
  intros H. vm_compute in H. discriminate H.
Defined.

Lemma changePassword_write_installs_new_password_witness :
  outcome (fst (changePassword Demo.env (SysUser.model Demo.env) SysUser_methods "u1"
                  (VStr "Correct1!") (VStr "N3w!Passw0rd") commit_rejected))
  = "USER_PASSWORD_CHANGE_FAILED"
  /\ exists row' h',
       visible_row (SysUser.model Demo.env)
         (db (snd (changePassword Demo.env (SysUser.model Demo.env) SysUser_methods "u1"
                     (VStr "Correct1!") (VStr "N3w!Passw0rd") commit_rejected))) "u1"
       = Some row'
       /\ obj_get "password" row' = VStr h'
       /\ bcrypt_compare Demo.env "N3w!Passw0rd" h' = true.
Proof.
  split; [reflexivity|].
  apply (changePassword_write_installs_new_password Demo.env (SysUser.model Demo.env)
           SysUser_methods "u1" (VStr "Correct1!") "N3w!Passw0rd" commit_rejected).
  - right. split; reflexivity.
  - exact Demo_bcrypt_law.
  - discriminate.
  - intros row H. vm_compute in H. injection H as <-. discriminate.
  - intros H. vm_compute in H. discriminate H.
Defined.

(** ** Resetting a forgotten password *)

(** A transaction whose callback starts by reading [User.sequelize.Op]
    throws, and what it throws is not an [ApiError]. *)
Lemma transaction_of_reads_Op {A} member (k : unit -> M A) w :
  exists e w1,
    transaction_of_reads (bind (sequelize_Op member) k) w = (Throw e, w1)
    /\ instanceof_ApiError e = false /\ db w1 = db w /\ redis w1 = redis w.
Proof.
  unfold transaction_of_reads, sequelize_Op, bind, try_catch, ret, throw.
  destruct (db_call_cases w) as [r1 [E1|E1]]; rewrite E1;
    [|do 2 eexists; repeat split].
  destruct (db_call_cases (set_db_faults r1 w)) as [r2 [E2|E2]]; rewrite E2;
    [|do 2 eexists; repeat split].
  cbv beta iota.
  match goal with
  | |- context [db_call ?w0] => destruct (db_call_cases w0) as [r3 [E3|E3]]; rewrite E3
  end; do 2 eexists; repeat split.
Qed.

(** X6.  With [models/sysUser.js], the model [utils/database.js] registers,
    a password can not be reset by e-mail: [requestPasswordReset] and
    [resetPassword] fail on every input and leave the tables as they
    were. *)
Theorem password_reset_unavailable_with_sysUser env drawn email token newPassword w :
  (exists e w1,
     requestPasswordReset env (SysUser.model env) SysUser_methods drawn email w
     = (Throw e, w1) /\ db w1 = db w)
  /\ (exists e w1,
        resetPassword env (SysUser.model env) SysUser_methods token newPassword w
        = (Throw e, w1) /\ db w1 = db w).
Proof.
  split.
  - unfold requestPasswordReset, getUserModel, bind at 1.
    destruct (db_call_cases w) as [r1 [E1|E1]]; rewrite E1; [|eauto].
    unfold try_catch, Model_findOne, bind, get_db, ret, throw, rethrow_or.
    destruct (db_call_cases (set_db_faults r1 w)) as [r2 [E2|E2]]; rewrite E2;
      cbn [instanceof_ApiError]; [|eauto].
    destruct (List.find _ _); cbn [option_map instanceof_ApiError
      prototype_generatePasswordResetToken mm_generatePasswordResetToken SysUser_methods];
      eauto.
  - unfold resetPassword, getUserModel, bind at 1.
    destruct (db_call_cases w) as [r1 [E1|E1]]; rewrite E1; [|eauto].
    unfold try_catch.
    match goal with
    | |- context [transaction_of_reads (bind (sequelize_Op ?member) ?k) ?w0] =>
        destruct (transaction_of_reads_Op member k w0) as (e & w1 & E & _ & Hd & _)
    end.
    rewrite E. unfold rethrow_or. destruct (instanceof_ApiError e); unfold throw; eauto.
Qed.

(** X7.  A password can not be reset with a token either, whatever the
    model: [resetPassword] reads [User.sequelize.Op.gt] before it looks for
    the token, so that whenever [getUserModel] answers, the call is
    answered [USER_PASSWORD_RESET_FAILED] (500), for a valid token as for
    any other, and neither the tables nor the cache have changed. *)
Theorem resetPassword_always_fails env m mm token newPassword w :
  no_fault 1 (db_faults w) = true ->
  fst (resetPassword env m mm token newPassword w) = Throw (EApi PASSWORD_RESET_FAILED)
  /\ db (snd (resetPassword env m mm token newPassword w)) = db w
  /\ redis (snd (resetPassword env m mm token newPassword w)) = redis w.
Proof.
  intros Hf. unfold resetPassword, getUserModel.
  rewrite (bind_Ok_run _ _ _ _ _ (db_call_no_fault w Hf)).
  unfold try_catch.
  match goal with
  | |- context [transaction_of_reads (bind (sequelize_Op ?member) ?k) ?w0] =>
      destruct (transaction_of_reads_Op member k w0) as (e & w1 & E & He & Hd & Hr)
  end.
  rewrite E. unfold rethrow_or. rewrite He. cbn [fst snd throw].
  repeat split; assumption.
Qed.

Lemma resetPassword_always_fails_witness :
  fst (resetPassword Demo.env (SysUser.model Demo.env) SysUser_methods (VStr "tok1")
         (VStr "N3w!Passw0rd") (Demo.world 5000))
  = Throw (EApi PASSWORD_RESET_FAILED)
  /\ db (snd (resetPassword Demo.env (SysUser.model Demo.env) SysUser_methods (VStr "tok1")
                (VStr "N3w!Passw0rd") (Demo.world 5000)))
     = db (Demo.world 5000)
  /\ redis (snd (resetPassword Demo.env (SysUser.model Demo.env) SysUser_methods
                   (VStr "tok1") (VStr "N3w!Passw0rd") (Demo.world 5000)))
     = redis (Demo.world 5000).
Proof.
  apply (resetPassword_always_fails Demo.env (SysUser.model Demo.env) SysUser_methods
           (VStr "tok1") (VStr "N3w!Passw0rd") (Demo.world 5000)).
  reflexivity.
Defined.

(** ** Verifying a token *)

Lemma authenticate_bearer env h t w :
  bearer h t ->
  authenticate env (Some h) w
  = try_catch
      (try_catch
         (let* decoded := jwt_verify env t in
          let* isBlacklisted := client_get (blacklist_key t) in
          if text_truthy isBlacklisted
          then throw (EApi TOKEN_REVOKED)
          else ret (next decoded))
         (fun error =>
            if String.eqb (error_name error) "TokenExpiredError"
            then throw (EApi TOKEN_EXPIRED)
            else if String.eqb (error_name error) "JsonWebTokenError"
            then throw (EApi TOKEN_INVALID)
            else throw error))
      (fun error =>
         match error with
         | EApi e => ret (next_error e)
         | _ =>
             ret (next_error
                    (mkApiError statusCodes.INTERNAL_SERVER_ERROR "认证过程发生错误"
                       "AUTH_SYSTEM_ERROR"))
         end) w.
Proof.
  intros (Hp & Ht & Hne). unfold authenticate.
  change (default "" (Some h)) with h. cbn [truthy_str]. rewrite Hp, Ht.
  change (default "" (Some t)) with t.
  assert (Hh : String.eqb h "" = false).
  { destruct h; [discriminate|reflexivity]. }
  rewrite Hh. cbn [negb orb truthy_str].
  destruct (String.eqb_spec t ""); [contradiction|]. reflexivity.
Qed.

(** X9.  A token that does not verify is refused without a word to Redis:
    the answer is [AUTH_INVALID_TOKEN] for a token that does not parse or
    whose signature fails, and [AUTH_TOKEN_EXPIRED] for one that has reached
    its [exp], and the world is left exactly as it was.  So these answers
    do not depend on the blacklist or on the cache being reachable. *)
Theorem authenticate_rejects_locally env h t w :
  bearer h t ->
  (jwt_decode env t = None \/ jwt_signed env t = false ->
   authenticate env (Some h) w = (Ok (next_error TOKEN_INVALID), w))
  /\ (forall payload e,
        jwt_decode env t = Some payload -> jwt_signed env t = true ->
        c_exp payload = Some e -> e <= now w / 1000 ->
        authenticate env (Some h) w = (Ok (next_error TOKEN_EXPIRED), w)).
Proof.
  intros Hb. rewrite (authenticate_bearer env h t w Hb). split.
  - intros Hbad. unfold jwt_verify.
    destruct (jwt_decode env t) as [p|]; [|reflexivity].
    destruct Hbad as [Hbad|Hbad]; [discriminate|]. rewrite Hbad. reflexivity.
  - intros p e Hd Hs He Hle. unfold jwt_verify.
    rewrite Hd, Hs, He. cbn [negb]. unfold try_catch, bind, Date_now, throw, ret.
    cbn [now]. destruct (e <=? now w / 1000) eqn:E; [reflexivity|lia].
Qed.

Lemma authenticate_rejects_locally_witness :
  authenticate Demo.env (Some "Bearer tokA")
    (set_redis_faults [true] (Demo.world 1000000))
  = (Ok (next_error TOKEN_EXPIRED), set_redis_faults [true] (Demo.world 1000000)).
Proof.
  refine (proj2 (authenticate_rejects_locally Demo.env "Bearer tokA" "tokA"
                   (set_redis_faults [true] (Demo.world 1000000)) _)
            Demo.alice_claims 1000 _ _ _ _).
  - repeat split. discriminate.
  - reflexivity.
  - reflexivity.
  - reflexivity.
  - vm_compute. discriminate.
Defined.

(** X10.  [authenticate] hands a request on only for a well-formed
    [Bearer] header whose token parses to the identity it attaches, carries
    a valid signature, has not reached its [exp], and has no entry in the
    blacklist; and only after Redis answered exactly one command. *)
Theorem authenticate_accepts_only_live_tokens env authHeader w claims w' :
  authenticate env authHeader w = (Ok (next claims), w') ->
  exists h t,
    authHeader = Some h /\ bearer h t
    /\ jwt_decode env t = Some claims
    /\ jwt_signed env t = true
    /\ (forall e, c_exp claims = Some e -> now w / 1000 < e)
    /\ text_truthy (visible w (blacklist_key t)) = false
    /\ w' = set_redis_faults (tl (redis_faults w)) w.
Proof.
  unfold authenticate. intros H.
  destruct authHeader as [h|]; [|discriminate].
  change (default "" (Some h)) with h in H. cbn [truthy_str] in H.
  destruct (negb (negb (String.eqb h "")) || negb (String.prefix "Bearer " h)) eqn:E1;
    [discriminate|].
  apply orb_false_elim in E1 as [E0 Ep]. apply negb_false_iff in Ep.
  destruct (nth_error (split_space h) 1) as [t|] eqn:Et; [|discriminate].
  change (default "" (Some t)) with t in H. cbn [truthy_str] in H.
  destruct (String.eqb_spec t "") as [->|Hne]; [discriminate|]. cbn [negb] in H.
  exists h, t. split; [reflexivity|]. split; [repeat split; assumption|].
  revert H. unfold jwt_verify.
  destruct (jwt_decode env t) as [p|]; [|discriminate].
  destruct (jwt_signed env t); [|discriminate]. cbn [negb].
  unfold client_get. unfold try_catch, bind, Date_now, redis_command, ret, throw.
  cbn [now].
  destruct (c_exp p) as [e|] eqn:Ee;
    [destruct (e <=? now w / 1000) eqn:El; cbv beta iota;
     [intros H; cbn in H; discriminate H|] |];
    (destruct (redis_faults w) as [|[] r] eqn:Ef; cbn [next_fault]; cbv beta iota;
     try (intros H; cbn in H; discriminate H));
    unfold visible; cbn [redis now set_redis_faults];
    (destruct (text_truthy _) eqn:Eb; cbv beta iota;
     [intros H; cbn in H; discriminate H|]);
    intros [= <- <-]; repeat split; try reflexivity; try exact Eb;
    intros e' He'; rewrite Ee in He';
    first [discriminate He' | injection He' as <-; lia].
Qed.

Lemma authenticate_accepts_only_live_tokens_witness :
  exists h t,
    Some "Bearer tokA" = Some h /\ bearer h t
    /\ jwt_decode Demo.env t = Some Demo.alice_claims
    /\ jwt_signed Demo.env t = true
    /\ (forall e, c_exp Demo.alice_claims = Some e -> now (Demo.world 5000) / 1000 < e)
    /\ text_truthy (visible (Demo.world 5000) (blacklist_key t)) = false
    /\ snd (authenticate Demo.env (Some "Bearer tokA") (Demo.world 5000))
       = set_redis_faults (tl (redis_faults (Demo.world 5000))) (Demo.world 5000).
Proof.
  apply (authenticate_accepts_only_live_tokens Demo.env (Some "Bearer tokA")
           (Demo.world 5000) Demo.alice_claims).
  reflexivity.
Defined.

(** ** Revoking a token *)

(** X11.  A token revoked by [logout] while at least one second of its
    life remains is refused as [AUTH_TOKEN_REVOKED] by every [authenticate]
    up to one second before its expiry, when Redis answers and nobody
    touched the blacklist entry. *)
Theorem logout_revokes_until_last_second env m h t user w d e w2 :
  bearer h t ->
  jwt_decode env t = Some d -> jwt_signed env t = true ->
  c_exp d = Some e -> e <> 0 ->
  now w <= e * 1000 - 1000 ->
  no_fault 2 (redis_faults w) = true ->
  redis w2 !! blacklist_key t
  = redis (snd (logout env m (Some t) user w)) !! blacklist_key t ->
  now w2 <= e * 1000 - 1000 ->
  no_fault 1 (redis_faults w2) = true ->
  fst (authenticate env (Some h) w2) = Ok (next_error TOKEN_REVOKED).
Proof.
  intros Hb Hd Hs He Hne Hleft Hf Hsame Hnow Hf2.
  destruct (logout_blacklist_ttl env m t user w d e Hd He Hne) as (until_ & Hentry & _ & Hu);
    [apply Z.div_str_pos; lia | exact Hf |].
  rewrite (authenticate_bearer env h t w2 Hb).
  unfold jwt_verify. rewrite Hd, Hs, He. cbn [negb].
  unfold client_get. unfold try_catch, bind, Date_now, redis_command, ret, throw.
  cbn [now].
  destruct (e <=? now w2 / 1000) eqn:El.
  { apply Z.leb_le in El.
    assert (now w2 / 1000 <= e - 1) by (apply Z.div_le_upper_bound; lia). lia. }
  unfold no_fault in Hf2.
  assert (Hv : visible w2 (blacklist_key t) = Some (VStr "true")).
  { unfold visible. rewrite Hsame, Hentry. unfold live. cbn.
    destruct (now w2 <? until_) eqn:E; [reflexivity|lia]. }
  destruct (redis_faults w2) as [|[] r] eqn:Ef; simpl in Hf2; try discriminate;
    cbn [next_fault];
    change (visible (set_redis_faults _ w2) (blacklist_key t))
      with (visible w2 (blacklist_key t));
    rewrite Hv; reflexivity.
Qed.

Lemma logout_revokes_until_last_second_witness :
  fst (authenticate Demo.env (Some "Bearer tokA") (set_now 999000 (snd Demo.revoked_early)))
  = Ok (next_error TOKEN_REVOKED).
Proof.
  apply (logout_revokes_until_last_second Demo.env (SysUser.model Demo.env)
           "Bearer tokA" "tokA" (Some Demo.alice_claims) (Demo.world 998500)
           Demo.alice_claims 1000).
  - repeat split. discriminate.
  - reflexivity.
  - reflexivity.
  - reflexivity.
  - discriminate.
  - vm_compute. discriminate.
  - reflexivity.
  - reflexivity.
  - vm_compute. discriminate.
  - reflexivity.
Defined.

(** ** Roles in a token *)

Lemma includes_spec l role :
  js_includes l (VStr role) = true <-> In (VStr role) l.
Proof.
  unfold js_includes. rewrite existsb_exists. split.
  - intros (y & Hy & E). destruct y; try discriminate.
    cbn in E. apply String.eqb_eq in E. now subst.
  - intros H. exists (VStr role). split; [exact H|]. cbn. apply String.eqb_refl.
Qed.

(** X13.  [hasRole] lets a request pass exactly when it carries an
    identity one of whose roles is, as a string, one of the required
    roles. *)
Theorem hasRole_passes_iff_roles_meet requiredRoles req :
  hasRole requiredRoles req = next tt
  <-> exists user role,
        req_user req = Some user /\ In role requiredRoles /\ In (VStr role) (c_roles user).
Proof.
  unfold hasRole. destruct (req_user req) as [user|].
  - destruct (existsb _ requiredRoles) eqn:E.
    + split; [intros _|reflexivity].
      apply existsb_exists in E as (role & Hin & Hr).
      exists user, role. repeat split; [exact Hin|]. now apply includes_spec.
    + split; [discriminate|]. intros (u & role & [= <-] & Hin & Hr).
      assert (existsb (fun role => js_includes (c_roles user) (VStr role)) requiredRoles
              = true) as E'.
      { apply existsb_exists. exists role. split; [exact Hin|]. now apply includes_spec. }
      congruence.
  - split; [discriminate|]. intros (u & role & H & _). discriminate.
Qed.

Lemma role_objects_match_no_code toISO (loaded : list LoadedRole) role :
  js_includes (array_items (json_rt toISO (VArr (map role_json loaded)))) (VStr role)
  = false.
Proof.
  cbn [json_rt array_items]. unfold js_includes.
  induction loaded as [|r l IH]; [reflexivity|].
  cbn [map existsb]. rewrite IH. reflexivity.
Qed.

(** X12.  The identity that [generateToken] signs for a user loaded with
    the [roles] association, as [login] loads it, carries the roles as role
    objects, not as role codes: no role name is included in it, and
    [hasRole] refuses it whatever roles are required. *)
Theorem token_roles_pass_no_role_check env user loaded w :
  i_roles user = Some loaded ->
  exists identity,
    generateToken env user w = (Ok (jwt_sign env identity), w)
    /\ c_id identity = row_id (i_row user)
    /\ (forall role, js_includes (c_roles identity) (VStr role) = false)
    /\ (forall requiredRoles,
          hasRole requiredRoles (request_by identity)
          = next_error INSUFFICIENT_PERMISSIONS).
Proof.
  intros Hl. unfold generateToken, bind, Date_now, ret, instance_roles. rewrite Hl.
  eexists. split; [reflexivity|]. split; [reflexivity|].
  cbn [c_roles].
  pose proof (role_objects_match_no_code (toISOString env) loaded) as Hno.
  split; [exact Hno|].
  intros requiredRoles. unfold hasRole, request_by. cbn [req_user c_roles].
  match goal with
  | |- (if ?b then _ else _) = _ => assert (E : b = false); [|rewrite E; reflexivity]
  end.
  induction requiredRoles as [|a l IH]; [reflexivity|].
  cbn [existsb]. rewrite IH. rewrite orb_false_r. exact (Hno a).
Qed.

Lemma token_roles_pass_no_role_check_witness :
  exists identity,
    generateToken Demo.env alice_loaded (Demo.world 5000)
    = (Ok (jwt_sign Demo.env identity), Demo.world 5000)
    /\ c_id identity = "u1"
    /\ hasRole ["admin"; "manager"; "R1"; "R2"] (request_by identity)
       = next_error INSUFFICIENT_PERMISSIONS.
Proof.
  destruct (token_roles_pass_no_role_check Demo.env alice_loaded
              (roles_of Demo.tables "u1") (Demo.world 5000) eq_refl)
    as (identity & Htok & Hid & _ & Hrole).
  exists identity. split; [exact Htok|]. split; [exact Hid | apply Hrole].
Defined.

(** ** Registering and listing users *)

(** X14.  No account can be registered: [register] reads
    [User.sequelize.Op.or] before it queries, so whenever [getUserModel]
    answers, the call is answered [USER_REGISTRATION_FAILED] (500),
    whatever the data, and neither the tables nor the cache have
    changed. *)
Theorem register_always_fails env m userData w :
  no_fault 1 (db_faults w) = true ->
  fst (register env m userData w) = Throw (EApi REGISTRATION_FAILED)
  /\ db (snd (register env m userData w)) = db w
  /\ redis (snd (register env m userData w)) = redis w.
Proof.
  intros Hf. rewrite register_run. unfold no_fault in Hf.
  destruct (db_faults w) as [|[] r]; simpl in *; try discriminate; repeat split.
Qed.

Lemma register_always_fails_witness :
  fst (register Demo.env (SysUser.model Demo.env)
         [("username", VStr "erin"); ("email", VStr "erin@example.com");
          ("password", VStr "Str0ng!Pass")] (Demo.world 5000))
  = Throw (EApi REGISTRATION_FAILED)
  /\ db (snd (register Demo.env (SysUser.model Demo.env)
                [("username", VStr "erin"); ("email", VStr "erin@example.com");
                 ("password", VStr "Str0ng!Pass")] (Demo.world 5000)))
     = db (Demo.world 5000)
  /\ redis (snd (register Demo.env (SysUser.model Demo.env)
                   [("username", VStr "erin"); ("email", VStr "erin@example.com");
                    ("password", VStr "Str0ng!Pass")] (Demo.world 5000)))
     = redis (Demo.world 5000).
Proof.
  apply (register_always_fails Demo.env (SysUser.model Demo.env)
           [("username", VStr "erin"); ("email", VStr "erin@example.com");
            ("password", VStr "Str0ng!Pass")] (Demo.world 5000)).
  reflexivity.
Defined.

Lemma has_columns_snoc m cols c :
  existsb (String.eqb c) (m_columns m) = false -> has_columns m (List.app cols [c]) = false.
Proof.
  intros Hc. unfold has_columns. rewrite forallb_app. cbn [forallb]. rewrite Hc.
  now rewrite andb_false_r.
Qed.

(** [getUsers] reads and never writes. *)
Lemma getUsers_reads env m o w :
  db (snd (getUsers env m o w)) = db w /\ redis (snd (getUsers env m o w)) = redis w.
Proof.
  unfold getUsers, getUserModel, sequelize_Op, try_catch, bind, get_db, ret, throw.
  destruct (db_call_cases w) as [r1 [E1|E1]]; rewrite E1; [|split; reflexivity].
  destruct (truthy_str (o_search o)); [split; reflexivity|].
  destruct (truthy_str (o_role o)); [split; reflexivity|].
  cbv beta iota.
  destruct (db_call_cases (set_db_faults r1 w)) as [r2 [E2|E2]]; rewrite E2;
    [|split; reflexivity].
  cbv beta iota.
  match goal with |- context [if ?b then _ else _] => destruct b end; split; reflexivity.
Qed.

(** X15.  The [search] and [role] filters of [getUsers] cannot be used,
    nor can its default sort key with a table that has no [createdAt]
    column, as [sys_user]: whenever [getUserModel] answers, such a listing
    is answered [USER_LIST_FAILED] (500). *)
Theorem getUsers_filters_fail env m o w :
  no_fault 1 (db_faults w) = true ->
  truthy_str (o_search o) = true \/ truthy_str (o_role o) = true
  \/ (o_sortBy o = VUndef /\ existsb (String.eqb "createdAt") (m_columns m) = false) ->
  fst (getUsers env m o w) = Throw (EApi LIST_FAILED).
Proof.
  intros Hf Hc. unfold getUsers, getUserModel.
  rewrite (bind_Ok_run _ _ _ _ _ (db_call_no_fault w Hf)).
  unfold sequelize_Op, try_catch, bind, get_db, ret, throw.
  destruct (truthy_str (o_search o)); [reflexivity|].
  destruct (truthy_str (o_role o)); [reflexivity|].
  destruct Hc as [Hc|[Hc|[Hs Hcol]]]; try discriminate.
  cbv beta iota.
  match goal with
  | |- context [db_call ?w0] => destruct (db_call_cases w0) as [r2 [E2|E2]]; rewrite E2
  end; [|reflexivity].
  cbv beta iota. rewrite Hs. unfold list_columns.
  rewrite app_assoc. cbn [from_option]. rewrite (has_columns_snoc m _ "createdAt" Hcol).
  cbn [negb]. rewrite !orb_true_r. reflexivity.
Qed.

Lemma getUsers_filters_fail_witness :
  fst (getUsers Demo.env (SysUser.model Demo.env)
         (mkListOptions None None VUndef None VUndef None VUndef VUndef) (Demo.world 5000))
  = Throw (EApi LIST_FAILED)
  /\ fst (getUsers Demo.env (SysUser.model Demo.env)
            (mkListOptions None None VUndef None VUndef (Some "ali") (VStr "username") VUndef)
            (Demo.world 5000))
     = Throw (EApi LIST_FAILED).
Proof.
  split.
  - apply (getUsers_filters_fail Demo.env (SysUser.model Demo.env)
             (mkListOptions None None VUndef None VUndef None VUndef VUndef)
             (Demo.world 5000)); [reflexivity|].
    right. right. split; reflexivity.
  - apply (getUsers_filters_fail Demo.env (SysUser.model Demo.env)
             (mkListOptions None None VUndef None VUndef (Some "ali") (VStr "username") VUndef)
             (Demo.world 5000)); [reflexivity|].
    left. reflexivity.
Defined.

(** X16.  A listing that [getUsers] returns used neither [search] nor
    [role]; its [total] counts the rows in scope that pass the [status] and
    [tenantId] filters, its page holds at most [limit] users, none of them
    with a credential attribute, and the call changed neither the tables
    nor the cache. *)
Theorem getUsers_page env m o w p w' :
  getUsers env m o w = (Ok p, w') ->
  truthy_str (o_search o) = false /\ truthy_str (o_role o) = false
  /\ up_total p = Z.of_nat (length (listed env m o (db w)))
  /\ up_page p = default 1 (o_page o)
  /\ up_limit p = default 10 (o_limit o)
  /\ Z.of_nat (length (up_users p)) <= up_limit p
  /\ Forall (fun u => secret_free_obj u = true) (up_users p)
  /\ db w' = db w /\ redis w' = redis w.
Proof.
  intros H.
  pose proof (getUsers_reads env m o w) as [Hd Hr]. rewrite H in Hd, Hr. cbn [snd] in Hd, Hr.
  revert H. unfold getUsers, getUserModel, sequelize_Op, try_catch, bind, get_db, ret, throw.
  destruct (db_call_cases w) as [r1 [E1|E1]]; rewrite E1; [|discriminate].
  destruct (truthy_str (o_search o)); [discriminate|].
  destruct (truthy_str (o_role o)); [discriminate|].
  cbv beta iota.
  destruct (db_call_cases (set_db_faults r1 w)) as [r2 [E2|E2]]; rewrite E2; [|discriminate].
  cbv beta iota.
  destruct (default 10 (o_limit o) <? 0) eqn:El; [discriminate|].
  cbn [orb].
  match goal with |- context [if ?b then _ else _] => destruct b end; [discriminate|].
  intros [= <- <-]. cbn [up_total up_page up_limit up_users db set_db_faults].
  repeat split; try assumption.
  - rewrite length_map, length_firstn. apply Z.ltb_ge in El. lia.
  - apply List.Forall_forall. intros u Hu. apply in_map_iff in Hu as (r & <- & _).
    apply exclude_secret_free.
Qed.

Lemma getUsers_page_witness :
  exists p w',
    getUsers Demo.env (SysUser.model Demo.env) (by_username 3) (Demo.world 5000) = (Ok p, w')
    /\ up_total p = 4
    /\ Z.of_nat (length (up_users p)) <= 3
    /\ Forall (fun u => secret_free_obj u = true) (up_users p).
Proof.
  destruct (getUsers Demo.env (SysUser.model Demo.env) (by_username 3) (Demo.world 5000))
    as [[p|e] w'] eqn:E.
  - destruct (getUsers_page Demo.env (SysUser.model Demo.env) (by_username 3)
                (Demo.world 5000) p w' E) as (_ & _ & Ht & _ & Hl & Hn & Hs & _).
    exists p, w'. split; [reflexivity|]. split; [exact Ht|]. split; [|exact Hs].
    rewrite Hl in Hn. exact Hn.
  - exfalso. vm_compute in E. discriminate E.
Defined.

(** ** Reading a user *)

Lemma next_fault_run n fs :
  no_fault (S n) fs = true -> next_fault fs = (false, tl fs) /\ no_fault n (tl fs) = true.
Proof.
  unfold no_fault. destruct fs as [|[] r]; simpl; intros H; try discriminate.
  - split; [reflexivity | now destruct n].
  - split; [reflexivity | exact H].
Qed.

(** Take the next [db_call] of the goal, which [H] says is answered. *)
Ltac db_step H :=
  let E := fresh "E" in
  let H' := fresh "H" in
  match type of H with
  | no_fault (S ?n) ?fs = true =>
      destruct (next_fault_run n fs H) as [E H']; clear H; rename H' into H;
      unfold db_call at 1;
      cbn [now db db_faults redis redis_faults set_db set_db_faults set_redis
           set_redis_faults set_now];
      rewrite E; clear E; cbv beta iota
  end.

Lemma RedisClient_get_null key w :
  visible w key = None \/ hd false (redis_faults w) = true ->
  exists fs, RedisClient_get key w = (Ok VNull, set_redis_faults fs w).
Proof.
  intros H. unfold RedisClient_get, ensureConnection, client_get.
  unfold try_catch, bind, redis_command, ret, visible in *.
  destruct (redis_faults w) as [|[] [|[] r']] eqn:Ef;
    cbn [next_fault hd redis_faults set_redis_faults redis now] in *;
    try (eexists; reflexivity);
    (destruct H as [H|H]; [|discriminate]);
    destruct (redis w !! key) as [e|]; try (eexists; reflexivity);
    destruct (live (now w) e); try discriminate; eexists; reflexivity.
Qed.

Lemma RedisClient_set_shape toISO key value ttl w :
  exists b R fs,
    RedisClient_set toISO key value ttl w = (Ok b, set_redis R (set_redis_faults fs w)).
Proof.
  unfold RedisClient_set, ensureConnection, client_setex, client_set.
  unfold try_catch, bind, redis_command, ret, throw.
  destruct (next_fault (redis_faults w)) as [[] r1].
  - exists false, (redis w), r1. reflexivity.
  - cbn [redis_faults set_redis_faults].
    destruct (negb (ttl =? 0)); cbv beta iota; cbn [redis_faults set_redis_faults];
      destruct (next_fault r1) as [[] r2]; cbv beta iota.
    + exists false, (redis w), r2. reflexivity.
    + destruct (ttl <=? 0); cbv beta iota.
      * exists false, (redis w), r2. reflexivity.
      * eexists true, _, r2. reflexivity.
    + exists false, (redis w), r2. reflexivity.
    + eexists true, _, r2. reflexivity.
Qed.

(** X17.  When the cache holds a snapshot under the user's key and Redis
    answers, [getUserById] returns that snapshot and makes no database
    call: the answer does not depend on the tables, which may since have
    changed or lost the row, nor on the database being reachable. *)
Theorem getUserById_hit_skips_store env m id w v :
  no_fault 2 (redis_faults w) = true ->
  visible w (user_key id) = Some v -> truthy v = true ->
  getUserById env m id w = (Ok v, set_redis_faults (tl (tl (redis_faults w))) w).
Proof.
  intros Hf Hv Ht. unfold getUserById.
  unfold try_catch, bind at 1. rewrite (RedisClient_get_run _ _ Hf), Hv.
  assert (E : match v with VUndef => VNull | _ => v end = v) by now destruct v.
  rewrite E, Ht. reflexivity.
Qed.

(** A miss, or a refused connection, sends [getUserById] to the store. *)
Lemma getUserById_miss env m id w :
  visible w (user_key id) = None \/ hd false (redis_faults w) = true ->
  no_fault 2 (db_faults w) = true ->
  exists w',
    getUserById env m id w = (store_answer m (db w) id, w') /\ db w' = db w.
Proof.
  intros Hc Hf. destruct (RedisClient_get_null (user_key id) w Hc) as [fs Hg].
  unfold getUserById. unfold try_catch, bind at 1. rewrite Hg. cbn [truthy].
  unfold getUserModel, Model_findByPk. unfold bind, get_db, ret, throw.
  db_step Hf. db_step Hf. cbn [db set_db_faults set_redis_faults].
  unfold store_answer, visible_row.
  destruct (List.find _ (users (db w))) as [row|]; cbn [option_map].
  - cbn [toJSON i_roles i_row].
    match goal with
    | |- context [RedisClient_set ?a ?k ?v ?t ?w0] =>
        destruct (RedisClient_set_shape a k v t w0) as (b & R & fs' & Hs); rewrite Hs
    end.
    eexists. split; reflexivity.
  - eexists. split; reflexivity.
Qed.

(** X18.  When nothing is cached under the user's key, or Redis refuses
    the connection, [getUserById] answers from the store whatever else Redis
    does: the row without its three secret attributes, or
    [USER_NOT_FOUND], and it leaves the tables as they were. *)
Theorem getUserById_answers_from_store env m id w :
  visible w (user_key id) = None \/ hd false (redis_faults w) = true ->
  no_fault 2 (db_faults w) = true ->
  exists w',
    getUserById env m id w = (store_answer m (db w) id, w') /\ db w' = db w.
Proof.
  intros Hc Hf. destruct (getUserById_miss env m id w Hc Hf) as (w' & Hrun & Hd).
  exists w'. split; assumption.
Qed.

Lemma getUserById_answers_from_store_witness :
  exists w',
    getUserById Demo.env (SysUser.model Demo.env) "u1"
      (set_redis_faults [true] (Demo.world 5000))
    = (Ok (VObj (exclude_attributes secret_attributes Demo.alice)), w')
    /\ db w' = Demo.tables.
Proof.
  apply (getUserById_answers_from_store Demo.env (SysUser.model Demo.env) "u1"
           (set_redis_faults [true] (Demo.world 5000))).
  - right. reflexivity.
  - reflexivity.
Defined.

Lemma getUserById_hit_skips_store_witness :
  fst Demo_reads.alice_delete_quietly = Ok true
  /\ stored (db (snd Demo_reads.alice_delete_quietly)) "u1" = None
  /\ fst (getUserById Demo.env (SysUser.model Demo.env) "u1"
            (set_db_faults [true; true]
               (set_now 300000 (snd Demo_reads.alice_delete_quietly))))
     = Ok (VObj (exclude_attributes secret_attributes Demo.alice)).
Proof.
  split; [vm_compute; reflexivity|]. split; [vm_compute; reflexivity|].
  rewrite (getUserById_hit_skips_store Demo.env (SysUser.model Demo.env) "u1"
             (set_db_faults [true; true]
                (set_now 300000 (snd Demo_reads.alice_delete_quietly)))
             (VObj (exclude_attributes secret_attributes Demo.alice))).
  - reflexivity.
  - vm_compute. reflexivity.
  - vm_compute. reflexivity.
  - reflexivity.
Defined.

(** ** Writing a user *)

(** A transaction either fails and leaves the tables as they were, or
    commits what its callback did. *)
Lemma transaction_outcome {A} (callback : M A) w r w' :
  transaction callback w = (r, w') ->
  (exists e, r = Throw e /\ db w' = db w)
  \/ exists fs a w1,
       callback (set_db_faults fs w) = (Ok a, w1) /\ r = Ok a /\ db w' = db w1.
Proof.
  unfold transaction, bind, try_catch, get_db, put_db, ret, throw.
  destruct (db_call_cases w) as [r1 [E1|E1]]; rewrite E1;
    [|intros [= <- <-]; left; eauto].
  cbn [db set_db_faults].
  destruct (db_call_cases (set_db_faults r1 w)) as [r2 [E2|E2]]; rewrite E2;
    [|intros [= <- <-]; left; eauto].
  change (set_db_faults r2 (set_db_faults r1 w)) with (set_db_faults r2 w).
  destruct (callback (set_db_faults r2 w)) as [[a|e] w3] eqn:Ecb.
  - destruct (db_call_cases w3) as [r3 [E3|E3]]; rewrite E3.
    + intros [= <- <-]. right. exists r2, a, w3. auto.
    + cbn [set_db set_db_faults db].
      destruct (db_call_cases
                  (set_db (db w) (set_db_faults r3 w3))) as [r4 [E4|E4]]; rewrite E4;
        intros [= <- <-]; left; eauto.
  - destruct (db_call_cases (set_db (db w) w3)) as [r4 [E4|E4]]; rewrite E4;
      intros [= <- <-]; left; eauto.
Qed.

Lemma RedisClient_del_shape key w :
  exists b R fs, RedisClient_del key w = (Ok b, set_redis R (set_redis_faults fs w)).
Proof.
  unfold RedisClient_del, ensureConnection, client_del.
  unfold try_catch, bind, redis_command, ret.
  destruct (next_fault (redis_faults w)) as [[] r1].
  - exists false, (redis w), r1. reflexivity.
  - cbn [redis_faults set_redis_faults].
    destruct (next_fault r1) as [[] r2]; cbv beta iota.
    + exists false, (redis w), r2. reflexivity.
    + eexists true, _, r2. reflexivity.
Qed.

Section WriteEffects.
Context (m : UserModel).

(** What [updateUser] does to the tables and what it returns. *)
Lemma updateUser_outcome id userData w r w' :
  updateUser m id userData w = (r, w') ->
  (exists e, r = Throw e /\ db w' = db w)
  \/ exists row row1,
       visible_row m (db w) id = Some row
       /\ m_beforeSave m false
            (instance_set (m_columns m) (exclude_attributes protectedFields userData) row)
          = Some row1
       /\ db w' = saved m (now w) row1 (db w)
       /\ r = Ok (sanitizeUser (saved_row m (now w) row1)).
Proof.
  unfold updateUser. unfold bind at 1, getUserModel.
  destruct (db_call_cases w) as [r0 [E0|E0]]; rewrite E0;
    [|intros [= <- <-]; left; eauto].
  unfold try_catch.
  destruct (transaction _ (set_db_faults r0 w)) as [r1 w1] eqn:Etx.
  apply transaction_outcome in Etx as [(e & -> & Hd)|(fs & a & w2 & Hcb & -> & Hd)].
  - unfold rethrow_or. destruct (instanceof_ApiError e); intros [= <- <-]; left; eauto.
  - intros [= <- <-]. right. rewrite Hd. clear Hd. revert Hcb.
    change (set_db_faults fs (set_db_faults r0 w)) with (set_db_faults fs w).
    unfold Model_findByPk. unfold bind at 1. unfold bind at 1.
    destruct (db_call_cases (set_db_faults fs w)) as [r2 [E2|E2]]; rewrite E2;
      [|discriminate].
    unfold bind at 1. unfold get_db, ret at 1. cbv beta iota.
    unfold bind at 1. cbn [db set_db_faults].
    change (List.find (fun r => in_scope m r && String.eqb (row_id r) id) (users (db w)))
      with (visible_row m (db w) id).
    destruct (visible_row m (db w) id) as [row|]; cbn [option_map]; [|discriminate].
    change (exclude_attributes [] row) with row.
    unfold instance_update, instance_save. cbn [i_row i_roles].
    destruct (m_beforeSave m false _) as [row1|] eqn:Eh; [|discriminate].
    unfold bind at 1. unfold bind at 1. unfold bind at 1. unfold Date_now.
    cbn [now set_db_faults].
    destruct (db_call_cases (set_db_faults r2 (set_db_faults fs w))) as [r3 [E3|E3]];
      rewrite E3; [|discriminate].
    unfold bind at 1. unfold get_db at 1. cbv beta iota.
    unfold bind at 1. unfold put_users at 1. cbv beta iota. unfold ret at 1.
    cbv beta iota.
    match goal with
    | |- context [RedisClient_del ?k ?w0] =>
        destruct (RedisClient_del_shape k w0) as (b & R & fs' & Hs)
    end.
    unfold bind. rewrite Hs. unfold ret. intros [= <- <-].
    exists row, row1. repeat split; try reflexivity. exact Eh.
Qed.
End WriteEffects.

Lemma obj_has_instance_set k cols values row :
  obj_has k values = false ->
  obj_get k (instance_set cols values row) = obj_get k row.
Proof.
  unfold instance_set. revert row.
  induction values as [|[k0 v0] vs IH]; intros row Hk; [reflexivity|].
  cbn [obj_has] in Hk. apply orb_false_elim in Hk as [Hk0 Hk].
  cbn [fold_left fst snd]. rewrite IH by exact Hk.
  destruct (existsb (String.eqb k0) cols); [|reflexivity].
  apply obj_get_set_ne. intros ->. now rewrite String.eqb_refl in Hk0.
Qed.

Lemma model_file_hook env m row :
  model_file env m -> m_beforeSave m false row = Some row.
Proof. intros [->| ->]; reflexivity. Qed.

Lemma saved_row_get m t row k :
  k <> "updatedAt" -> obj_get k (saved_row m t row) = obj_get k row.
Proof.
  intros Hk. unfold saved_row. destruct (m_timestamps m); [|reflexivity].
  now apply obj_get_set_ne.
Qed.

Lemma row_id_get row row' : obj_get "id" row' = obj_get "id" row -> row_id row' = row_id row.
Proof. unfold row_id. now intros ->. Qed.

(** X19.  [updateUser] never changes the [id], the password hash or the
    reset-token columns of a row, whatever the request body holds: when it
    has changed the tables, it has replaced the row of that [id] by one
    with the same four values, and touched no other row. *)
Theorem updateUser_spares_protected_fields env m id userData w :
  model_file env m ->
  db (snd (updateUser m id userData w)) = db w
  \/ exists row row',
       visible_row m (db w) id = Some row
       /\ db (snd (updateUser m id userData w))
          = set_users (replace_row row' (users (db w))) (db w)
       /\ row_id row' = id
       /\ Forall (fun k => obj_get k row' = obj_get k row) protectedFields.
Proof.
  intros Hm. destruct (updateUser m id userData w) as [r w'] eqn:Hrun. cbn [snd].
  apply updateUser_outcome in Hrun as [(e & _ & Hd)|(row & row1 & Hrow & Hh & Hd & _)];
    [left; exact Hd|].
  right. rewrite (model_file_hook env m _ Hm) in Hh. injection Hh as <-.
  exists row, (saved_row m (now w)
                 (instance_set (m_columns m) (exclude_attributes protectedFields userData) row)).
  assert (Hk : forall k, In k protectedFields ->
             obj_get k (saved_row m (now w)
                          (instance_set (m_columns m)
                             (exclude_attributes protectedFields userData) row))
             = obj_get k row).
  { intros k Hin. rewrite saved_row_get.
    - apply obj_has_instance_set. rewrite obj_has_exclude.
      apply (existsb_str_In k protectedFields) in Hin. now rewrite Hin.
    - intros ->. cbn in Hin. intuition discriminate. }
  split; [exact Hrow|]. split; [exact Hd|]. split.
  - rewrite <- (visible_row_id _ _ _ _ Hrow). apply row_id_get. apply Hk. now left.
  - apply List.Forall_forall. exact Hk.
Qed.

Lemma updateUser_spares_protected_fields_witness :
  exists row row',
    visible_row (SysUser.model Demo.env) (db (Demo.world 5000)) "u1" = Some row
    /\ db (snd (updateUser (SysUser.model Demo.env) "u1"
                  [("id", VStr "u2"); ("password", VStr "x"); ("email", VStr "a@example.org")]
                  (Demo.world 5000)))
       = set_users (replace_row row' (users (db (Demo.world 5000)))) (db (Demo.world 5000))
    /\ row_id row' = "u1"
    /\ Forall (fun k => obj_get k row' = obj_get k row) protectedFields.
Proof.
  destruct (updateUser_spares_protected_fields Demo.env (SysUser.model Demo.env) "u1"
              [("id", VStr "u2"); ("password", VStr "x"); ("email", VStr "a@example.org")]
              (Demo.world 5000) (or_intror eq_refl)) as [H|H]; [|exact H].
  vm_compute in H. discriminate H.
Defined.



Section DeleteEffects.
Context (m : UserModel).

(** What [deleteUser] does to the tables. *)
Lemma deleteUser_outcome id w r w' :
  deleteUser m id w = (r, w') ->
  (exists e, r = Throw e /\ db w' = db w)
  \/ exists row,
       visible_row m (db w) id = Some row
       /\ r = Ok true
       /\ db w'
          = set_users
              (if m_paranoid m
               then replace_row (obj_set "deletedAt" (VDate (now w)) row) (users (db w))
               else remove_row (row_id row) (users (db w)))
              (db w).
Proof.
  unfold deleteUser. unfold bind at 1, getUserModel.
  destruct (db_call_cases w) as [r0 [E0|E0]]; rewrite E0;
    [|intros [= <- <-]; left; eauto].
  unfold try_catch.
  destruct (transaction _ (set_db_faults r0 w)) as [r1 w1] eqn:Etx.
  apply transaction_outcome in Etx as [(e & -> & Hd)|(fs & a & w2 & Hcb & -> & Hd)].
  - unfold rethrow_or. destruct (instanceof_ApiError e); intros [= <- <-]; left; eauto.
  - intros [= <- <-]. right. rewrite Hd. clear Hd. revert Hcb.
    change (set_db_faults fs (set_db_faults r0 w)) with (set_db_faults fs w).
    unfold Model_findByPk. unfold bind at 1. unfold bind at 1.
    destruct (db_call_cases (set_db_faults fs w)) as [r2 [E2|E2]]; rewrite E2;
      [|discriminate].
    unfold bind at 1. unfold get_db, ret at 1. cbv beta iota.
    unfold bind at 1. cbn [db set_db_faults].
    change (List.find (fun r => in_scope m r && String.eqb (row_id r) id) (users (db w)))
      with (visible_row m (db w) id).
    destruct (visible_row m (db w) id) as [row|]; cbn [option_map]; [|discriminate].
    change (exclude_attributes [] row) with row.
    unfold instance_destroy. cbn [i_row].
    unfold bind at 1. unfold bind at 1. unfold bind at 1. unfold Date_now.
    cbn [now set_db_faults].
    destruct (db_call_cases (set_db_faults r2 (set_db_faults fs w))) as [r3 [E3|E3]];
      rewrite E3; [|discriminate].
    unfold bind at 1. unfold get_db at 1. cbv beta iota. cbn [db set_db_faults].
    destruct (m_paranoid m); unfold put_users at 1; cbv beta iota;
      match goal with
      | |- context [RedisClient_del ?k ?w0] =>
          destruct (RedisClient_del_shape k w0) as (b & R & fs' & Hs)
      end;
      unfold bind; rewrite Hs; unfold ret; intros [= <- <-];
      exists row; repeat split; reflexivity.
Qed.

Lemma visible_row_deleted id row us d t :
  row_id row = id ->
  visible_row m
    (set_users
       (if m_paranoid m
        then replace_row (obj_set "deletedAt" (VDate t) row) us
        else remove_row (row_id row) us) d) id
  = None.
Proof.
  intros Hid. unfold visible_row. cbn [users set_users].
  destruct (m_paranoid m) eqn:Ep.
  - set (gone := obj_set "deletedAt" (VDate t) row).
    assert (Hgi : row_id gone = row_id row)
      by (unfold gone; now rewrite row_id_set by discriminate).
    assert (Hgs : in_scope m gone = false).
    { unfold in_scope, gone. rewrite Ep, obj_get_set_eq. reflexivity. }
    clearbody gone. unfold replace_row. rewrite Hgi.
    induction us as [|r us IH]; [reflexivity|].
    cbn [map List.find].
    destruct (String.eqb_spec (row_id r) (row_id row)) as [E|E].
    + rewrite Hgs. cbn [andb]. exact IH.
    + replace (String.eqb (row_id r) id) with false
        by (symmetry; apply String.eqb_neq; congruence).
      rewrite andb_false_r. exact IH.
  - induction us as [|r us IH]; [reflexivity|].
    cbn [remove_row List.filter]. fold (remove_row (row_id row) us).
    destruct (String.eqb_spec (row_id r) (row_id row)) as [E|E]; cbn [negb]; [exact IH|].
    cbn [List.find].
    replace (String.eqb (row_id r) id) with false
      by (symmetry; apply String.eqb_neq; congruence).
    rewrite andb_false_r. exact IH.
Qed.
End DeleteEffects.

(** X21.  Once [deleteUser] has returned (Redis answering), the next
    [getUserById] of that [id] is answered [USER_NOT_FOUND], with either
    way of deleting (soft for a paranoid model, hard otherwise), as long as
    nobody re-created the row or re-cached the key in between and the
    store answers. *)
Theorem deleteUser_then_getUserById env m id w b w1 w2 :
  deleteUser m id w = (Ok b, w1) ->
  no_fault 2 (redis_faults w) = true ->
  db w2 = db w1 ->
  redis w2 !! user_key id = redis w1 !! user_key id ->
  no_fault 2 (db_faults w2) = true ->
  fst (getUserById env m id w2) = Throw USER_NOT_FOUND.
Proof.
  intros Hrun Hf Hdb Hkey Hf2.
  pose proof (deleteUser_unbinds_snapshot m id w b w1 Hrun Hf) as Hnone.
  apply deleteUser_outcome in Hrun as [(e & He & _)|(row & Hrow & _ & Hd)];
    [discriminate|].
  destruct (getUserById_miss env m id w2) as (w3 & Hget & _);
    [left; unfold visible; now rewrite Hkey, Hnone | exact Hf2 |].
  rewrite Hget. cbn [fst]. unfold store_answer. rewrite Hdb, Hd.
  rewrite visible_row_deleted; [reflexivity|]. exact (visible_row_id _ _ _ _ Hrow).
Qed.


Lemma deleteUser_then_getUserById_witness :
  fst Demo.alice_delete = Ok true
  /\ fst (getUserById Demo.env (SysUser.model Demo.env) "u1" (snd Demo.alice_delete))
     = Throw USER_NOT_FOUND.
Proof.
  assert (Hf : no_fault 2 (db_faults (snd Demo.alice_delete)) = true)
    by (vm_compute; reflexivity).
  assert (Hb : fst Demo.alice_delete = Ok true) by (vm_compute; reflexivity).
  split; [exact Hb|].
  destruct Demo.alice_delete as [r w1] eqn:E. cbn [fst snd] in *. subst r.
  apply (deleteUser_then_getUserById Demo.env (SysUser.model Demo.env) "u1"
           (set_now 6000 (snd Demo.alice_read)) true w1 w1).
  - exact E.
  - vm_compute. reflexivity.
  - reflexivity.
  - reflexivity.
  - exact Hf.
Defined.
